(** * Verification of the classification cascade

    A shallow embedding of the rule matcher ([rules.py]), the related
    component table ([multi_component_mapping.py]), the two-stage
    hierarchical predictor ([hierarchical_inference.py]), the feedback
    store ([feedback_storage.py]), the recommend and detect entry points
    ([app.py]) and the retraining job ([retrain_with_feedback.py]).

    Conventions.
    - Python [str] values are [string]s whose characters are the code
      points below 256; [lower], [strip] and [in] follow CPython on that
      range.
    - Python floats (probabilities, confidences) are exact rationals [Q];
      only sums, products, quotients and comparisons of them occur. How
      a float is printed is left to the environment.
    - A Python exception is a value of [result]; [try/except] is a match.
    - A [dict] is an insertion-ordered association list. *)

From Stdlib Require Import String Ascii List Bool Arith ZArith QArith Lia.
From Stdlib Require Import Permutation Sorted DecimalString.
Import ListNotations.
Close Scope Q_scope.
Open Scope string_scope.

(** ** Python strings *)
Module PyStr.

(** [str.isspace] for one code point below 256. *)
Definition isspace (c : ascii) : bool :=
  let n := nat_of_ascii c in
  (((9 <=? n) && (n <=? 13)) || ((28 <=? n) && (n <=? 32))
   || (n =? 133) || (n =? 160))%nat.

(** [str.lower] for one code point below 256: A-Z and the Latin-1
    capitals (all of 192..222 but the multiplication sign 215). *)
Definition lower_char (c : ascii) : ascii :=
  let n := nat_of_ascii c in
  if (((65 <=? n) && (n <=? 90))
      || ((192 <=? n) && (n <=? 222) && negb (n =? 215)))%nat
  then ascii_of_nat (n + 32) else c.

Fixpoint lower (s : string) : string :=
  match s with
  | EmptyString => EmptyString
  | String c s' => String (lower_char c) (lower s')
  end.

Fixpoint lstrip (s : string) : string :=
  match s with
  | EmptyString => EmptyString
  | String c s' => if isspace c then lstrip s' else s
  end.

Fixpoint rstrip (s : string) : string :=
  match s with
  | EmptyString => EmptyString
  | String c s' =>
      match rstrip s' with
      | EmptyString => if isspace c then EmptyString else String c EmptyString
      | r => String c r
      end
  end.

Definition strip (s : string) : string := rstrip (lstrip s).

(** Truth value of a string: [if s:] holds unless [s] is empty. *)
Definition truthy (s : string) : bool :=
  match s with EmptyString => false | _ => true end.

Fixpoint startswith (p s : string) : bool :=
  match p, s with
  | EmptyString, _ => true
  | String a p', String b s' => Ascii.eqb a b && startswith p' s'
  | String _ _, EmptyString => false
  end.

(** [needle in hay]. *)
Fixpoint contains (needle hay : string) : bool :=
  startswith needle hay
  || match hay with
     | EmptyString => false
     | String _ hay' => contains needle hay'
     end.

Fixpoint all_space (s : string) : bool :=
  match s with
  | EmptyString => true
  | String c s' => isspace c && all_space s'
  end.

Definition mem (x : string) (l : list string) : bool :=
  existsb (String.eqb x) l.

End PyStr.

(** ** Exceptions *)
Inductive result (A : Type) : Type :=
| Ok (a : A)
| Raise (msg : string).
Arguments Ok {A} a.
Arguments Raise {A} msg.

Definition bind {A B} (r : result A) (k : A -> result B) : result B :=
  match r with
  | Ok a => k a
  | Raise m => Raise m
  end.

Notation "x <- r ;; k" := (bind r (fun x => k))
  (at level 61, r at next level, right associativity).

Definition of_option {A} (msg : string) (o : option A) : result A :=
  match o with Some a => Ok a | None => Raise msg end.

(** ** rules.py *)
Module Rules.

(** The ["keywords"] entry is a list (all must occur) or one string. *)
Inductive Keywords : Type :=
| KwList (kws : list string)
| KwStr (kw : string).

(** [related_components] is [None] for a rule without that key. *)
Record Rule : Type := mkRule {
  keywords : Keywords;
  component : string;
  confidence : Q;
  explanation : string;
  related_components : option (list string)
}.

Definition RuleResult : Type := (string * Q * string * list string)%type.

(** [rule.get("related_components", [])]. *)
Definition related_of (r : Rule) : list string :=
  match related_components r with Some l => l | None => [] end.

(** The test of one loop iteration of [match_rule]. *)
Definition rule_fires (text_lower : string) (r : Rule) : bool :=
  match keywords r with
  | KwList kws =>
      forallb (fun kw => PyStr.contains (PyStr.lower kw) text_lower) kws
  | KwStr kw => PyStr.contains (PyStr.lower kw) text_lower
  end.

Definition package (r : Rule) : RuleResult :=
  (component r, confidence r, explanation r, related_of r).

Fixpoint first_match (text_lower : string) (rules : list Rule)
  : option RuleResult :=
  match rules with
  | [] => None
  | r :: rest =>
      if rule_fires text_lower r then Some (package r)
      else first_match text_lower rest
  end.

Definition match_rule_in (rules : list Rule) (text : string)
  : option RuleResult :=
  first_match (PyStr.strip (PyStr.lower text)) rules.

Definition RULES : list Rule := [
    mkRule (KwStr "ps not start")
      "PSU Upgrade" (95 # 100)%Q
      "Power supply not starting indicates PSU failure. Also check power cable."
      (Some ["Power Cable Replacement"]);
    mkRule (KwStr "pc not start")
      "PSU Upgrade" (94 # 100)%Q
      "PC not starting could be PSU or power cable issue."
      (Some ["Power Cable Replacement"]);
    mkRule (KwStr "no power")
      "PSU Upgrade" (95 # 100)%Q
      "No power usually means PSU failure."
      (Some ["Power Cable Replacement"]);
    mkRule (KwStr "pc slow")
      "RAM Upgrade" (90 # 100)%Q
      "Slow PC often needs RAM or SSD upgrade."
      (Some ["SSD Upgrade"; "CPU Upgrade"]);
    mkRule (KwStr "pc vey slow")
      "RAM Upgrade" (90 # 100)%Q
      "Very slow PC typically needs RAM or SSD upgrade."
      (Some ["SSD Upgrade"]);
    mkRule (KwStr "computer slow")
      "RAM Upgrade" (90 # 100)%Q
      "Slow computer usually needs RAM or SSD upgrade."
      (Some ["SSD Upgrade"]);
    mkRule (KwStr "no internet")
      "WiFi Adapter Upgrade" (92 # 100)%Q
      "No internet could be WiFi adapter or router issue."
      (Some ["Router Upgrade"]);
    mkRule (KwStr "no internet in my pc")
      "WiFi Adapter Upgrade" (92 # 100)%Q
      "No internet on PC suggests WiFi adapter or router problem."
      (Some ["Router Upgrade"]);
    mkRule (KwList ["no display"; "fans spinning"; "no signal"])
      "Monitor or GPU Check" (95 # 100)%Q
      "No display with fans spinning typically indicates a GPU or monitor issue. Check GPU connections and monitor cables first."
      (None);
    mkRule (KwList ["no display"; "black screen"; "fans working"])
      "Monitor or GPU Check" (95 # 100)%Q
      "Black screen with working fans suggests a display or GPU problem. Verify monitor connections and GPU seating."
      (None);
    mkRule (KwStr "pc shuts down instantly")
      "PSU Upgrade" (96 # 100)%Q
      "Instant shutdowns are typically caused by power supply failure. The PSU cannot provide stable power to components."
      (None);
    mkRule (KwStr "immediate shutdown")
      "PSU Upgrade" (96 # 100)%Q
      "Immediate shutdowns indicate power supply failure. Replace the PSU."
      (None);
    mkRule (KwList ["random shutdown"; "power issue"; "turns off randomly"])
      "PSU Upgrade" (94 # 100)%Q
      "Random shutdowns often indicate insufficient or failing power supply. Upgrade to a higher wattage PSU."
      (None);
    mkRule (KwList ["no power"; "won't turn on"; "dead"])
      "PSU Upgrade" (95 # 100)%Q
      "Complete power failure usually indicates a dead power supply unit. Replace the PSU."
      (None);
    mkRule (KwList ["slow"; "multitasking"; "chrome tabs"; "browser"])
      "RAM Upgrade" (92 # 100)%Q
      "Slow performance with multiple browser tabs typically indicates insufficient RAM. Upgrade RAM for better multitasking."
      (None);
    mkRule (KwList ["tabs closing"; "out of memory"; "memory error"])
      "RAM Upgrade" (93 # 100)%Q
      "Browser tabs closing automatically or memory errors suggest RAM capacity issues. Add more RAM."
      (None);
    mkRule (KwList ["slow boot"; "takes long to start"; "windows slow startup"])
      "SSD Upgrade" (91 # 100)%Q
      "Slow boot times are often caused by old HDD. Upgrade to SSD for significantly faster startup."
      (None);
    mkRule (KwList ["loading slow"; "files slow"; "disk 100%"])
      "SSD Upgrade" (90 # 100)%Q
      "Slow file loading and high disk usage indicate storage bottleneck. Upgrade to SSD for better performance."
      (None);
    mkRule (KwStr "low fps")
      "GPU Upgrade" (92 # 100)%Q
      "Low FPS typically indicates insufficient GPU power. Upgrade your graphics card."
      (None);
    mkRule (KwStr "gaming lag")
      "GPU Upgrade" (92 # 100)%Q
      "Gaming lag typically indicates insufficient GPU power. Upgrade your graphics card."
      (None);
    mkRule (KwStr "frame drops")
      "GPU Upgrade" (92 # 100)%Q
      "Frame drops typically indicate insufficient GPU power. Upgrade your graphics card."
      (None);
    mkRule (KwList ["graphics card"; "gpu"; "video card"])
      "GPU Upgrade" (88 # 100)%Q
      "Explicit mention of graphics card suggests GPU upgrade is needed."
      (None);
    mkRule (KwList ["overheating"; "too hot"; "thermal"])
      "CPU Cooler Upgrade" (90 # 100)%Q
      "Overheating issues require better cooling. Upgrade CPU cooler and ensure proper thermal paste application."
      (None);
    mkRule (KwList ["thermal paste"; "cpu temperature"; "high temp"])
      "Thermal Paste Reapply" (93 # 100)%Q
      "High CPU temperatures often indicate dried or improperly applied thermal paste. Reapply thermal paste."
      (None);
    mkRule (KwList ["wifi disconnects"; "unstable wifi"; "internet drops"])
      "WiFi Adapter Upgrade" (91 # 100)%Q
      "Unstable WiFi connections suggest adapter issues. Upgrade to a better WiFi adapter."
      (None);
    mkRule (KwList ["no wifi"; "can't connect"; "wifi not working"])
      "WiFi Adapter Upgrade" (89 # 100)%Q
      "Complete WiFi failure may indicate adapter malfunction. Replace or upgrade WiFi adapter."
      (None);
    mkRule (KwList ["flickering"; "lines on screen"; "artifacts"])
      "Monitor or GPU Check" (92 # 100)%Q
      "Screen flickering or artifacts can indicate GPU issues or monitor problems. Check both components."
      (None);
    mkRule (KwList ["dead pixels"; "screen damage"; "cracked screen"])
      "Monitor Replacement" (95 # 100)%Q
      "Physical screen damage requires monitor replacement."
      (None);
    mkRule (KwList ["slow boot"; "takes long to start"; "windows slow startup"])
      "SSD Upgrade" (91 # 100)%Q
      "Slow boot times are often caused by old HDD. Upgrade to SSD for significantly faster startup."
      (Some ["RAM Upgrade"]);
    mkRule (KwList ["loading slow"; "files slow"; "disk 100%"])
      "SSD Upgrade" (90 # 100)%Q
      "Slow file loading and high disk usage indicate storage bottleneck. Upgrade to SSD for better performance."
      (Some ["RAM Upgrade"]);
    mkRule (KwList ["low fps"; "frame rate low"; "fps drops"])
      "GPU Upgrade" (92 # 100)%Q
      "Low FPS typically indicates insufficient GPU power. Upgrade your graphics card."
      (Some ["CPU Upgrade"; "RAM Upgrade"]);
    mkRule (KwList ["gaming lag"; "game stutter"; "game performance"])
      "GPU Upgrade" (92 # 100)%Q
      "Gaming lag typically indicates insufficient GPU power. Upgrade your graphics card."
      (Some ["CPU Upgrade"]);
    mkRule (KwList ["slow multitasking"; "many programs"; "multiple apps"])
      "RAM Upgrade" (92 # 100)%Q
      "Slow performance with multiple programs typically indicates insufficient RAM. Upgrade RAM for better multitasking."
      (Some ["SSD Upgrade"; "CPU Upgrade"]);
    mkRule (KwList ["tabs closing"; "out of memory"; "memory error"])
      "RAM Upgrade" (93 # 100)%Q
      "Browser tabs closing automatically or memory errors suggest RAM capacity issues. Add more RAM."
      (Some []);
    mkRule (KwList ["cpu overheating"; "processor too hot"; "cpu temperature"])
      "CPU Cooler Upgrade" (90 # 100)%Q
      "CPU overheating requires better cooling. Upgrade CPU cooler and ensure proper thermal paste application."
      (Some ["Thermal Paste Reapply"; "Case Fan Upgrade"]);
    mkRule (KwList ["gpu overheating"; "graphics card hot"; "gpu temperature"])
      "GPU Cooler Upgrade" (90 # 100)%Q
      "GPU overheating requires better cooling. Check GPU fans and consider upgrading GPU cooler."
      (Some ["Case Fan Upgrade"]);
    mkRule (KwList ["wifi disconnects"; "unstable wifi"; "internet drops"])
      "WiFi Adapter Upgrade" (91 # 100)%Q
      "Unstable WiFi connections suggest adapter issues. Upgrade to a better WiFi adapter."
      (Some ["Router Upgrade"]);
    mkRule (KwList ["no wifi"; "can't connect"; "wifi not working"])
      "WiFi Adapter Upgrade" (89 # 100)%Q
      "Complete WiFi failure may indicate adapter malfunction. Replace or upgrade WiFi adapter."
      (Some ["Router Upgrade"]);
    mkRule (KwList ["laptop battery"; "battery not charging"; "battery dead"])
      "Laptop Battery Replacement" (93 # 100)%Q
      "Laptop battery issues require battery replacement. Check if battery is swollen or not holding charge."
      (Some []);
    mkRule (KwList ["usb ports not enough"; "need more usb"; "usb devices not connecting"])
      "USB Hub" (88 # 100)%Q
      "Insufficient USB ports can be solved with a USB hub. Connect multiple devices simultaneously."
      (Some []);
    mkRule (KwStr "lap camera")
      "Webcam Upgrade" (95 # 100)%Q
      "Laptop camera not working requires webcam upgrade or repair. Check if it's a built-in laptop camera or external webcam."
      (Some []);
    mkRule (KwStr "laptop camera")
      "Webcam Upgrade" (95 # 100)%Q
      "Laptop camera not working requires webcam upgrade or repair. Check if it's a built-in laptop camera or external webcam."
      (Some []);
    mkRule (KwStr "camera not working")
      "Webcam Upgrade" (95 # 100)%Q
      "Camera not working requires webcam upgrade or repair. Check if it's a built-in laptop camera or external webcam."
      (Some []);
    mkRule (KwStr "webcam not working")
      "Webcam Upgrade" (95 # 100)%Q
      "Webcam not working requires webcam upgrade or repair. Check if it's a built-in laptop camera or external webcam."
      (Some []);
    mkRule (KwList ["zoom"; "no sound"])
      "Audio Issue" (93 # 100)%Q
      "Zoom no sound is an audio issue. Check audio settings in Zoom and Windows."
      (Some []);
    mkRule (KwList ["teams"; "no sound"])
      "Audio Issue" (93 # 100)%Q
      "Teams no sound is an audio issue. Check audio settings in Teams and Windows."
      (Some []);
    mkRule (KwList ["zoom"; "no audio"])
      "Audio Issue" (93 # 100)%Q
      "Zoom no audio is an audio issue. Check audio settings and device selection."
      (Some []);
    mkRule (KwList ["zoom"; "camera"])
      "Webcam Upgrade" (95 # 100)%Q
      "Zoom camera issues are webcam problems. Check webcam settings in Zoom and Windows Privacy settings."
      (Some []);
    mkRule (KwList ["zoom"; "video"])
      "Webcam Upgrade" (94 # 100)%Q
      "Zoom video not working indicates webcam problem. Check webcam permissions and hardware."
      (Some []);
    mkRule (KwList ["zoom"; "not showing"])
      "Webcam Upgrade" (94 # 100)%Q
      "Zoom not showing video is a webcam issue. Check webcam settings and permissions."
      (Some []);
    mkRule (KwList ["zoom"; "can't see"])
      "Webcam Upgrade" (94 # 100)%Q
      "Can't see yourself in Zoom means webcam is not working. Check webcam settings and hardware."
      (Some []);
    mkRule (KwStr "zoom application")
      "Webcam Upgrade" (93 # 100)%Q
      "Zoom application camera/video issues are webcam problems. Check webcam settings and permissions."
      (Some []);
    mkRule (KwStr "zoom")
      "Webcam Upgrade" (90 # 100)%Q
      "Zoom issues are usually webcam problems. Check webcam settings in Zoom and Windows Privacy settings."
      (Some []);
    mkRule (KwList ["zoom"; "camera"])
      "Webcam Upgrade" (94 # 100)%Q
      "Zoom camera not showing is a webcam issue. Check webcam settings in Zoom and Windows Privacy settings."
      (Some []);
    mkRule (KwList ["zoom"; "video"])
      "Webcam Upgrade" (94 # 100)%Q
      "Zoom video not working indicates webcam problem. Check webcam permissions and hardware."
      (Some []);
    mkRule (KwList ["zoom"; "not showing"])
      "Webcam Upgrade" (94 # 100)%Q
      "Zoom not showing video is a webcam issue. Check webcam settings and permissions."
      (Some []);
    mkRule (KwList ["zoom"; "can't see"])
      "Webcam Upgrade" (94 # 100)%Q
      "Can't see yourself in Zoom means webcam is not working. Check webcam settings and hardware."
      (Some []);
    mkRule (KwStr "zoom application")
      "Webcam Upgrade" (93 # 100)%Q
      "Zoom application camera/video issues are webcam problems. Check webcam settings and permissions."
      (Some []);
    mkRule (KwStr "teams")
      "Webcam Upgrade" (92 # 100)%Q
      "Teams camera/video issues are webcam problems. Check webcam settings in Teams and Windows."
      (Some []);
    mkRule (KwList ["teams"; "camera"])
      "Webcam Upgrade" (94 # 100)%Q
      "Teams camera not working is a webcam issue. Check webcam settings in Teams and Windows."
      (Some []);
    mkRule (KwStr "skype")
      "Webcam Upgrade" (92 # 100)%Q
      "Skype camera/video issues are webcam problems. Check webcam permissions and hardware."
      (Some []);
    mkRule (KwList ["skype"; "camera"])
      "Webcam Upgrade" (94 # 100)%Q
      "Skype camera not working indicates webcam problem. Check webcam permissions and hardware."
      (Some []);
    mkRule (KwStr "video call")
      "Webcam Upgrade" (91 # 100)%Q
      "Video call issues are usually webcam problems. Check webcam settings and permissions."
      (Some []);
    mkRule (KwList ["video call"; "camera"])
      "Webcam Upgrade" (93 # 100)%Q
      "Video call camera not working is a webcam issue. Check webcam settings and permissions."
      (Some []);
    mkRule (KwList ["video call"; "no video"])
      "Webcam Upgrade" (93 # 100)%Q
      "No video in video calls indicates webcam problem. Check webcam hardware and settings."
      (Some []);
    mkRule (KwStr "meeting")
      "Webcam Upgrade" (90 # 100)%Q
      "Meeting camera issues are webcam problems. Check webcam permissions and hardware."
      (Some []);
    mkRule (KwList ["meeting"; "camera"])
      "Webcam Upgrade" (93 # 100)%Q
      "Camera not showing in meetings is a webcam issue. Check webcam permissions and hardware."
      (Some []);
    mkRule (KwList ["zoom"; "mic"])
      "Microphone Upgrade" (92 # 100)%Q
      "Zoom microphone issues may require microphone upgrade. Check mic settings and permissions."
      (Some []);
    mkRule (KwList ["teams"; "mic"])
      "Microphone Upgrade" (92 # 100)%Q
      "Teams microphone issues may require microphone upgrade. Check mic settings and permissions."
      (Some []);
    mkRule (KwList ["discord"; "mic"])
      "Microphone Upgrade" (92 # 100)%Q
      "Discord microphone issues may require microphone upgrade. Check mic settings and permissions."
      (Some []);
    mkRule (KwList ["can't hear me"])
      "Microphone Upgrade" (91 # 100)%Q
      "People can't hear you indicates microphone problem. Check mic settings and hardware."
      (Some []);
    mkRule (KwList ["tabs closing"])
      "RAM Upgrade" (92 # 100)%Q
      "Browser tabs closing automatically indicates insufficient RAM. Upgrade RAM for better multitasking."
      (Some []);
    mkRule (KwList ["chrome tabs"])
      "RAM Upgrade" (91 # 100)%Q
      "Chrome tabs issues often indicate RAM problems. Check RAM usage and consider upgrade."
      (Some []);
    mkRule (KwList ["photoshop"; "slow"])
      "RAM Upgrade" (90 # 100)%Q
      "Photoshop slow performance typically needs more RAM. Check RAM usage during Photoshop."
      (Some []);
    mkRule (KwList ["premiere"; "slow"])
      "RAM Upgrade" (90 # 100)%Q
      "Premiere Pro slow performance typically needs more RAM. Video editing requires lots of RAM."
      (Some []);
    mkRule (KwList ["games"; "long to load"])
      "SSD Upgrade" (91 # 100)%Q
      "Games taking long to load indicates slow storage. Upgrade to SSD for faster loading times."
      (Some []);
    mkRule (KwList ["games"; "slow to load"])
      "SSD Upgrade" (91 # 100)%Q
      "Games slow to load indicates storage bottleneck. SSD upgrade significantly improves loading times."
      (Some []);
    mkRule (KwList ["loading"; "slow"])
      "SSD Upgrade" (90 # 100)%Q
      "Slow loading times indicate storage bottleneck. Upgrade to SSD for better performance."
      (Some []);
    mkRule (KwList ["netflix"; "buffering"])
      "WiFi Adapter Upgrade" (92 # 100)%Q
      "Netflix buffering indicates network issue. Check WiFi adapter and connection speed."
      (Some []);
    mkRule (KwList ["youtube"; "buffering"])
      "WiFi Adapter Upgrade" (92 # 100)%Q
      "YouTube buffering indicates network issue. Check WiFi adapter and connection speed."
      (Some []);
    mkRule (KwList ["streaming"; "buffering"])
      "WiFi Adapter Upgrade" (91 # 100)%Q
      "Streaming buffering indicates network issue. Upgrade WiFi adapter for better connection."
      (Some []);
    mkRule (KwStr "camera not detected")
      "Webcam Upgrade" (94 # 100)%Q
      "Camera not being detected suggests hardware or driver issue. May need webcam upgrade or driver update."
      (Some []);
    mkRule (KwStr "webcam not detected")
      "Webcam Upgrade" (94 # 100)%Q
      "Webcam not being detected suggests hardware or driver issue. May need webcam upgrade or driver update."
      (Some []);
    mkRule (KwStr "camera not showing")
      "Webcam Upgrade" (94 # 100)%Q
      "Camera not showing suggests hardware or driver issue. May need webcam upgrade or driver update."
      (Some []);
    mkRule (KwStr "camera error")
      "Webcam Upgrade" (93 # 100)%Q
      "Camera errors typically indicate hardware failure or driver issues. Consider webcam upgrade."
      (Some []);
    mkRule (KwStr "webcam error")
      "Webcam Upgrade" (93 # 100)%Q
      "Webcam errors typically indicate hardware failure or driver issues. Consider webcam upgrade."
      (Some []);
    mkRule (KwStr "camera problem")
      "Webcam Upgrade" (93 # 100)%Q
      "Camera problems typically indicate hardware failure or driver issues. Consider webcam upgrade."
      (Some []);
    mkRule (KwStr "webcam problem")
      "Webcam Upgrade" (93 # 100)%Q
      "Webcam problems typically indicate hardware failure or driver issues. Consider webcam upgrade."
      (Some []);
    mkRule (KwStr "camera not responding")
      "Webcam Upgrade" (95 # 100)%Q
      "Camera not responding usually means hardware failure. Upgrade to a new webcam."
      (Some []);
    mkRule (KwStr "webcam not responding")
      "Webcam Upgrade" (95 # 100)%Q
      "Webcam not responding usually means hardware failure. Upgrade to a new webcam."
      (Some []);
    mkRule (KwStr "camera broken")
      "Webcam Upgrade" (95 # 100)%Q
      "Broken camera requires webcam upgrade. Install a new webcam."
      (Some []);
    mkRule (KwStr "no camera")
      "Webcam Upgrade" (92 # 100)%Q
      "Missing camera requires webcam upgrade. Install an external webcam if built-in camera is not available."
      (Some []);
    mkRule (KwStr "no webcam")
      "Webcam Upgrade" (92 # 100)%Q
      "Missing webcam requires webcam upgrade. Install an external webcam if built-in camera is not available."
      (Some []);
    mkRule (KwStr "camera missing")
      "Webcam Upgrade" (92 # 100)%Q
      "Missing camera requires webcam upgrade. Install an external webcam if built-in camera is not available."
      (Some [])
  ].

Definition match_rule (text : string) : option RuleResult :=
  match_rule_in RULES text.

End Rules.

(** ** Python and NumPy list primitives *)
Module Py.

Definition Qlt_bool (a b : Q) : bool := negb (Qle_bool b a).

(** Built-in [sum] of a list of floats. *)
Definition sum (l : list Q) : Q := fold_left Qplus l 0%Q.

(** [l.sort(key=key, reverse=True)]: descending and stable, entries of
    equal key keep their original order. *)
Fixpoint insert_desc {A} (key : A -> Q) (x : A) (l : list A) : list A :=
  match l with
  | [] => [x]
  | y :: l' =>
      if Qle_bool (key y) (key x) then x :: y :: l'
      else y :: insert_desc key x l'
  end.

Definition sort_desc {A} (key : A -> Q) (l : list A) : list A :=
  fold_right (insert_desc key) [] l.

(** [np.argsort(v)]: the indices of [v] in ascending order of value.
    The default kind is not stable: NumPy leaves the order of equal
    values open, and it differs between builds (an insertion sort for
    short arrays in one, a vectorised sort in another). The function
    below fixes one such order, the index order. The theorems about the
    code hold whichever order equal values come in; an evaluated example
    with equal values shows the order fixed here. *)
Fixpoint insert_asc (x : nat * Q) (l : list (nat * Q)) : list (nat * Q) :=
  match l with
  | [] => [x]
  | y :: l' =>
      if Qle_bool (snd x) (snd y) then x :: y :: l'
      else y :: insert_asc x l'
  end.

Definition argsort (v : list Q) : list nat :=
  map fst (fold_right insert_asc [] (combine (seq 0 (length v)) v)).

(** [np.argmax(v)]: the first index of the maximum; [ValueError] on an
    empty sequence. *)
Fixpoint argmax_from (best_i : nat) (best : Q) (i : nat) (l : list Q)
  : nat :=
  match l with
  | [] => best_i
  | x :: l' =>
      if Qlt_bool best x then argmax_from i x (S i) l'
      else argmax_from best_i best (S i) l'
  end.

Definition argmax (v : list Q) : option nat :=
  match v with
  | [] => None
  | x :: l => Some (argmax_from 0 x 1 l)
  end.

(** Removal of repeated labels, first occurrence kept:
    [seen = set(); for label, c in l: if label not in seen: ...]. *)
Fixpoint dedupe_from (seen : list string) (l : list (string * Q))
  : list (string * Q) :=
  match l with
  | [] => []
  | (c, s) :: l' =>
      if PyStr.mem c seen then dedupe_from seen l'
      else (c, s) :: dedupe_from (c :: seen) l'
  end.

Definition dedupe (l : list (string * Q)) : list (string * Q) :=
  dedupe_from [] l.

End Py.

(** ** Insertion-ordered dictionaries with string keys *)
Module Dict.

Definition dict (V : Type) : Type := list (string * V).

Fixpoint get {V} (d : dict V) (k : string) : option V :=
  match d with
  | [] => None
  | (k', v) :: d' => if String.eqb k k' then Some v else get d' k
  end.

Definition get_default {V} (d : dict V) (k : string) (dflt : V) : V :=
  match get d k with Some v => v | None => dflt end.

(** [d[k] = v]: an existing key keeps its position, a new one goes last. *)
Fixpoint set {V} (d : dict V) (k : string) (v : V) : dict V :=
  match d with
  | [] => [(k, v)]
  | (k', v') :: d' =>
      if String.eqb k k' then (k, v) :: d' else (k', v') :: set d' k v
  end.

Definition map_values {V W} (f : V -> W) (d : dict V) : dict W :=
  map (fun kv => (fst kv, f (snd kv))) d.

End Dict.

(** ** multi_component_mapping.py *)
Module MultiComponent.

Definition PROBLEM_TO_COMPONENTS : Dict.dict (list string) := [
  ("slow", ["RAM Upgrade"; "SSD Upgrade"; "CPU Upgrade"]);
  ("sluggish", ["RAM Upgrade"; "SSD Upgrade"]);
  ("lag", ["RAM Upgrade"; "GPU Upgrade"]);
  ("freeze", ["RAM Upgrade"; "SSD Upgrade"]);
  ("hanging", ["RAM Upgrade"; "SSD Upgrade"]);
  ("slow boot", ["SSD Upgrade"; "RAM Upgrade"]);
  ("takes long to start", ["SSD Upgrade"]);
  ("boot time", ["SSD Upgrade"]);
  ("low fps", ["GPU Upgrade"; "RAM Upgrade"]);
  ("gaming lag", ["GPU Upgrade"; "RAM Upgrade"]);
  ("frame drops", ["GPU Upgrade"]);
  ("overheat",
   ["CPU Cooler Upgrade"; "Case Fan Upgrade"; "Thermal Paste Reapply"]);
  ("too hot", ["CPU Cooler Upgrade"; "Case Fan Upgrade"]);
  ("heating", ["CPU Cooler Upgrade"; "Thermal Paste Reapply"]);
  ("shuts down", ["PSU Upgrade"; "CPU Cooler Upgrade"]);
  ("random shutdown", ["PSU Upgrade"]);
  ("no power", ["PSU Upgrade"; "Power Cable Replacement"]);
  ("wont start", ["PSU Upgrade"; "Power Cable Replacement"]);
  ("no display", ["Monitor or GPU Check"; "Display Cable Replacement"]);
  ("black screen", ["Monitor or GPU Check"; "GPU Upgrade"]);
  ("no signal", ["Monitor or GPU Check"; "Display Cable Replacement"]);
  ("no internet", ["WiFi Adapter Upgrade"; "Router Upgrade"]);
  ("wifi disconnects", ["WiFi Adapter Upgrade"]);
  ("slow internet", ["WiFi Adapter Upgrade"; "Router Upgrade"]);
  ("full", ["SSD Upgrade"; "HDD Upgrade"]);
  ("no space", ["SSD Upgrade"; "HDD Upgrade"]);
  ("storage", ["SSD Upgrade"; "HDD Upgrade"])
].

(** [score = 0.7 if comp in components else 0.5]. *)
Definition relevance (comp : string) (components : list string) : Q :=
  if PyStr.mem comp components then (7 # 10)%Q else (5 # 10)%Q.

(** The inner loop [for comp in components: if comp != primary: ...];
    [components] is the whole list of the entry, [rest] what is left of
    the iteration. *)
Fixpoint scan_components (primary : string) (components rest : list string)
  : list (string * Q) :=
  match rest with
  | [] => []
  | comp :: rest' =>
      if negb (String.eqb comp primary)
      then (comp, relevance comp components)
             :: scan_components primary components rest'
      else scan_components primary components rest'
  end.

(** The outer loop over the items of a problem table. *)
Fixpoint scan_problems (table : Dict.dict (list string))
    (text_lower primary : string) : list (string * Q) :=
  match table with
  | [] => []
  | (problem, components) :: table' =>
      ((if PyStr.contains problem text_lower
        then scan_components primary components components
        else [])
       ++ scan_problems table' text_lower primary)%list
  end.

Definition get_related_components_in (table : Dict.dict (list string))
    (text primary_component : string) : list (string * Q) :=
  let text_lower := PyStr.lower text in
  let related := scan_problems table text_lower primary_component in
  let unique_related := Py.dedupe related in
  firstn 5 (Py.sort_desc snd unique_related).

Definition get_related_components (text primary_component : string)
  : list (string * Q) :=
  get_related_components_in PROBLEM_TO_COMPONENTS text primary_component.

Definition group_by_category (components : list (string * Q))
    (component_to_category : Dict.dict string)
  : Dict.dict (list (string * Q)) :=
  let grouped :=
    fold_left
      (fun grouped cc =>
         let category :=
           Dict.get_default component_to_category (fst cc) "Other" in
         Dict.set grouped category
           (Dict.get_default grouped category [] ++ [cc])%list)
      components [] in
  Dict.map_values (Py.sort_desc snd) grouped.

End MultiComponent.

Fixpoint traverse {A B} (f : A -> result B) (l : list A) : result (list B) :=
  match l with
  | [] => Ok []
  | a :: l' => b <- f a ;; bs <- traverse f l' ;; Ok (b :: bs)
  end.

(** ** hierarchical_inference.py *)
Module Hierarchical.

(** A fitted classifier: [predict_proba([text])[0]], which may raise, and
    the label array [classes_]. *)
Record Model : Type := mkModel {
  predict_proba : string -> result (list Q);
  classes_ : list string
}.

(** What is found at an artifact path: nothing, a file that [joblib.load]
    or [json.load] rejects, or a file holding a value. *)
Inductive File (A : Type) : Type :=
| Missing
| Unloadable
| Holds (a : A).
Arguments Missing {A}.
Arguments Unloadable {A}.
Arguments Holds {A} a.

Definition Mapping : Type := Dict.dict (list string).

Record Disk : Type := mkDisk {
  CATEGORY_MODEL_PATH : File Model;
  COMPONENT_MODEL_PATH : File Model;
  MAPPING_PATH : File Mapping
}.

(** The module globals filled by the lazy loader. *)
Record Globals : Type := mkGlobals {
  _category_model : option Model;
  _component_model : option Model;
  _category_mapping : option Mapping;
  _component_to_category : option (Dict.dict string)
}.

Definition fresh : Globals := mkGlobals None None None None.

(** [if cached is None and PATH.exists(): cached = load(PATH)]. *)
Definition load_if_absent {A} (cached : option A) (f : File A)
  : result (option A) :=
  match cached with
  | Some a => Ok (Some a)
  | None =>
      match f with
      | Missing => Ok None
      | Unloadable => Raise "load failed"
      | Holds a => Ok (Some a)
      end
  end.

(** The reverse mapping built by the nested loop of [_load_models]. *)
Definition reverse_mapping (m : Mapping) : Dict.dict string :=
  fold_left
    (fun acc entry =>
       fold_left (fun acc' component => Dict.set acc' component (fst entry))
                 (snd entry) acc)
    m [].

Definition Loaded : Type :=
  (option Model * option Model * option Mapping
   * option (Dict.dict string))%type.

Definition _load_models (d : Disk) (g : Globals)
  : Globals * result Loaded :=
  match load_if_absent (_category_model g) (CATEGORY_MODEL_PATH d) with
  | Raise m => (g, Raise m)
  | Ok cat =>
      let g1 := mkGlobals cat (_component_model g) (_category_mapping g)
                          (_component_to_category g) in
      match load_if_absent (_component_model g) (COMPONENT_MODEL_PATH d) with
      | Raise m => (g1, Raise m)
      | Ok comp =>
          let g2 := mkGlobals cat comp (_category_mapping g)
                              (_component_to_category g) in
          match _category_mapping g, MAPPING_PATH d with
          | None, Holds m =>
              let g3 := mkGlobals cat comp (Some m)
                                  (Some (reverse_mapping m)) in
              (g3, Ok (cat, comp, Some m, Some (reverse_mapping m)))
          | None, Unloadable => (g2, Raise "load failed")
          | _, _ =>
              (g2, Ok (cat, comp, _category_mapping g,
                       _component_to_category g))
          end
      end
  end.

(** The returned tuple: component, confidence, source, top-5
    alternatives, alternatives grouped by category. *)
Definition Output : Type :=
  (option string * Q * string * list (string * Q)
   * Dict.dict (list (string * Q)))%type.

Definition out_label (o : Output) : option string :=
  let '(l, _, _, _, _) := o in l.
Definition out_confidence (o : Output) : Q :=
  let '(_, c, _, _, _) := o in c.
Definition out_source (o : Output) : string :=
  let '(_, _, s, _, _) := o in s.
Definition out_top5 (o : Output) : list (string * Q) :=
  let '(_, _, _, t, _) := o in t.
Definition out_grouped (o : Output) : Dict.dict (list (string * Q)) :=
  let '(_, _, _, _, g) := o in g.

Definition failure (source : string) : Output :=
  (None, 0%Q, source, [], []).

(** Stage 1, the body of the first [try]. *)
Definition category_stage (category_model : Model) (text : string)
  : result (string * Q) :=
  cat_probs <- predict_proba category_model text ;;
  cat_idx <- of_option "ValueError" (Py.argmax cat_probs) ;;
  predicted_category <-
    of_option "IndexError" (nth_error (classes_ category_model) cat_idx) ;;
  cat_confidence <- of_option "IndexError" (nth_error cat_probs cat_idx) ;;
  Ok (predicted_category, cat_confidence).

(** [for i, comp in enumerate(comp_classes): if comp in
    category_components: ...append(comp_probs[i])...]. *)
Fixpoint filter_by_category (category_components : list string)
    (comp_probs : list Q) (i : nat) (comp_classes : list string)
  : result (list Q * list string) :=
  match comp_classes with
  | [] => Ok ([], [])
  | comp :: rest =>
      if PyStr.mem comp category_components then
        p <- of_option "IndexError" (nth_error comp_probs i) ;;
        r <- filter_by_category category_components comp_probs (S i) rest ;;
        Ok (p :: fst r, comp :: snd r)
      else filter_by_category category_components comp_probs (S i) rest
  end.

(** The candidates kept for the predicted category, or all of them when
    the category keeps none. *)
Definition candidates (category_mapping : Mapping)
    (predicted_category : string) (comp_probs : list Q)
    (comp_classes : list string) : result (list Q * list string) :=
  let category_components :=
    Dict.get_default category_mapping predicted_category [] in
  r <- filter_by_category category_components comp_probs 0 comp_classes ;;
  match fst r with
  | [] => Ok (comp_probs, comp_classes)
  | _ => Ok r
  end.

Definition Q_of_nat (n : nat) : Q := inject_Z (Z.of_nat n).

(** The renormalisation of the kept probabilities. *)
Definition normalize (filtered_probs : list Q) : result (list Q) :=
  let total_prob := Py.sum filtered_probs in
  if Py.Qlt_bool 0%Q total_prob
  then Ok (map (fun p => (p / total_prob)%Q) filtered_probs)
  else
    match filtered_probs with
    | [] => Raise "ZeroDivisionError"
    | _ =>
        Ok (repeat (1 / Q_of_nat (length filtered_probs))%Q
                   (length filtered_probs))
    end.

(** [np.argsort(normalized_probs)[::-1][:5]]. *)
Definition top5_indices (normalized_probs : list Q) : list nat :=
  firstn 5 (rev (Py.argsort normalized_probs)).

Definition pick (filtered_components : list string)
    (normalized_probs : list Q) (i : nat) : result (string * Q) :=
  c <- of_option "IndexError" (nth_error filtered_components i) ;;
  p <- of_option "IndexError" (nth_error normalized_probs i) ;;
  Ok (c, p).

(** Stage 2, the body of the second [try]. *)
Definition component_stage (component_model : Model)
    (category_mapping : Mapping) (component_to_category : Dict.dict string)
    (predicted_category : string) (cat_confidence : Q)
    (text : string) (return_multiple : bool) : result Output :=
  comp_probs <- predict_proba component_model text ;;
  let comp_classes := classes_ component_model in
  fc <- candidates category_mapping predicted_category comp_probs
                   comp_classes ;;
  let filtered_probs := fst fc in
  let filtered_components := snd fc in
  normalized_probs <- normalize filtered_probs ;;
  top_idx <- of_option "ValueError" (Py.argmax normalized_probs) ;;
  predicted_component <-
    of_option "IndexError" (nth_error filtered_components top_idx) ;;
  comp_confidence <-
    of_option "IndexError" (nth_error normalized_probs top_idx) ;;
  top5_alternatives <-
    traverse (pick filtered_components normalized_probs)
             (top5_indices normalized_probs) ;;
  let combined_confidence := (cat_confidence * comp_confidence)%Q in
  let grouped_by_category :=
    if return_multiple
    then MultiComponent.group_by_category top5_alternatives
                                          component_to_category
    else [] in
  Ok (Some predicted_component, combined_confidence, "hierarchical_ml",
      top5_alternatives, grouped_by_category).

(** The part of [predict_hierarchical] after [_load_models] returned. *)
Definition predict_loaded (l : Loaded) (text : string)
    (return_multiple : bool) : Output :=
  let '(category_model, component_model, category_mapping,
        component_to_category) := l in
  match category_model, component_model with
  | Some cat_m, Some comp_m =>
      match category_mapping, component_to_category with
      | Some mapping, Some c2c =>
          match category_stage cat_m text with
          | Raise _ => failure "category_prediction_failed"
          | Ok (predicted_category, cat_confidence) =>
              match component_stage comp_m mapping c2c predicted_category
                                    cat_confidence text return_multiple with
              | Raise _ => failure "component_prediction_failed"
              | Ok o => o
              end
          end
      | _, _ => failure "mapping_not_loaded"
      end
  | _, _ => failure "models_not_loaded"
  end.

Definition predict_hierarchical (d : Disk) (g : Globals) (text : string)
    (return_multiple : bool) : Globals * result Output :=
  match _load_models d g with
  | (g', Raise m) => (g', Raise m)
  | (g', Ok l) => (g', Ok (predict_loaded l text return_multiple))
  end.

End Hierarchical.

(** ** feedback_storage.py *)
Module Feedback.

Definition LOW_CONFIDENCE_THRESHOLD : Q := (5 # 10)%Q.

(** A line of the CSV file: its cells. *)
Definition Line : Type := list string.

(** The file: [None] while it does not exist, else its lines, header
    included; an existing empty file has none. *)
Definition Csv : Type := option (list Line).

Definition lines (f : Csv) : list Line :=
  match f with Some l => l | None => [] end.

(** The lines after the first one, which a reader of the file takes for
    the header. *)
Definition rows (f : Csv) : list Line := tl (lines f).

Definition HEADER : Line :=
  ["timestamp"; "user_text"; "predicted_label"; "confidence";
   "user_correct_label"; "source"; "needs_review"].

Definition or_empty (o : option string) : string :=
  match o with Some s => s | None => "" end.

Definition differs (a b : option string) : bool :=
  match a, b with
  | Some x, Some y => negb (String.eqb x y)
  | None, None => false
  | _, _ => true
  end.

(** [str(needs_review)]. *)
Definition str_bool (b : bool) : string := if b then "True" else "False".

(** What becomes of the writes of one call. The file is opened in append
    mode, so what it held stays in place. [Refused]: [mkdir] or [open]
    raises and the file is untouched. [Interrupted n]: the file is
    opened, [n] of the pending lines reach it, then a write, the flush
    or the close raises. A line reaches the file whole or not at all. *)
Inductive Write : Type :=
| Completes
| Refused
| Interrupted (written : nat).

(** The line written for one call; [format_4f] stands for
    [f"{confidence:.4f}"]. *)
Definition data_row (format_4f : Q -> string) (now : string)
    (text : string) (predicted : option string) (conf : Q)
    (user_correct : option string) (src : string) : Line :=
  let needs_review :=
    match user_correct with
    | Some _ => differs user_correct predicted
    | None => false
    end in
  [now; text; or_empty predicted; format_4f conf; or_empty user_correct;
   src; str_bool needs_review].

(** [save_feedback]; [w] is the fate of the writes, [now] the clock
    reading. The header is written when the file did not exist before
    the call. Returns the file and the success flag. *)
Definition save_feedback (w : Write) (format_4f : Q -> string)
    (now : string) (f : Csv) (text : string) (predicted : option string)
    (conf : Q) (user_correct : option string) (src : string)
  : Csv * bool :=
  let pending :=
    (match f with None => [HEADER] | Some _ => [] end
     ++ [data_row format_4f now text predicted conf user_correct src])%list
  in
  match w with
  | Completes => (Some (lines f ++ pending)%list, true)
  | Refused => (f, false)
  | Interrupted written =>
      (Some (lines f ++ firstn written pending)%list, false)
  end.

End Feedback.

(** ** app.py: the recommend and detect entry points *)
Module App.

(** Stage invocations, recorded for the call-count properties. *)
Inductive Stage : Type :=
| RuleStage
| HierarchicalStage
| FlatStage
| SaveFeedback.

Record ProductNeedAlternative : Type := mkAlt {
  label : string;
  confidence : Q;
  explanation : option string
}.

Record CategoryRecommendations : Type := mkCat {
  category : string;
  components : list ProductNeedAlternative
}.

(** The decision fields of [ProductNeedResponse]; the presentation texts
    ([definition], [why_useful], [extra_explanation], [fixing_tips]) are
    looked up from static tables and left out. *)
Record ProductNeedResponse : Type := mkResponse {
  component : option string;
  need_label : option string;
  resp_confidence : Q;
  alternatives : list ProductNeedAlternative;
  is_low_confidence : bool;
  source : string;
  ask_feedback : bool;
  grouped_by_category : option (list CategoryRecommendations)
}.

Inductive Outcome : Type :=
| Returns (r : ProductNeedResponse)
| HTTPException (status_code : nat) (detail : string).

(** What the process was started with. *)
Record Env : Type := mkEnv {
  HIERARCHICAL_AVAILABLE : bool;
  disk : Hierarchical.Disk;
  product_need_model : option Hierarchical.Model;
  feedback_write : Feedback.Write;
  format_4f : Q -> string;
  now : string
}.

(** What a request can change. *)
Record State : Type := mkState {
  globals : Hierarchical.Globals;
  feedback_csv : Feedback.Csv;
  trace : list Stage
}.

Definition log (s : Stage) (st : State) : State :=
  mkState (globals st) (feedback_csv st) (trace st ++ [s])%list.

Definition HIGH_CONF_THRESHOLD : Q := (7 # 10)%Q.
Definition MEDIUM_CONF_THRESHOLD : Q := (4 # 10)%Q.
Definition LOW_CONF_THRESHOLD (e : Env) : Q :=
  if HIERARCHICAL_AVAILABLE e then Feedback.LOW_CONFIDENCE_THRESHOLD
  else (5 # 10)%Q.

(** The locals shared by the three stages. *)
Record Locals : Type := mkLocals {
  final_label : option string;
  final_conf : Q;
  loc_source : string;
  alternatives_list : list ProductNeedAlternative;
  grouped_by_category_list : option (list CategoryRecommendations)
}.

Definition initial : Locals := mkLocals None 0%Q "none" [] None.

Definition to_alternatives (l : list (string * Q))
  : list ProductNeedAlternative :=
  map (fun lc => mkAlt (fst lc) (snd lc) None) l.

(** Stage 1. *)
Definition rule_stage (e : Env) (st : State) (text : string)
  : State * Locals :=
  if HIERARCHICAL_AVAILABLE e then
    let st := log RuleStage st in
    match Rules.match_rule text with
    | Some (lbl, conf, expl, related_components) =>
        (st,
         mkLocals (Some lbl) conf "rule"
           (mkAlt lbl conf (Some expl)
            :: map (fun rc => mkAlt rc (conf * (8 # 10))%Q None)
                   (firstn 4 related_components))
           None)
    | None => (st, initial)
    end
  else (st, initial).

(** The merge of the model's top five with the related components; the
    surrounding [try] never fires, [get_related_components] being
    total. *)
Definition merge_related (text comp : string) (top5 : list (string * Q))
  : list (string * Q) :=
  let related := MultiComponent.get_related_components text comp in
  let all_components := (top5 ++ related)%list in
  let unique_components := Py.dedupe all_components in
  firstn 5 (Py.sort_desc snd unique_components).

Definition to_groups (g : Dict.dict (list (string * Q)))
  : list CategoryRecommendations :=
  map (fun kv => mkCat (fst kv) (to_alternatives (snd kv))) g.

(** Stage 2. *)
Definition hierarchical_stage (e : Env) (st : State) (text : string)
    (loc : Locals) : State * Locals :=
  match final_label loc with
  | Some _ => (st, loc)
  | None =>
      if HIERARCHICAL_AVAILABLE e then
        let st := log HierarchicalStage st in
        match Hierarchical.predict_hierarchical (disk e) (globals st)
                                                text true with
        | (g, Raise _) => (mkState g (feedback_csv st) (trace st), loc)
        | (g, Ok (comp, conf, ml_source, top5, grouped)) =>
            let st := mkState g (feedback_csv st) (trace st) in
            match comp with
            | Some c =>
                if PyStr.truthy c then
                  let top5 := merge_related text c top5 in
                  let alts := to_alternatives (firstn 5 top5) in
                  match grouped with
                  | [] => (st, mkLocals (Some c) conf ml_source alts None)
                  | _ =>
                      match Hierarchical._load_models (disk e) g with
                      | (g', Ok (_, _, _, Some c2c)) =>
                          (mkState g' (feedback_csv st) (trace st),
                           mkLocals (Some c) conf ml_source alts
                             (Some (to_groups
                                (MultiComponent.group_by_category
                                   top5 c2c))))
                      | (g', _) =>
                          (mkState g' (feedback_csv st) (trace st),
                           mkLocals (Some c) conf ml_source alts None)
                      end
                  end
                else (st, loc)
            | None => (st, loc)
            end
        end
      else (st, loc)
  end.

(** [predict_product_need]. *)
Definition predict_product_need (m : option Hierarchical.Model)
    (text : string) : option string * Q * list (string * Q) :=
  match m with
  | None => (None, 0%Q, [])
  | Some model =>
      let attempt :=
        probs <- Hierarchical.predict_proba model text ;;
        let classes := Hierarchical.classes_ model in
        let idx_sorted := rev (Py.argsort probs) in
        top3 <- traverse (Hierarchical.pick classes probs)
                         (firstn 3 idx_sorted) ;;
        best <- of_option "IndexError" (nth_error top3 0) ;;
        Ok (Some (fst best), snd best, top3) in
      match attempt with
      | Ok r => r
      | Raise _ => (None, 0%Q, [])
      end
  end.

(** Stage 3. *)
Definition flat_stage (e : Env) (st : State) (text : string)
    (loc : Locals) : State * Locals :=
  match final_label loc, product_need_model e with
  | None, Some model =>
      let st := log FlatStage st in
      match predict_product_need (Some model) text with
      | (Some base_label, base_conf, top3) =>
          if PyStr.truthy base_label then
            let attempt :=
              probs <- Hierarchical.predict_proba model text ;;
              let classes := Hierarchical.classes_ model in
              let idx_sorted := rev (Py.argsort probs) in
              traverse (Hierarchical.pick classes probs)
                       (firstn 5 idx_sorted) in
            let top5 :=
              match attempt with Ok t => t | Raise _ => top3 end in
            (st, mkLocals (Some base_label) base_conf "ml"
                   (to_alternatives (firstn 5 top5))
                   (grouped_by_category_list loc))
          else (st, loc)
      | (None, _, _) => (st, loc)
      end
  | _, _ => (st, loc)
  end.

Definition labels (l : list ProductNeedAlternative) : list string :=
  map label l.

(** [if final_label not in seen_labels: insert(0, ...)] then [[:5]]. *)
Definition ensure_primary (lbl : string) (conf : Q)
    (l : list ProductNeedAlternative) : list ProductNeedAlternative :=
  firstn 5 (if PyStr.mem lbl (labels l) then l
            else mkAlt lbl conf None :: l).

Definition no_prediction : ProductNeedResponse :=
  mkResponse None None 0%Q [] true "none" true None.

Definition product_need_recommend (e : Env) (st : State)
    (req_text : string) : State * Outcome :=
  let text := PyStr.strip req_text in
  if negb (PyStr.truthy text)
  then (st, HTTPException 400 "Text must not be empty")
  else
    let '(st, loc) := rule_stage e st text in
    let '(st, loc) := hierarchical_stage e st text loc in
    let '(st, loc) := flat_stage e st text loc in
    match final_label loc with
    | None => (st, Returns no_prediction)
    | Some lbl =>
        let conf := final_conf loc in
        let alts := ensure_primary lbl conf (alternatives_list loc) in
        let is_low_conf := Py.Qlt_bool conf MEDIUM_CONF_THRESHOLD in
        let ask := Py.Qlt_bool conf (LOW_CONF_THRESHOLD e) in
        let st :=
          if ask && HIERARCHICAL_AVAILABLE e then
            let st := log SaveFeedback st in
            let '(csv, _) :=
              Feedback.save_feedback (feedback_write e) (format_4f e)
                (now e) (feedback_csv st) text (Some lbl) conf None
                (loc_source loc) in
            mkState (globals st) csv (trace st)
          else st in
        (st,
         Returns (mkResponse (Some lbl) None conf alts is_low_conf
                             (loc_source loc) ask
                             (grouped_by_category_list loc)))
    end.

End App.

(** ** app.py: hybrid error-type detection *)
Module Detect.

Inductive Stage : Type :=
| RuleBased
| LegacyRules
| MLModel.

(** The dictionary returned by the detection functions. *)
Record Detection : Type := mkDetection {
  label : option string;
  confidence : Q;
  source : string;
  alternatives : list (string * Q);
  multiple_types : list (string * Q)
}.

(** The stages consulted by the hybrid detector. The two rule functions
    are regular-expression tables and [nlp_predict] wraps a fitted
    model; they are taken as given. *)
Record Env : Type := mkEnv {
  rule_based_error_type : string -> option string * Q;
  detect_error_type_rules :
    string -> option string * Q * list (string * Q);
  error_nlp_model : bool;
  nlp_predict : string -> result (option string * Q * list (string * Q))
}.

Definition error_keywords_multi : Dict.dict (list string) := [
  ("CPU Overheat",
   ["cpu"; "processor"; "overheat"; "overheating"; "thermal";
    "temperature"; "hot"; "fan"]);
  ("GPU Overheat",
   ["gpu"; "graphics"; "overheat"; "overheating"; "thermal";
    "temperature"; "hot"; "fan"]);
  ("Slow Performance",
   ["slow"; "lag"; "lagging"; "sluggish"; "unresponsive"; "performance"]);
  ("RAM Upgrade", ["ram"; "memory"; "insufficient"; "full"; "not enough"]);
  ("SSD Upgrade",
   ["ssd"; "storage"; "slow boot"; "slow loading"; "hard drive"]);
  ("PSU / Power Issue",
   ["power"; "psu"; "not turning on"; "no power"; "dead"; "charging"]);
  ("Windows Boot Failure",
   ["boot"; "booting"; "not starting"; "startup"; "boot failure"]);
  ("No Display / No Signal",
   ["no display"; "no signal"; "black screen"; "blank screen"; "monitor"]);
  ("Blue Screen (BSOD)", ["blue screen"; "bsod"; "crash"; "freeze"]);
  ("Wi-Fi Adapter Upgrade",
   ["wifi"; "wi-fi"; "internet"; "network"; "connection"; "adapter"])
].

Definition truthy_label (l : option string) : bool :=
  match l with Some s => PyStr.truthy s | None => false end.

Definition none_result : Detection := mkDetection None 0%Q "none" [] [].

(** [detect_error_type_ml]. *)
Definition detect_error_type_ml (e : Env) (text : string)
  : result Detection :=
  if negb (error_nlp_model e) then Ok none_result
  else
    r <- nlp_predict e (PyStr.strip text) ;;
    let '(best_label, best_confidence, top3_list) := r in
    match best_label with
    | None => Ok none_result
    | Some _ =>
        if Py.Qlt_bool best_confidence (6 # 10)%Q
        then Ok (mkDetection None best_confidence "ml_low_conf"
                             top3_list [])
        else Ok (mkDetection best_label best_confidence "ml" top3_list [])
    end.

Definition match_count (keywords : list string) (text_lower : string)
  : nat :=
  length (filter (fun kw => PyStr.contains kw text_lower) keywords).

(** [min(0.8, 0.4 + match_count * 0.1)]. *)
Definition keyword_confidence (n : nat) : Q :=
  let c := ((4 # 10) + Hierarchical.Q_of_nat n * (1 # 10))%Q in
  if Py.Qlt_bool c (8 # 10)%Q then c else (8 # 10)%Q.

Definition detected_types (text_lower : string) : list (string * Q) :=
  Py.sort_desc snd
    (flat_map
       (fun entry =>
          let n := match_count (snd entry) text_lower in
          if (2 <=? n)%nat then [(fst entry, keyword_confidence n)] else [])
       error_keywords_multi).

Definition default_empty : Detection :=
  mkDetection (Some "General Repair") 0%Q "fallback" [] [].

Definition with_multiple (d : Detection) (m : list (string * Q))
  : Detection :=
  mkDetection (label d) (confidence d) (source d) (alternatives d) m.

(** Steps 6 to 8, reached when the ML step returned nothing usable. *)
Definition after_ml (rule_label : option string) (rule_conf : Q)
    (detected multi : list (string * Q)) : Detection :=
  if truthy_label rule_label
  then mkDetection rule_label rule_conf "rule" [] multi
  else
    match detected with
    | primary :: rest =>
        mkDetection (Some (fst primary)) (snd primary) "fallback"
                    (firstn 3 rest) multi
    | [] => mkDetection (Some "General Repair") (3 # 10)%Q "fallback" [] []
    end.

(** [detect_error_type_hybrid], with the list of stages it invoked. *)
Definition detect_error_type_hybrid (e : Env) (text : string)
  : list Stage * Detection :=
  if negb (PyStr.truthy text) || negb (PyStr.truthy (PyStr.strip text))
  then ([], default_empty)
  else
    let text_lower := PyStr.lower text in
    let detected := detected_types text_lower in
    let high_conf_types :=
      filter (fun dt => Qle_bool (5 # 10)%Q (snd dt)) detected in
    let multi :=
      if (1 <? length high_conf_types)%nat
      then firstn 3 high_conf_types else [] in
    let '(rule_label, rule_conf) :=
      rule_based_error_type e (PyStr.strip text) in
    if truthy_label rule_label && Qle_bool (8 # 10)%Q rule_conf
    then ([RuleBased], mkDetection rule_label rule_conf "rule" [] multi)
    else
      let '(legacy_label, legacy_conf, legacy_alts) :=
        detect_error_type_rules e (PyStr.strip text) in
      if truthy_label legacy_label && Qle_bool (7 # 10)%Q legacy_conf
      then ([RuleBased; LegacyRules],
            mkDetection legacy_label legacy_conf "rules" legacy_alts multi)
      else
        let stages := [RuleBased; LegacyRules; MLModel] in
        match detect_error_type_ml e (PyStr.strip text) with
        | Raise _ => (stages, after_ml rule_label rule_conf detected multi)
        | Ok ml_result =>
            if truthy_label (label ml_result)
               && Qle_bool (6 # 10)%Q (confidence ml_result)
            then (stages, with_multiple ml_result multi)
            else if truthy_label rule_label
            then (stages,
                  mkDetection rule_label rule_conf "rule" [] multi)
            else if negb (String.eqb (source ml_result) "none")
            then (stages, with_multiple ml_result multi)
            else (stages,
                  after_ml rule_label rule_conf detected multi)
        end.

End Detect.

(** ** retrain_with_feedback.py *)
Module Retrain.

(** A row of the merged training frame. *)
Record Row : Type := mkRow {
  text : string;
  component_label : string
}.

(** The same row once the [category] column is filled. *)
Record CRow : Type := mkCRow {
  row : Row;
  category : string
}.

Definition Sample : Type := (string * string)%type.

(** What becomes of one [joblib.dump] or [shutil.copy2]. [Refused]: the
    call raises before the target is opened, which stays as it was.
    [Interrupted]: the target is opened for writing, which empties it,
    and the call raises with the content written in part. [Late]: the
    content is written whole, then the call raises (closing the file,
    copying its times). *)
Inductive Write : Type :=
| Completes
| Refused
| Interrupted
| Late.

Section Job.

(** The fitted pipeline objects are opaque to the job. *)
Variable Model : Type.

(** What a model file holds: the pickle of a model, or bytes that
    [joblib.load] rejects. *)
Inductive Pickle : Type :=
| Pickled (m : Model)
| Damaged.

(** The artifact directory: the two deployed model files, [None] when
    missing, and the other files by name, the backups among them. *)
Record Files : Type := mkFiles {
  CATEGORY_MODEL_PATH : option Pickle;
  COMPONENT_MODEL_PATH : option Pickle;
  backups : Dict.dict Pickle
}.

(** What the job reads and the library calls it makes: the clock,
    [merge_feedback_with_training()] and the mapping file, which may
    fail to load; [train_test_split] (its flag says whether [stratify]
    is passed), [fit] and the accuracy evaluation, which may raise; and
    what becomes of the two copies and the two dumps. *)
Record Env : Type := mkEnv {
  now : string;
  merged : result (list Row);
  mapping : result Hierarchical.Mapping;
  train_test_split :
    bool -> list Sample -> result (list Sample * list Sample);
  fit : list Sample -> result Model;
  accuracy : Model -> list Sample -> result Q;
  copy_category : Write;
  copy_component : Write;
  dump_category : Write;
  dump_component : Write
}.

(** Writing [content] to a file that holds [old]: what the file holds
    afterwards, and whether the call returned. *)
Definition write_file (w : Write) (content : Pickle) (old : option Pickle)
  : option Pickle * result unit :=
  match w with
  | Completes => (Some content, Ok tt)
  | Refused => (old, Raise "OSError")
  | Interrupted => (Some Damaged, Raise "OSError")
  | Late => (Some content, Raise "OSError")
  end.

(** [shutil.copy2(src, HERE / name)] for a source holding [content]. *)
Definition copy2 (w : Write) (content : Pickle) (name : string)
    (f : Files) : Files * result unit :=
  let '(dst, r) := write_file w content (Dict.get (backups f) name) in
  (mkFiles (CATEGORY_MODEL_PATH f) (COMPONENT_MODEL_PATH f)
           match dst with
           | Some c => Dict.set (backups f) name c
           | None => backups f
           end,
   r).

Definition category_backup (timestamp : string) : string :=
  "product_need_category_model_backup_" ++ timestamp ++ ".pkl".

Definition component_backup (timestamp : string) : string :=
  "product_need_component_model_backup_" ++ timestamp ++ ".pkl".

Definition backup_models (e : Env) (f : Files) : Files * result unit :=
  let timestamp := now e in
  let '(f, r) :=
    match CATEGORY_MODEL_PATH f with
    | Some content =>
        copy2 (copy_category e) content (category_backup timestamp) f
    | None => (f, Ok tt)
    end in
  match r with
  | Raise m => (f, Raise m)
  | Ok _ =>
      match COMPONENT_MODEL_PATH f with
      | Some content =>
          copy2 (copy_component e) content (component_backup timestamp) f
      | None => (f, Ok tt)
      end
  end.

(** [df['category'] = df['component_label'].map(...)] followed by
    [dropna(subset=['category'])]. *)
Definition with_category (c2c : Dict.dict string) (df : list Row)
  : list CRow :=
  flat_map
    (fun r =>
       match Dict.get c2c (component_label r) with
       | Some c => [mkCRow r c]
       | None => []
       end)
    df.

Definition label_of (r : CRow) : string := component_label (row r).

(** [value_counts()] of one label. *)
Definition class_count (df : list CRow) (l : string) : nat :=
  length (filter (fun r => String.eqb (label_of r) l) df).

(** [df[df['component_label'].isin(valid_classes)]]. *)
Definition df_filtered (df : list CRow) : list CRow :=
  filter (fun r => (2 <=? class_count df (label_of r))%nat) df.

(** The rows behind [X_component, y_component] at the split. *)
Definition component_corpus (df : list CRow) : list CRow :=
  if Py.Qlt_bool (Hierarchical.Q_of_nat (length (df_filtered df)))
                 (Hierarchical.Q_of_nat (length df) * (8 # 10))%Q
  then df_filtered df
  else df.

(** [X_category, y_category] and [X_component, y_component]. *)
Definition category_samples (df : list CRow) : list Sample :=
  map (fun r => (text (row r), category r)) df.

Definition component_samples (df : list CRow) : list Sample :=
  map (fun r => (text (row r), label_of r)) df.

(** [try: split(stratify=y) except: split()]. *)
Definition split (e : Env) (d : list Sample)
  : result (list Sample * list Sample) :=
  match train_test_split e true d with
  | Ok r => Ok r
  | Raise _ => train_test_split e false d
  end.

(** Split, fit and evaluate one model. *)
Definition train (e : Env) (d : list Sample) : result (Model * Q) :=
  tt <- split e d ;;
  m <- fit e (fst tt) ;;
  acc <- accuracy e m (snd tt) ;;
  Ok (m, acc).

Definition retrain_models (e : Env) (f : Files)
  : Files * result (Q * Q) :=
  match backup_models e f with
  | (f, Raise m) => (f, Raise m)
  | (f, Ok _) =>
  match merged e with
  | Raise m => (f, Raise m)
  | Ok df0 =>
  match mapping e with
  | Raise m => (f, Raise m)
  | Ok category_mapping =>
      let c2c := Hierarchical.reverse_mapping category_mapping in
      let df := with_category c2c df0 in
      match train e (category_samples df) with
      | Raise m => (f, Raise m)
      | Ok (category_model, cat_accuracy) =>
          let '(written, r) :=
            write_file (dump_category e) (Pickled category_model)
                       (CATEGORY_MODEL_PATH f) in
          let f := mkFiles written (COMPONENT_MODEL_PATH f) (backups f) in
          match r with
          | Raise m => (f, Raise m)
          | Ok _ =>
              match train e (component_samples (component_corpus df)) with
              | Raise m => (f, Raise m)
              | Ok (component_model, comp_accuracy) =>
                  let '(written, r) :=
                    write_file (dump_component e) (Pickled component_model)
                               (COMPONENT_MODEL_PATH f) in
                  let f :=
                    mkFiles (CATEGORY_MODEL_PATH f) written (backups f) in
                  match r with
                  | Raise m => (f, Raise m)
                  | Ok _ => (f, Ok (cat_accuracy, comp_accuracy))
                  end
              end
          end
      end
  end
  end
  end.

End Job.

Arguments Pickled {Model}.
Arguments Damaged {Model}.
Arguments mkFiles {Model}.
Arguments CATEGORY_MODEL_PATH {Model}.
Arguments COMPONENT_MODEL_PATH {Model}.
Arguments backups {Model}.
Arguments mkEnv {Model}.
Arguments now {Model}.
Arguments merged {Model}.
Arguments mapping {Model}.
Arguments train_test_split {Model}.
Arguments fit {Model}.
Arguments accuracy {Model}.
Arguments copy_category {Model}.
Arguments copy_component {Model}.
Arguments dump_category {Model}.
Arguments dump_component {Model}.
Arguments write_file {Model}.
Arguments copy2 {Model}.
Arguments backup_models {Model}.
Arguments retrain_models {Model}.
Arguments train {Model}.
Arguments split {Model}.

End Retrain.

(** ** hierarchical_inference.py: category lookup *)
Module CategoryLookup.

(** [get_category_for_component]: the reverse mapping is consulted only
    when it is loaded and non-empty. *)
Definition get_category_for_component (d : Hierarchical.Disk)
    (g : Hierarchical.Globals) (component : string)
  : Hierarchical.Globals * result (option string) :=
  match Hierarchical._load_models d g with
  | (g', Raise m) => (g', Raise m)
  | (g', Ok (_, _, _, component_to_category)) =>
      (g',
       Ok match component_to_category with
          | Some (entry :: rest) => Dict.get (entry :: rest) component
          | _ => None
          end)
  end.

End CategoryLookup.

(** ** app.py: keyword rules for error types *)
Module ErrorRules.

(** [any(kw in text for kw in kws)]. *)
Definition any_in (kws : list string) (text : string) : bool :=
  existsb (fun kw => PyStr.contains kw text) kws.

Definition Answer : Type := (option string * Q * list (string * Q))%type.

Definition detect_error_type_rules (text : string) : Answer :=
  if negb (PyStr.truthy text) || negb (PyStr.truthy (PyStr.strip text))
  then (None, 0%Q, [])
  else
    let text_lower := PyStr.strip (PyStr.lower text) in
    let has_overheat :=
      any_in ["overheat"; "too hot"; "high temp"; "temperature"; "thermal";
              "heating"; "hot"; "fan"; "cooling"] text_lower in
    let has_gaming :=
      any_in ["game"; "gaming"; "valorant"; "csgo"; "pubg"; "fortnite";
              "fps"; "apex"; "league"; "dota"] text_lower in
    if has_overheat && has_gaming then
      (Some "GPU Overheat", (9 # 10)%Q,
       [("GPU Overheat", (9 # 10)%Q); ("CPU Overheat", (3 # 10)%Q)])
    else if has_overheat && negb has_gaming then
      (Some "CPU Overheat", (8 # 10)%Q,
       [("CPU Overheat", (8 # 10)%Q); ("GPU Overheat", (4 # 10)%Q)])
    else if any_in ["bsod"; "blue screen"; "stop code"; "0x000000";
                    "sad face"; "error screen"] text_lower then
      (Some "Blue Screen (BSOD)", (9 # 10)%Q,
       [("Blue Screen (BSOD)", (9 # 10)%Q);
        ("Windows Boot Failure", (3 # 10)%Q)])
    else if any_in ["no bootable device"; "boot failure"; "boot loop";
                    "cannot boot"; "won't boot"] text_lower then
      (Some "Windows Boot Failure", (85 # 100)%Q,
       [("Windows Boot Failure", (85 # 100)%Q)])
    else
      let has_power_keywords :=
        any_in ["not power"; "won't power"; "no power"; "power not";
                "power off"; "not turning on"; "won't turn on";
                "not starting"; "not booting"] text_lower in
      let has_monitor_keywords :=
        any_in ["monitor"; "display"; "screen"] text_lower in
      if has_monitor_keywords && has_power_keywords then
        (Some "PSU / Power Issue", (85 # 100)%Q,
         [("PSU / Power Issue", (85 # 100)%Q); ("RAM Upgrade", (6 # 10)%Q);
          ("No Display / No Signal", (5 # 10)%Q);
          ("Windows Boot Failure", (4 # 10)%Q)])
      else if any_in ["no signal"; "no display"; "black screen";
                      "blank screen"; "no image"] text_lower
              && negb has_power_keywords then
        (Some "No Display / No Signal", (85 # 100)%Q,
         [("No Display / No Signal", (85 # 100)%Q);
          ("Monitor Issue", (6 # 10)%Q)])
      else if any_in ["won't power"; "not power"; "no power"; "power not";
                      "won't turn on"; "not turning on"; "not starting";
                      "not booting"] text_lower
              && negb has_monitor_keywords then
        (Some "PSU / Power Issue", (85 # 100)%Q,
         [("PSU / Power Issue", (85 # 100)%Q); ("RAM Upgrade", (5 # 10)%Q);
          ("Windows Boot Failure", (4 # 10)%Q)])
      else if any_in ["restart"; "shutdown"; "turns off"; "shuts down";
                      "reboot"; "restarting"] text_lower then
        if has_gaming then
          (Some "GPU Overheat", (8 # 10)%Q,
           [("GPU Overheat", (8 # 10)%Q); ("PSU / Power Issue", (5 # 10)%Q)])
        else
          (Some "PSU / Power Issue", (75 # 100)%Q,
           [("PSU / Power Issue", (75 # 100)%Q); ("CPU Overheat", (4 # 10)%Q);
            ("RAM Upgrade", (3 # 10)%Q)])
      else if any_in ["upgrade ssd"; "add ssd"; "bigger ssd"; "1tb ssd";
                      "2tb ssd"] text_lower then
        (Some "SSD Upgrade", (9 # 10)%Q, [("SSD Upgrade", (9 # 10)%Q)])
      else if any_in ["upgrade ram"; "need ram"; "more ram"; "add ram"]
                     text_lower then
        (Some "RAM Upgrade", (9 # 10)%Q, [("RAM Upgrade", (9 # 10)%Q)])
      else if any_in ["upgrade gpu"; "new gpu"; "better gpu"] text_lower then
        (Some "GPU Upgrade", (85 # 100)%Q, [("GPU Upgrade", (85 # 100)%Q)])
      else
        let has_phone :=
          any_in ["phone"; "mobile"; "android"; "iphone"; "device"]
                 text_lower in
        let has_connect :=
          any_in ["connect"; "connecting"; "connection"; "not connecting";
                  "won't connect"; "can't connect"] text_lower in
        let has_usb := any_in ["usb"; "cable"; "wire"] text_lower in
        let has_not_recognized :=
          any_in ["not recognized"; "not detected"; "not showing";
                  "doesn't show"; "won't detect"] text_lower in
        if has_phone && (has_connect || has_not_recognized) then
          (Some "Phone Connection Issue", (9 # 10)%Q,
           [("Phone Connection Issue", (9 # 10)%Q);
            ("USB / Port Issue", (6 # 10)%Q)])
        else if has_usb && has_not_recognized then
          (Some "USB / Port Issue", (85 # 100)%Q,
           [("USB / Port Issue", (85 # 100)%Q);
            ("Phone Connection Issue", (5 # 10)%Q)])
        else (None, 0%Q, []).

(** The hybrid detector's stages with the keyword rules above as the
    legacy rule stage. *)
Definition with_legacy_rules (e : Detect.Env) : Detect.Env :=
  Detect.mkEnv (Detect.rule_based_error_type e) detect_error_type_rules
               (Detect.error_nlp_model e) (Detect.nlp_predict e).

End ErrorRules.

(** ** retrain_with_feedback.py: merging corrections *)
Module Merge.

(** A cell read by [pandas.read_csv]: its text, or [None] for NaN. *)
Definition Cell : Type := option string.

(** [astype(str)] of a cell. *)
Definition astype_str (c : Cell) : string :=
  match c with Some s => s | None => "nan" end.

(** [.astype(str).str.lower().str.strip()]. *)
Definition normalize (c : Cell) : string :=
  PyStr.strip (PyStr.lower (astype_str c)).

(** The columns read from the training file and the feedback file. *)
Record TrainingRow : Type := mkTraining {
  user_text : Cell;
  component_label : Cell
}.

Record FeedbackRow : Type := mkFeedback {
  fb_user_text : Cell;
  user_correct_label : Cell
}.

(** [dropna(subset=['user_text', 'component_label'])] and the [text]
    column. *)
Definition original_frame (rows : list TrainingRow) : list Retrain.Row :=
  flat_map
    (fun r =>
       match user_text r, component_label r with
       | Some t, Some l => [Retrain.mkRow (normalize (Some t)) l]
       | _, _ => []
       end)
    rows.

(** The label of a feedback row that carries a correction:
    [notna()] and [!= '']. *)
Definition correction (r : FeedbackRow) : option string :=
  match user_correct_label r with
  | Some l => if String.eqb l "" then None else Some l
  | None => None
  end.

Definition feedback_training (rows : list FeedbackRow) : list Retrain.Row :=
  flat_map
    (fun r =>
       match correction r with
       | Some l => [Retrain.mkRow (normalize (fb_user_text r)) l]
       | None => []
       end)
    rows.

Definition same_key (a b : Retrain.Row) : bool :=
  String.eqb (Retrain.text a) (Retrain.text b)
  && String.eqb (Retrain.component_label a) (Retrain.component_label b).

(** [drop_duplicates(subset=['text', 'component_label'])]: the first row
    of each key is kept. *)
Fixpoint drop_duplicates_from (seen : list Retrain.Row)
    (l : list Retrain.Row) : list Retrain.Row :=
  match l with
  | [] => []
  | r :: l' =>
      if existsb (same_key r) seen then drop_duplicates_from seen l'
      else r :: drop_duplicates_from (r :: seen) l'
  end.

Definition drop_duplicates (l : list Retrain.Row) : list Retrain.Row :=
  drop_duplicates_from [] l.

(** [merge_feedback_with_training]; [feedback] is [None] when the
    feedback file does not exist. *)
Definition merge_feedback_with_training (training : list TrainingRow)
    (feedback : option (list FeedbackRow)) : list Retrain.Row :=
  let df_original := original_frame training in
  match feedback with
  | None => df_original
  | Some [] => df_original
  | Some df_feedback =>
      match feedback_training df_feedback with
      | [] => df_original
      | df_feedback_training =>
          drop_duplicates (df_original ++ df_feedback_training)%list
      end
  end.

End Merge.

(** ** app.py: the feedback endpoint *)
Module FeedbackApi.

Inductive Outcome : Type :=
| Saved (message : string) (feedback_count : nat)
| HTTPException (status_code : nat) (detail : string).

(** [get_feedback_count], with [load_feedback] inlined: 0 when the file
    does not exist or cannot be read; [read_csv] stands for
    [len(pd.read_csv(...))] on the lines of the file, which may raise. *)
Definition get_feedback_count
    (read_csv : list Feedback.Line -> result nat) (f : Feedback.Csv)
  : nat :=
  match f with
  | None => 0
  | Some l => match read_csv l with Ok n => n | Raise _ => 0 end
  end.

(** [product_need_feedback]; [available] says whether [save_feedback]
    was imported. *)
Definition product_need_feedback (available : bool) (w : Feedback.Write)
    (format_4f : Q -> string)
    (read_csv : list Feedback.Line -> result nat) (now : string)
    (f : Feedback.Csv) (text : string) (predicted_label : option string)
    (confidence : Q) (user_correct_label : option string) (source : string)
  : Feedback.Csv * Outcome :=
  if negb available
  then (f, HTTPException 503 "Feedback system not available")
  else
    let '(f', success) :=
      Feedback.save_feedback w format_4f now f text predicted_label
                             confidence user_correct_label source in
    if success
    then (f',
          Saved "Feedback saved successfully. Thank you for helping improve our recommendations!"
                (get_feedback_count read_csv f'))
    else (f', HTTPException 500 "Failed to save feedback").

End FeedbackApi.

(** ** app.py: the earlier error-type detector *)
Module LegacyDetect.

Definition error_keywords : Dict.dict (list string) := [
  ("GPU Overheat",
   ["gpu"; "graphics"; "overheat"; "overheating"; "thermal";
    "temperature"; "hot"; "fan"; "cooling"]);
  ("Blue Screen (BSOD)",
   ["blue screen"; "bsod"; "crash"; "freeze"; "hang"; "stopped working"]);
  ("Windows Boot Failure",
   ["boot"; "startup"; "won't start"; "not starting"; "power on";
    "turn on"; "booting"]);
  ("SSD Upgrade",
   ["ssd"; "solid state"; "hard drive"; "storage"; "upgrade ssd"]);
  ("RAM Upgrade",
   ["ram"; "memory"; "upgrade ram"; "add memory"; "more ram"]);
  ("PSU / Power Issue",
   ["power"; "psu"; "power supply"; "won't turn on"; "no power";
    "charging"; "battery"]);
  ("Wi-Fi Adapter Upgrade",
   ["wifi"; "wi-fi"; "wireless"; "internet"; "network"; "adapter";
    "connection"])
].

(** [min(0.5, 0.2 + match_count * 0.1)]. *)
Definition fallback_confidence (n : nat) : Q :=
  let c := ((2 # 10) + Hierarchical.Q_of_nat n * (1 # 10))%Q in
  if Py.Qlt_bool c (5 # 10)%Q then c else (5 # 10)%Q.

Definition error_matches (text_lower : string) : list (string * Q) :=
  Py.sort_desc snd
    (flat_map
       (fun entry =>
          let n := Detect.match_count (snd entry) text_lower in
          if (0 <? n)%nat then [(fst entry, fallback_confidence n)] else [])
       error_keywords).

(** [(label, confidence, source, alternatives)]. *)
Definition Answer : Type :=
  (option string * Q * string * list (string * Q))%type.

(** [detect_error_type]; [predict_error_type_nlp] wraps the fitted model
    and does not raise. *)
Definition detect_error_type
    (predict_error_type_nlp :
       string -> option string * Q * list (string * Q))
    (text : string) (confidence_threshold : Q) : Answer :=
  if negb (PyStr.truthy text) || negb (PyStr.truthy (PyStr.strip text))
  then (Some "General Repair", 0%Q, "fallback", [])
  else
    let '(rule_label, rule_conf, rule_alternatives) :=
      ErrorRules.detect_error_type_rules (PyStr.strip text) in
    if Detect.truthy_label rule_label && Qle_bool (7 # 10)%Q rule_conf
    then (rule_label, rule_conf, "rules", rule_alternatives)
    else
      let '(best_label, best_confidence, top3) :=
        predict_error_type_nlp (PyStr.strip text) in
      if Detect.truthy_label best_label then
        if Qle_bool confidence_threshold best_confidence
        then (best_label, best_confidence, "ml", top3)
        else (None, best_confidence, "ml_low_conf", top3)
      else if Detect.truthy_label rule_label
      then (rule_label, rule_conf, "rules", rule_alternatives)
      else
        match error_matches (PyStr.lower text) with
        | best_match :: rest =>
            (Some (fst best_match), snd best_match, "fallback",
             firstn 3 (best_match :: rest))
        | [] => (Some "General Repair", (3 # 10)%Q, "fallback", [])
        end.

End LegacyDetect.

(** ** Specification vocabulary *)
Module Spec.

(** [n] occurs in [h] as a contiguous substring. *)
Definition is_substring (n h : string) : Prop :=
  exists pre post, h = pre ++ n ++ post.

Definition keywords_of (r : Rules.Rule) : list string :=
  match Rules.keywords r with
  | Rules.KwList kws => kws
  | Rules.KwStr kw => [kw]
  end.

(** The condition of a rule holds on a normalized text: every keyword,
    lowercased, is a substring of it. *)
Definition satisfied (r : Rules.Rule) (normalized : string) : Prop :=
  forall kw, In kw (keywords_of r) ->
             is_substring (PyStr.lower kw) normalized.

Definition normalized (text : string) : string :=
  PyStr.strip (PyStr.lower text).

(** What a readable artifact file holds. *)
Definition content {A} (f : Hierarchical.File A) : option A :=
  match f with Hierarchical.Holds a => Some a | _ => None end.

(** The value the lazy loader ends with: the cached one, else the file. *)
Definition cached_or_file {A} (cached : option A)
    (f : Hierarchical.File A) : option A :=
  match cached with Some a => Some a | None => content f end.

(** No artifact path holds a file that fails to load. *)
Definition readable (d : Hierarchical.Disk) : Prop :=
  Hierarchical.CATEGORY_MODEL_PATH d <> Hierarchical.Unloadable
  /\ Hierarchical.COMPONENT_MODEL_PATH d <> Hierarchical.Unloadable
  /\ Hierarchical.MAPPING_PATH d <> Hierarchical.Unloadable.

(** Candidate [i] ranks before candidate [j]: a higher probability, or
    the same probability and a later position in the candidate list. *)
Definition ranked_before (probs : list Q) (i j : nat) : Prop :=
  exists p q,
    nth_error probs i = Some p /\ nth_error probs j = Some q
    /\ ((q < p)%Q \/ ((q == p)%Q /\ j < i)).

(** Entries of equal confidence stand in ascending label order. *)
Definition ties_ascending_by_label (l : list (string * Q)) : Prop :=
  forall i j a b,
    i < j -> nth_error l i = Some a -> nth_error l j = Some b ->
    (snd a == snd b)%Q -> String.leb (fst a) (fst b) = true.

(** Entries of equal confidence stand in descending label order. *)
Definition ties_descending_by_label (l : list (string * Q)) : Prop :=
  forall i j a b,
    i < j -> nth_error l i = Some a -> nth_error l j = Some b ->
    (snd a == snd b)%Q -> String.leb (fst b) (fst a) = true.

(** Each index is paired with the label and probability found there. *)
Definition picked (comps : list string) (probs : list Q)
    (idx : list nat) (alts : list (string * Q)) : Prop :=
  Forall2 (fun i a => nth_error comps i = Some (fst a)
                      /\ nth_error probs i = Some (snd a)) idx alts.

(** Index-value pairs in ascending order of value, equal values in
    ascending order of index. *)
Definition asc_lex (x y : nat * Q) : Prop :=
  (snd x < snd y)%Q \/ ((snd x == snd y)%Q /\ fst x < fst y).

(** The insertion sort inside [Py.argsort]. *)
Definition sorted_pairs (ps : list (nat * Q)) : list (nat * Q) :=
  fold_right Py.insert_asc [] ps.

(** Confidences in non-increasing order. *)
Definition non_increasing {A} (conf : A -> Q) (l : list A) : Prop :=
  StronglySorted (fun a b => (conf b <= conf a)%Q) l.

Fixpoint nodupb (l : list string) : bool :=
  match l with
  | [] => true
  | x :: l' => negb (PyStr.mem x l') && nodupb l'
  end.

(** What the rule stage relies on: a non-negative confidence, and a
    label that is not repeated by the first four related components. *)
Definition rule_ok (r : Rules.Rule) : bool :=
  Qle_bool 0%Q (Rules.confidence r)
  && nodupb (Rules.component r :: firstn 4 (Rules.related_of r)).

(** The classes of the flat model, when there is one, are distinct. *)
Definition flat_classes_distinct (e : App.Env) : Prop :=
  forall m, App.product_need_model e = Some m ->
            NoDup (Hierarchical.classes_ m).

(** The alternatives a stage leaves behind once it has set a label. *)
Definition shape (e : App.Env) (loc : App.Locals) : Prop :=
  exists lbl,
    App.final_label loc = Some lbl
    /\ length (App.alternatives_list loc) <= 5
    /\ non_increasing App.confidence (App.alternatives_list loc)
    /\ (App.loc_source loc = "rule"
        \/ App.loc_source loc = "hierarchical_ml"
        \/ App.loc_source loc = "ml")
    /\ (App.loc_source loc <> "hierarchical_ml" ->
        hd_error (App.labels (App.alternatives_list loc)) = Some lbl)
    /\ (App.loc_source loc <> "ml" \/ flat_classes_distinct e ->
        NoDup (App.labels (App.alternatives_list loc))).

(** [earlier] fires whenever [later] does: each keyword of [earlier],
    lowercased, occurs inside some lowercased keyword of [later]. *)
Definition subsumes (earlier later : Rules.Rule) : bool :=
  forallb
    (fun ke =>
       existsb (fun kl => PyStr.contains (PyStr.lower ke) (PyStr.lower kl))
               (keywords_of later))
    (keywords_of earlier).

(** The rules of a table that no earlier rule of the table subsumes;
    [seen] holds the rules already passed, latest first. *)
Fixpoint live_after (seen rules : list Rules.Rule) : list Rules.Rule :=
  match rules with
  | [] => []
  | r :: rest =>
      if existsb (fun e => subsumes e r) seen
      then live_after (r :: seen) rest
      else r :: live_after (r :: seen) rest
  end.

Definition live_rules (rules : list Rules.Rule) : list Rules.Rule :=
  live_after [] rules.

(** A string that is empty or starts with a non-space character. *)
Definition left_trimmed (s : string) : Prop :=
  match s with
  | EmptyString => True
  | String c _ => PyStr.isspace c = false
  end.

(** The loop of [reverse_mapping], started from any dictionary. *)
Definition assign_all (m : Hierarchical.Mapping) (acc : Dict.dict string)
  : Dict.dict string :=
  fold_left
    (fun acc entry =>
       fold_left (fun acc' component => Dict.set acc' component (fst entry))
                 (snd entry) acc)
    m acc.

(** What [detect_error_type_rules] may answer: nothing at all, or a
    non-empty label with a confidence between 0.75 and 0.9 that heads
    its own list of alternatives. *)
Definition answer_shape (a : ErrorRules.Answer) : Prop :=
  let '(label, conf, alts) := a in
  (label = None -> conf = 0%Q /\ alts = [])
  /\ (forall l, label = Some l ->
        PyStr.truthy l = true
        /\ (75 # 100 <= conf)%Q /\ (conf <= 9 # 10)%Q
        /\ hd_error alts = Some (l, conf)
        /\ Forall (fun a => (snd a < conf)%Q) (tl alts)
        /\ non_increasing snd alts
        /\ NoDup (map fst alts)
        /\ length alts <= 4).

(** What one entry of the keyword table may contribute to the detected
    types. *)
Definition entry_ok (dt : string * Q) : Prop :=
  In (fst dt) (map fst Detect.error_keywords_multi)
  /\ (6 # 10 <= snd dt)%Q /\ (snd dt <= 8 # 10)%Q.

(** The [multiple_types] of a request when every detected type passes
    the 0.5 filter. *)
Definition multiple_of (text : string) : list (string * Q) :=
  let detected := Detect.detected_types (PyStr.lower text) in
  if (1 <? length detected)%nat then firstn 3 detected else [].

(** The training rows a feedback file contributes. *)
Definition corrections (feedback : option (list Merge.FeedbackRow))
  : list Retrain.Row :=
  match feedback with
  | Some rows => Merge.feedback_training rows
  | None => []
  end.

(** The frame the job trains on: the merged rows whose label has a
    category. *)
Definition training_frame {Model} (e : Retrain.Env Model)
  : option (list Retrain.CRow) :=
  match Retrain.merged e, Retrain.mapping e with
  | Ok df0, Ok m =>
      Some (Retrain.with_category (Hierarchical.reverse_mapping m) df0)
  | _, _ => None
  end.

End Spec.

(** ** Concrete configurations used in the examples *)
Module Examples.

(** [f"{x:.4f}"] for the examples: the rational rounded to four decimals,
    a half going to the even neighbour. *)
Definition four_decimals (x : Q) : string :=
  let n := (Z.abs (Qnum x) * 10000)%Z in
  let d := Zpos (Qden x) in
  let q := (n / d)%Z in
  let r := (n mod d)%Z in
  let up := ((d <? 2 * r)%Z || ((d =? 2 * r)%Z && Z.odd q))%bool in
  let m := if up then (q + 1)%Z else q in
  let whole := NilZero.string_of_uint (N.to_uint (Z.to_N (m / 10000))) in
  let frac :=
    NilZero.string_of_uint (N.to_uint (Z.to_N (m mod 10000 + 10000))) in
  (if (Qnum x <? 0)%Z then "-" else "") ++ whole ++ "."
  ++ substring 1 4 frac.

Definition no_artifacts : Hierarchical.Disk :=
  Hierarchical.mkDisk Hierarchical.Missing Hierarchical.Missing
                      Hierarchical.Missing.

(** A process with the hierarchical modules imported but no model
    artifact on disk. *)
Definition bare_env : App.Env :=
  App.mkEnv true no_artifacts None Feedback.Completes four_decimals
            "2024-01-01T00:00:00".

Definition start : App.State :=
  App.mkState Hierarchical.fresh None [].

(** Detection stages that never find anything. *)
Definition silent_stages : Detect.Env :=
  Detect.mkEnv (fun _ => (None, 0%Q)) (fun _ => (None, 0%Q, []))
               false (fun _ => Ok (None, 0%Q, [])).

(** A merged frame of six rows: five for one label, one for another. *)
Definition ram_row (t : string) : Retrain.CRow :=
  Retrain.mkCRow (Retrain.mkRow t "RAM Upgrade") "Performance".

Definition mostly_ram : list Retrain.CRow :=
  [ram_row "pc slow"; ram_row "computer slow"; ram_row "laptop lagging";
   ram_row "chrome tabs crash"; ram_row "out of memory";
   Retrain.mkCRow (Retrain.mkRow "need more usb ports" "USB Hub")
                  "Peripheral"].

(** A frame where the rare labels are more than a fifth of the rows. *)
Definition many_rare : list Retrain.CRow :=
  [ram_row "pc slow"; ram_row "computer slow";
   Retrain.mkCRow (Retrain.mkRow "need more usb ports" "USB Hub")
                  "Peripheral"].

(** A retraining run whose category fit succeeds and whose component fit
    raises; models are named by strings, and every copy and dump
    completes. *)
Definition half_failing_run : Retrain.Env string :=
  Retrain.mkEnv "20240101_000000"
    (Ok [Retrain.mkRow "pc slow" "RAM Upgrade";
         Retrain.mkRow "computer slow" "RAM Upgrade";
         Retrain.mkRow "slow boot" "SSD Upgrade";
         Retrain.mkRow "disk full" "SSD Upgrade"])
    (Ok [("Performance", ["RAM Upgrade"; "SSD Upgrade"])])
    (fun _ d => Ok (d, d))
    (fun d =>
       if existsb (fun s => String.eqb (snd s) "Performance") d
       then Ok "category-v2" else Raise "fit failed")
    (fun _ _ => Ok 1%Q)
    Retrain.Completes Retrain.Completes Retrain.Completes
    Retrain.Completes.

(** The same run with both fits succeeding. *)
Definition good_run : Retrain.Env string :=
  Retrain.mkEnv "20240101_000000"
    (Retrain.merged half_failing_run)
    (Retrain.mapping half_failing_run)
    (fun _ d => Ok (d, d))
    (fun d =>
       if existsb (fun s => String.eqb (snd s) "Performance") d
       then Ok "category-v2" else Ok "component-v2")
    (fun _ _ => Ok 1%Q)
    Retrain.Completes Retrain.Completes Retrain.Completes
    Retrain.Completes.

Definition deployed : Retrain.Files string :=
  Retrain.mkFiles (Some (Retrain.Pickled "category-v1"))
                  (Some (Retrain.Pickled "component-v1")) [].

(** A category model that always answers [Performance]. *)
Definition sure_performance : Hierarchical.Model :=
  Hierarchical.mkModel (fun _ => Ok [1%Q]) ["Performance"].

Definition two_components : Hierarchical.Mapping :=
  [("Performance", ["CPU Upgrade"; "GPU Upgrade"])].

(** Component models giving both components the same probability, with
    the classes listed in either order. *)
Definition tie_cpu_gpu : Hierarchical.Model :=
  Hierarchical.mkModel (fun _ => Ok [(1 # 2)%Q; (1 # 2)%Q])
                       ["CPU Upgrade"; "GPU Upgrade"].

Definition tie_gpu_cpu : Hierarchical.Model :=
  Hierarchical.mkModel (fun _ => Ok [(1 # 2)%Q; (1 # 2)%Q])
                       ["GPU Upgrade"; "CPU Upgrade"].

Definition loaded_with (component_model : Hierarchical.Model)
  : Hierarchical.Loaded :=
  (Some sure_performance, Some component_model, Some two_components,
   Some (Hierarchical.reverse_mapping two_components)).

(** Hierarchical artifacts for a request about performance: the
    component model prefers RAM over SSD over CPU. *)
Definition performance_mapping : Hierarchical.Mapping :=
  [("Performance", ["RAM Upgrade"; "SSD Upgrade"; "CPU Upgrade"]);
   ("Peripheral", ["USB Hub"; "Webcam Upgrade"])].

Definition prefers_ram : Hierarchical.Model :=
  Hierarchical.mkModel
    (fun _ => Ok [(1 # 10)%Q; (6 # 10)%Q; (3 # 10)%Q; 0%Q; 0%Q])
    ["CPU Upgrade"; "RAM Upgrade"; "SSD Upgrade"; "USB Hub";
     "Webcam Upgrade"].

Definition performance_env : App.Env :=
  App.mkEnv true
    (Hierarchical.mkDisk (Hierarchical.Holds sure_performance)
                         (Hierarchical.Holds prefers_ram)
                         (Hierarchical.Holds performance_mapping))
    None Feedback.Completes four_decimals "2024-01-01T00:00:00".

(** Artifacts for a request about a peripheral: the category model is
    sure of [Peripheral], the component model prefers the webcam. *)
Definition sure_peripheral : Hierarchical.Model :=
  Hierarchical.mkModel (fun _ => Ok [1%Q]) ["Peripheral"].

Definition prefers_webcam : Hierarchical.Model :=
  Hierarchical.mkModel
    (fun _ => Ok [0%Q; 0%Q; 0%Q; (4 # 10)%Q; (6 # 10)%Q])
    ["CPU Upgrade"; "RAM Upgrade"; "SSD Upgrade"; "USB Hub";
     "Webcam Upgrade"].

Definition peripheral_env : App.Env :=
  App.mkEnv true
    (Hierarchical.mkDisk (Hierarchical.Holds sure_peripheral)
                         (Hierarchical.Holds prefers_webcam)
                         (Hierarchical.Holds performance_mapping))
    None Feedback.Completes four_decimals "2024-01-01T00:00:00".

(** The same artifacts with a category model torn between two
    categories, so that the combined confidence is low. *)
Definition unsure_performance : Hierarchical.Model :=
  Hierarchical.mkModel (fun _ => Ok [(1 # 2)%Q; (1 # 2)%Q])
                       ["Performance"; "Peripheral"].

Definition unsure_env : App.Env :=
  App.mkEnv true
    (Hierarchical.mkDisk (Hierarchical.Holds unsure_performance)
                         (Hierarchical.Holds prefers_ram)
                         (Hierarchical.Holds performance_mapping))
    None Feedback.Completes four_decimals "2024-01-01T00:00:00".

Definition response_of (o : App.State * App.Outcome)
  : App.ProductNeedResponse :=
  match snd o with
  | App.Returns r => r
  | App.HTTPException _ _ => App.no_prediction
  end.

(** A category model file that [joblib.load] rejects. *)
Definition corrupt_category : Hierarchical.Disk :=
  Hierarchical.mkDisk Hierarchical.Unloadable Hierarchical.Missing
                      Hierarchical.Missing.

(** Detection stages where only the model answers, and with a low
    confidence. *)
Definition unsure_model : Detect.Env :=
  Detect.mkEnv (fun _ => (None, 0%Q)) (fun _ => (None, 0%Q, []))
               true
               (fun _ => Ok (Some "RAM Upgrade", (3 # 10)%Q,
                             [("RAM Upgrade", (3 # 10)%Q)])).

(** A training file with one usable row, and a feedback file whose first
    row corrects the label of the same text. *)
Definition training_file : list Merge.TrainingRow :=
  [Merge.mkTraining (Some "PC is slow ") (Some "RAM Upgrade");
   Merge.mkTraining None (Some "SSD Upgrade")].

Definition feedback_file : option (list Merge.FeedbackRow) :=
  Some [Merge.mkFeedback (Some " PC is SLOW") (Some "SSD Upgrade");
        Merge.mkFeedback (Some "no sound") None].

End Examples.

(** * Properties *)

(** ** Strings *)

Lemma startswith_spec (p s : string) :
  PyStr.startswith p s = true <-> exists post, s = p ++ post.
Proof.
  revert s; induction p as [|a p IH]; intros s; simpl.
  - split; [intros _; now exists s | reflexivity].
  - destruct s as [|b s].
    + split; [discriminate | intros [post H]; discriminate].
    + rewrite andb_true_iff, Ascii.eqb_eq, IH. split.
      * intros [-> [post ->]]. now exists post.
      * intros [post H]. injection H as -> ->. split; [reflexivity|].
        now exists post.
Qed.

Lemma contains_spec (n h : string) :
  PyStr.contains n h = true <-> Spec.is_substring n h.
Proof.
  unfold Spec.is_substring.
  induction h as [|c h IH].
  - cbn [PyStr.contains]. rewrite orb_false_r, startswith_spec. split.
    + intros [post H]. exists "", post. exact H.
    + intros [pre [post H]]. destruct pre; [|discriminate].
      exists post. exact H.
  - cbn [PyStr.contains]. rewrite orb_true_iff, startswith_spec, IH. split.
    + intros [[post H] | [pre [post H]]].
      * exists "", post. exact H.
      * exists (String c pre), post. simpl. now rewrite H.
    + intros [pre [post H]]. destruct pre as [|c' pre].
      * left. exists post. exact H.
      * right. simpl in H. injection H as _ H. now exists pre, post.
Qed.

Lemma rstrip_all_space (s : string) :
  PyStr.all_space s = true -> PyStr.rstrip s = "".
Proof.
  induction s as [|c s IH]; simpl; [reflexivity|].
  rewrite andb_true_iff. intros [Hc Hs]. now rewrite (IH Hs), Hc.
Qed.

Lemma lstrip_all_space (s : string) :
  PyStr.all_space s = true -> PyStr.lstrip s = "".
Proof.
  induction s as [|c s IH]; simpl; [reflexivity|].
  rewrite andb_true_iff. intros [Hc Hs]. now rewrite Hc, IH.
Qed.

Lemma strip_all_space (s : string) :
  PyStr.all_space s = true -> PyStr.strip s = "".
Proof.
  intros H. unfold PyStr.strip. now rewrite (lstrip_all_space s H).
Qed.

(** ** The rule matcher *)

Lemma rule_fires_spec (t : string) (r : Rules.Rule) :
  Rules.rule_fires t r = true <-> Spec.satisfied r t.
Proof.
  unfold Rules.rule_fires, Spec.satisfied, Spec.keywords_of.
  destruct (Rules.keywords r) as [kws | kw].
  - rewrite forallb_forall. split; intros H kw Hin.
    + apply contains_spec, H, Hin.
    + apply contains_spec, H, Hin.
  - rewrite contains_spec. split.
    + intros H k [<- | []]. exact H.
    + intros H. apply H. now left.
Qed.

Lemma first_match_some (t : string) (rules : list Rules.Rule)
    (res : Rules.RuleResult) :
  Rules.first_match t rules = Some res <->
  exists pre r post,
    rules = (pre ++ r :: post)%list /\ Spec.satisfied r t
    /\ (forall r', In r' pre -> ~ Spec.satisfied r' t)
    /\ res = Rules.package r.
Proof.
  induction rules as [|r0 rules IH]; simpl.
  - split; [discriminate|].
    intros (pre & r & post & H & _). destruct pre; discriminate.
  - destruct (Rules.rule_fires t r0) eqn:F.
    + split.
      * intros H. injection H as <-. exists [], r0, rules.
        repeat split; [now apply rule_fires_spec | intros r' []].
      * intros (pre & r & post & H & Hs & Hpre & ->).
        destruct pre as [|p pre]; simpl in H; injection H as E1 E2.
        -- now subst r.
        -- subst p. exfalso.
           apply (Hpre r0); [now left | now apply rule_fires_spec].
    + rewrite IH. split.
      * intros (pre & r & post & -> & Hs & Hpre & ->).
        exists (r0 :: pre), r, post. repeat split; try assumption.
        intros r' [<- | Hin]; [|now apply Hpre].
        rewrite <- rule_fires_spec, F. discriminate.
      * intros (pre & r & post & H & Hs & Hpre & ->).
        destruct pre as [|p pre]; simpl in H; injection H as E1 E2.
        -- subst r. apply rule_fires_spec in Hs. congruence.
        -- exists pre, r, post. repeat split; try assumption.
           intros r' Hin. apply Hpre. now right.
Qed.

Lemma first_match_none (t : string) (rules : list Rules.Rule) :
  Rules.first_match t rules = None <->
  forall r, In r rules -> ~ Spec.satisfied r t.
Proof.
  induction rules as [|r0 rules IH]; simpl.
  - split; [intros _ r [] | reflexivity].
  - destruct (Rules.rule_fires t r0) eqn:F.
    + split; [discriminate|]. intros H. exfalso.
      apply (H r0); [now left | now apply rule_fires_spec].
    + rewrite IH. split.
      * intros H r [<- | Hin]; [|now apply H].
        rewrite <- rule_fires_spec, F. discriminate.
      * intros H r Hin. apply H. now right.
Qed.

(** C2. For every text, [match_rule] answers with the label, confidence,
    explanation and related labels of the earliest rule of [RULES] whose
    keywords all occur, lowercased, in the lowercased and trimmed text:
    every rule declared before the answering one is unsatisfied, so a
    later matching rule never wins; and the answer is [None] exactly when
    no rule is satisfied. *)
Theorem match_rule_earliest_rule_wins (text : string) :
  (forall res,
      Rules.match_rule text = Some res <->
      exists pre r post,
        Rules.RULES = (pre ++ r :: post)%list
        /\ Spec.satisfied r (Spec.normalized text)
        /\ (forall r', In r' pre -> ~ Spec.satisfied r' (Spec.normalized text))
        /\ res = (Rules.component r, Rules.confidence r,
                  Rules.explanation r, Rules.related_of r))
  /\ (Rules.match_rule text = None <->
      forall r, In r Rules.RULES -> ~ Spec.satisfied r (Spec.normalized text)).
Proof.
  split.
  - intros res. apply first_match_some.
  - apply first_match_none.
Qed.

(** Two rules match ["my pc slow, no power"]; the earlier one answers. *)
Example match_rule_precedence_example :
  Rules.rule_fires "my pc slow, no power"
    (nth 2 Rules.RULES (Rules.mkRule (Rules.KwStr "") "" 0%Q "" None)) = true
  /\ Rules.rule_fires "my pc slow, no power"
    (nth 3 Rules.RULES (Rules.mkRule (Rules.KwStr "") "" 0%Q "" None)) = true
  /\ Rules.match_rule "  My PC slow, no power " =
     Some ("PSU Upgrade", (95 # 100)%Q,
           "No power usually means PSU failure.",
           ["Power Cable Replacement"]).
Proof. vm_compute. repeat split. Qed.

(** ** Empty and whitespace-only requests *)

(** C1, as stated, fails: on a blank text the recommend endpoint raises
    HTTP 400 instead of returning a prediction, and the hybrid detector
    labels its default answer with source [fallback], not [none]. *)
Lemma blank_text_is_rejected_or_fallback :
  (forall r, snd (App.product_need_recommend Examples.bare_env Examples.start
                    "   ") <> App.Returns r)
  /\ Detect.source (snd (Detect.detect_error_type_hybrid
                           Examples.silent_stages "   ")) <> "none".
Proof.
  split.
  - intros r. vm_compute. discriminate.
  - vm_compute. discriminate.
Qed.

(** C1, amended. For every text that is empty or made of whitespace only,
    no stage is invoked by either entry point: the hybrid detector returns
    the default label [General Repair] with confidence 0, source
    [fallback] and no alternatives, and the recommend endpoint leaves the
    process state untouched and rejects the request with HTTP 400. *)
Theorem blank_text_short_circuits (e : App.Env) (st : App.State)
    (de : Detect.Env) (text : string) :
  PyStr.all_space text = true ->
  App.product_need_recommend e st text
  = (st, App.HTTPException 400 "Text must not be empty")
  /\ Detect.detect_error_type_hybrid de text
     = ([], Detect.mkDetection (Some "General Repair") 0%Q "fallback" [] []).
Proof.
  intros H. split.
  - unfold App.product_need_recommend. now rewrite (strip_all_space text H).
  - unfold Detect.detect_error_type_hybrid.
    rewrite (strip_all_space text H). cbn [PyStr.truthy negb].
    now rewrite orb_true_r.
Qed.

Lemma blank_text_short_circuits_witness :
  PyStr.all_space "  " = true
  /\ App.product_need_recommend Examples.bare_env Examples.start "  "
     = (Examples.start, App.HTTPException 400 "Text must not be empty")
  /\ Detect.detect_error_type_hybrid Examples.silent_stages "  "
     = ([], Detect.mkDetection (Some "General Repair") 0%Q "fallback" [] []).
Proof.
  split; [reflexivity|].
  apply (blank_text_short_circuits Examples.bare_env Examples.start
           Examples.silent_stages "  ").
  reflexivity.
Defined.

(** ** Related components *)

Lemma mem_In (x : string) (l : list string) :
  PyStr.mem x l = true <-> In x l.
Proof.
  unfold PyStr.mem. rewrite existsb_exists. split.
  - intros [y [Hin E]]. apply String.eqb_eq in E. now subst.
  - intros H. exists x. split; [exact H | apply String.eqb_refl].
Qed.

Lemma relevance_in (comp : string) (components : list string) :
  In comp components ->
  MultiComponent.relevance comp components = (7 # 10)%Q.
Proof.
  intros H. unfold MultiComponent.relevance.
  now rewrite (proj2 (mem_In comp components) H).
Qed.

Lemma scan_components_scores (primary : string)
    (components rest : list string) :
  incl rest components ->
  Forall (fun cs => snd cs = (7 # 10)%Q)
         (MultiComponent.scan_components primary components rest).
Proof.
  induction rest as [|c rest IH]; intros Hincl; simpl.
  - constructor.
  - assert (Hrest : incl rest components)
      by (intros x Hx; apply Hincl; now right).
    destruct (negb (c =? primary)%string).
    + constructor; [|now apply IH].
      apply relevance_in, Hincl. now left.
    + now apply IH.
Qed.

Lemma scan_problems_scores (table : Dict.dict (list string))
    (t primary : string) :
  Forall (fun cs => snd cs = (7 # 10)%Q)
         (MultiComponent.scan_problems table t primary).
Proof.
  induction table as [|[problem components] table IH]; simpl.
  - constructor.
  - apply Forall_app. split; [|exact IH].
    destruct (PyStr.contains problem t); [|constructor].
    apply scan_components_scores, incl_refl.
Qed.

Lemma dedupe_from_incl (seen : list string) (l : list (string * Q)) :
  incl (Py.dedupe_from seen l) l.
Proof.
  revert seen; induction l as [|[c s] l IH]; intros seen; simpl.
  - apply incl_refl.
  - destruct (PyStr.mem c seen).
    + apply incl_tl, IH.
    + apply incl_cons; [now left | apply incl_tl, IH].
Qed.

Lemma Forall_incl {A} (P : A -> Prop) (l l' : list A) :
  incl l l' -> Forall P l' -> Forall P l.
Proof.
  intros Hincl H. apply Forall_forall. intros x Hx.
  rewrite Forall_forall in H. apply H, Hincl, Hx.
Qed.

Lemma firstn_incl {A} (n : nat) (l : list A) : incl (firstn n l) l.
Proof.
  intros x Hx. rewrite <- (firstn_skipn n l). apply in_or_app. now left.
Qed.

Lemma sort_desc_constant {A} (key : A -> Q) (c : Q) (l : list A) :
  Forall (fun x => key x = c) l -> Py.sort_desc key l = l.
Proof.
  induction 1 as [|x l Hx Hl IH]; [reflexivity|].
  change (Py.sort_desc key (x :: l))
    with (Py.insert_desc key x (Py.sort_desc key l)).
  rewrite IH.
  destruct l as [|y l']; simpl; [reflexivity|].
  apply Forall_inv in Hl. rewrite Hx, Hl.
  now rewrite (proj2 (Qle_bool_iff c c) (Qle_refl c)).
Qed.

(** C10. Every pair returned by [get_related_components] carries the
    score 0.7: the guard [comp in components] holds for every [comp] the
    loop draws from [components], so the 0.5 branch is never taken. The
    descending sort therefore changes nothing, and the result is the first
    five distinct components in the order their keywords are met in the
    table. *)
Theorem related_scores_are_constant (text primary : string) :
  let result := MultiComponent.get_related_components text primary in
  Forall (fun cs => snd cs = (7 # 10)%Q) result
  /\ length result <= 5
  /\ result =
     firstn 5 (Py.dedupe
       (MultiComponent.scan_problems MultiComponent.PROBLEM_TO_COMPONENTS
          (PyStr.lower text) primary))
  /\ (forall comp components,
         In comp components ->
         MultiComponent.relevance comp components = (7 # 10)%Q).
Proof.
  set (related := MultiComponent.scan_problems
                    MultiComponent.PROBLEM_TO_COMPONENTS
                    (PyStr.lower text) primary).
  assert (Hd : Forall (fun cs => snd cs = (7 # 10)%Q) (Py.dedupe related)).
  { apply (Forall_incl _ _ related).
    - apply dedupe_from_incl.
    - apply scan_problems_scores. }
  assert (E : MultiComponent.get_related_components text primary
              = firstn 5 (Py.dedupe related)).
  { unfold MultiComponent.get_related_components,
      MultiComponent.get_related_components_in.
    fold related. now rewrite (sort_desc_constant snd (7 # 10)%Q _ Hd). }
  cbv zeta. rewrite E. repeat split.
  - apply (Forall_incl _ _ (Py.dedupe related)); [|exact Hd].
    apply firstn_incl.
  - apply firstn_le_length.
  - intros comp components. apply relevance_in.
Qed.

(** ** Dictionaries *)

Lemma dict_get_set_same {V} (d : Dict.dict V) (k : string) (v : V) :
  Dict.get (Dict.set d k v) k = Some v.
Proof.
  induction d as [|[k' v'] d IH]; simpl.
  - now rewrite String.eqb_refl.
  - destruct (k =? k')%string eqn:E; simpl.
    + now rewrite String.eqb_refl.
    + now rewrite E.
Qed.

Lemma dict_get_set_other {V} (d : Dict.dict V) (k k' : string) (v : V) :
  k' <> k -> Dict.get (Dict.set d k v) k' = Dict.get d k'.
Proof.
  intros Hne. induction d as [|[k0 v0] d IH]; simpl.
  - destruct (k' =? k)%string eqn:E; [|reflexivity].
    apply String.eqb_eq in E. contradiction.
  - destruct (k =? k0)%string eqn:E; simpl.
    + apply String.eqb_eq in E. subst k0.
      destruct (k' =? k)%string eqn:E'; [|reflexivity].
      apply String.eqb_eq in E'. contradiction.
    + destruct (k' =? k0)%string; [reflexivity | exact IH].
Qed.

(** ** The retraining job: rare labels *)

Lemma Qlt_bool_iff (a b : Q) : Py.Qlt_bool a b = true <-> (a < b)%Q.
Proof.
  unfold Py.Qlt_bool. rewrite negb_true_iff. split.
  - intros H. apply Qnot_le_lt. intros Hle.
    apply Qle_bool_iff in Hle. congruence.
  - intros H. destruct (Qle_bool b a) eqn:E; [|reflexivity].
    apply Qle_bool_iff in E. exfalso. exact (Qlt_not_le _ _ H E).
Qed.

Lemma four_fifths_test (a b : nat) :
  Py.Qlt_bool (Hierarchical.Q_of_nat a)
              (Hierarchical.Q_of_nat b * (8 # 10))%Q = true
  <-> 5 * a < 4 * b.
Proof.
  rewrite Qlt_bool_iff. unfold Hierarchical.Q_of_nat, Qlt. simpl. lia.
Qed.

Lemma class_count_filtered (df sub : list Retrain.CRow) (l : string) :
  Retrain.class_count
    (filter (fun r => (2 <=? Retrain.class_count df (Retrain.label_of r))%nat)
            sub)
    l
  = if (2 <=? Retrain.class_count df l)%nat
    then Retrain.class_count sub l else 0.
Proof.
  induction sub as [|r sub IH].
  - cbn [filter]. destruct (2 <=? Retrain.class_count df l)%nat; reflexivity.
  - cbn [filter].
    destruct (Retrain.label_of r =? l)%string eqn:E.
    + assert (El : Retrain.label_of r = l) by now apply String.eqb_eq.
      rewrite El.
      destruct (2 <=? Retrain.class_count df l)%nat eqn:V.
      * unfold Retrain.class_count in IH |- *. cbn [filter].
        rewrite E. cbn [length]. now rewrite IH.
      * rewrite IH. reflexivity.
    + destruct (2 <=? Retrain.class_count df (Retrain.label_of r))%nat.
      * unfold Retrain.class_count in IH |- *. cbn [filter].
        rewrite E. exact IH.
      * rewrite IH. unfold Retrain.class_count. cbn [filter].
        now rewrite E.
Qed.

(** The frame restricted to labels with at least 2 rows is used only
    when it keeps fewer than 80% of the rows; every class of it then has
    at least 2 rows. Otherwise the unrestricted frame is used. *)
Lemma component_corpus_cases (df : list Retrain.CRow) :
  (5 * length (Retrain.df_filtered df) < 4 * length df ->
   Retrain.component_corpus df = Retrain.df_filtered df
   /\ forall r, In r (Retrain.component_corpus df) ->
                2 <= Retrain.class_count (Retrain.component_corpus df)
                                         (Retrain.label_of r))
  /\ (4 * length df <= 5 * length (Retrain.df_filtered df) ->
      Retrain.component_corpus df = df).
Proof.
  unfold Retrain.component_corpus. split; intros H.
  - rewrite (proj2 (four_fifths_test _ _) H). split; [reflexivity|].
    intros r Hr. unfold Retrain.df_filtered in *.
    apply filter_In in Hr. destruct Hr as [_ Hv].
    rewrite class_count_filtered, Hv. now apply Nat.leb_le.
  - destruct (Py.Qlt_bool _ _) eqn:E; [|reflexivity].
    apply four_fifths_test in E. lia.
Qed.

(** C7, as stated, fails: with five rows of one label and a single row of
    another, fewer than a fifth of the rows are rare, the restricted
    frame is not used and the row of the singleton label stays in the
    data handed to the split. *)
Lemma rare_label_survives_small_cut :
  In (Retrain.mkCRow (Retrain.mkRow "need more usb ports" "USB Hub")
                     "Peripheral")
     (Retrain.component_corpus Examples.mostly_ram)
  /\ Retrain.class_count (Retrain.component_corpus Examples.mostly_ram)
                         "USB Hub" = 1.
Proof.
  vm_compute. split; [|reflexivity].
  do 5 right. left. reflexivity.
Qed.

Lemma train_inv (Model : Type) (e : Retrain.Env Model)
    (d : list Retrain.Sample) (m : Model) (acc : Q) :
  Retrain.train e d = Ok (m, acc) ->
  exists train test,
    (Retrain.train_test_split e true d = Ok (train, test)
     \/ ((exists msg, Retrain.train_test_split e true d = Raise msg)
         /\ Retrain.train_test_split e false d = Ok (train, test)))
    /\ Retrain.fit e train = Ok m
    /\ Retrain.accuracy e m test = Ok acc.
Proof.
  unfold Retrain.train, Retrain.split.
  destruct (Retrain.train_test_split e true d) as [[tr te]|msg] eqn:S1.
  - cbn [bind fst snd].
    destruct (Retrain.fit e tr) as [m'|] eqn:F; cbn [bind]; [|discriminate].
    destruct (Retrain.accuracy e m' te) as [a|] eqn:A; cbn [bind];
      [|discriminate].
    intros [= <- <-]. exists tr, te. split; [now left|]. now split.
  - destruct (Retrain.train_test_split e false d) as [[tr te]|msg'] eqn:S2;
      cbn [bind fst snd]; [|discriminate].
    destruct (Retrain.fit e tr) as [m'|] eqn:F; cbn [bind]; [|discriminate].
    destruct (Retrain.accuracy e m' te) as [a|] eqn:A; cbn [bind];
      [|discriminate].
    intros [= <- <-]. exists tr, te. split; [|now split].
    right. split; [now exists msg | reflexivity].
Qed.

Lemma write_file_returns (Model : Type) (w : Retrain.Write)
    (content : Retrain.Pickle Model) (old new : option (Retrain.Pickle Model)) :
  Retrain.write_file w content old = (new, Ok tt) ->
  w = Retrain.Completes /\ new = Some content.
Proof. destruct w; cbn; intros [= <-]; now split. Qed.

(** How a run that returns went. *)
Lemma retrain_models_returns (Model : Type) (e : Retrain.Env Model)
    (f : Retrain.Files Model) (accs : Q * Q) :
  snd (Retrain.retrain_models e f) = Ok accs ->
  exists f0 df0 m mc mp,
    Retrain.backup_models e f = (f0, Ok tt)
    /\ Retrain.merged e = Ok df0
    /\ Retrain.mapping e = Ok m
    /\ let df := Retrain.with_category (Hierarchical.reverse_mapping m) df0 in
       Retrain.train e (Retrain.category_samples df) = Ok (mc, fst accs)
       /\ Retrain.train e (Retrain.component_samples
                             (Retrain.component_corpus df))
          = Ok (mp, snd accs)
       /\ Retrain.dump_category e = Retrain.Completes
       /\ Retrain.dump_component e = Retrain.Completes
       /\ fst (Retrain.retrain_models e f)
          = Retrain.mkFiles (Some (Retrain.Pickled mc))
                            (Some (Retrain.Pickled mp))
                            (Retrain.backups f0).
Proof.
  unfold Retrain.retrain_models.
  destruct (Retrain.backup_models e f) as [f0 [[]|msg]]; [|discriminate].
  destruct (Retrain.merged e) as [df0|]; [|discriminate].
  destruct (Retrain.mapping e) as [m|]; [|discriminate].
  destruct (Retrain.train e (Retrain.category_samples _))
    as [[mc acc]|] eqn:Tc; [|discriminate].
  destruct (Retrain.write_file (Retrain.dump_category e) _ _)
    as [w1 [[]|]] eqn:W1; [|discriminate].
  cbn [Retrain.CATEGORY_MODEL_PATH Retrain.COMPONENT_MODEL_PATH
       Retrain.backups].
  destruct (Retrain.train e (Retrain.component_samples _))
    as [[mp acc']|] eqn:Tp; [|discriminate].
  destruct (Retrain.write_file (Retrain.dump_component e) _ _)
    as [w2 [[]|]] eqn:W2; [|discriminate].
  cbn [fst snd]. intros [= <-].
  apply write_file_returns in W1, W2. destruct W1 as [D1 ->], W2 as [D2 ->].
  exists f0, df0, m, mc, mp. cbv zeta. cbn [fst snd]. now repeat split.
Qed.

(** C7, amended. In a run that returns, the component model saved is the
    one fitted on the training part of a split of the component corpus:
    the stratified split, or the plain one when the stratified split
    raises. That corpus is the merged frame restricted to labels with at
    least 2 rows only when the restriction keeps fewer than 80% of the
    rows, and then each of its classes has at least 2 rows; otherwise it
    is the whole frame, rare labels included. *)
Theorem component_model_is_fitted_on_a_split_of_the_corpus
    (Model : Type) (e : Retrain.Env Model) (f : Retrain.Files Model)
    (accs : Q * Q) :
  snd (Retrain.retrain_models e f) = Ok accs ->
  exists df0 m train test model,
    Retrain.merged e = Ok df0
    /\ Retrain.mapping e = Ok m
    /\ let df := Retrain.with_category (Hierarchical.reverse_mapping m) df0 in
       let corpus := Retrain.component_corpus df in
       let samples := Retrain.component_samples corpus in
       (Retrain.train_test_split e true samples = Ok (train, test)
        \/ ((exists msg, Retrain.train_test_split e true samples = Raise msg)
            /\ Retrain.train_test_split e false samples = Ok (train, test)))
       /\ Retrain.fit e train = Ok model
       /\ Retrain.accuracy e model test = Ok (snd accs)
       /\ Retrain.COMPONENT_MODEL_PATH (fst (Retrain.retrain_models e f))
          = Some (Retrain.Pickled model)
       /\ (5 * length (Retrain.df_filtered df) < 4 * length df ->
           corpus = Retrain.df_filtered df
           /\ forall r, In r corpus ->
                        2 <= Retrain.class_count corpus (Retrain.label_of r))
       /\ (4 * length df <= 5 * length (Retrain.df_filtered df) ->
           corpus = df).
Proof.
  intros H.
  destruct (retrain_models_returns _ _ _ _ H)
    as (f0 & df0 & m & mc & mp & _ & Hm & Hmap & _ & Tp & _ & _ & Hf).
  cbv zeta in Tp.
  destruct (train_inv _ _ _ _ _ Tp) as (train & test & Hs & Hfit & Hacc).
  exists df0, m, train, test, mp.
  split; [exact Hm|]. split; [exact Hmap|]. cbv zeta.
  split; [exact Hs|]. split; [exact Hfit|]. split; [exact Hacc|].
  split; [now rewrite Hf|]. apply component_corpus_cases.
Qed.

Lemma component_model_is_fitted_on_a_split_of_the_corpus_witness :
  snd (Retrain.retrain_models Examples.good_run Examples.deployed)
  = Ok (1%Q, 1%Q)
  /\ exists model,
       Retrain.COMPONENT_MODEL_PATH
         (fst (Retrain.retrain_models Examples.good_run Examples.deployed))
       = Some (Retrain.Pickled model).
Proof.
  assert (E : snd (Retrain.retrain_models Examples.good_run
                     Examples.deployed) = Ok (1%Q, 1%Q))
    by (vm_compute; reflexivity).
  split; [exact E|].
  destruct (component_model_is_fitted_on_a_split_of_the_corpus
              string Examples.good_run Examples.deployed _ E)
    as (df0 & m & train & test & model & _ & _ & H).
  cbv zeta in H. destruct H as (_ & _ & _ & Hc & _).
  now exists model.
Defined.

(** ** The retraining job: artifacts *)

Lemma backup_names_differ (timestamp : string) :
  Retrain.category_backup timestamp <> Retrain.component_backup timestamp.
Proof.
  unfold Retrain.category_backup, Retrain.component_backup.
  cbn [String.append]. intros H. congruence.
Qed.

Lemma copy2_spec (Model : Type) (w : Retrain.Write)
    (content : Retrain.Pickle Model) (name : string)
    (f : Retrain.Files Model) :
  let out := Retrain.copy2 w content name f in
  Retrain.CATEGORY_MODEL_PATH (fst out) = Retrain.CATEGORY_MODEL_PATH f
  /\ Retrain.COMPONENT_MODEL_PATH (fst out) = Retrain.COMPONENT_MODEL_PATH f
  /\ (forall other, other <> name ->
        Dict.get (Retrain.backups (fst out)) other
        = Dict.get (Retrain.backups f) other)
  /\ (snd out = Ok tt ->
      Dict.get (Retrain.backups (fst out)) name = Some content).
Proof.
  cbv zeta. unfold Retrain.copy2, Retrain.write_file.
  destruct w; cbn [fst snd Retrain.CATEGORY_MODEL_PATH
                   Retrain.COMPONENT_MODEL_PATH Retrain.backups].
  - repeat split; [|intros _; apply dict_get_set_same].
    intros other Hne. now apply dict_get_set_other.
  - repeat split; [|discriminate].
    intros other Hne.
    destruct (Dict.get (Retrain.backups f) name); [|reflexivity].
    now apply dict_get_set_other.
  - repeat split; [|discriminate].
    intros other Hne. now apply dict_get_set_other.
  - repeat split; [|discriminate].
    intros other Hne. now apply dict_get_set_other.
Qed.

Lemma backup_models_spec (Model : Type) (e : Retrain.Env Model)
    (f : Retrain.Files Model) :
  let out := Retrain.backup_models e f in
  Retrain.CATEGORY_MODEL_PATH (fst out) = Retrain.CATEGORY_MODEL_PATH f
  /\ Retrain.COMPONENT_MODEL_PATH (fst out) = Retrain.COMPONENT_MODEL_PATH f
  /\ (forall name,
        name <> Retrain.category_backup (Retrain.now e) ->
        name <> Retrain.component_backup (Retrain.now e) ->
        Dict.get (Retrain.backups (fst out)) name
        = Dict.get (Retrain.backups f) name)
  /\ (snd out = Ok tt ->
      (forall c, Retrain.CATEGORY_MODEL_PATH f = Some c ->
         Dict.get (Retrain.backups (fst out))
                  (Retrain.category_backup (Retrain.now e)) = Some c)
      /\ (forall c, Retrain.COMPONENT_MODEL_PATH f = Some c ->
            Dict.get (Retrain.backups (fst out))
                     (Retrain.component_backup (Retrain.now e)) = Some c)).
Proof.
  cbv zeta. unfold Retrain.backup_models.
  pose proof (backup_names_differ (Retrain.now e)) as Hd.
  destruct (Retrain.CATEGORY_MODEL_PATH f) as [c1|] eqn:E1.
  - pose proof (copy2_spec Model (Retrain.copy_category e) c1
                  (Retrain.category_backup (Retrain.now e)) f)
      as (A1 & A2 & A3 & A4). cbv zeta in A1, A2, A3, A4.
    destruct (Retrain.copy2 (Retrain.copy_category e) c1 _ f)
      as [f1 [[]|msg]]; cbn [fst snd] in *.
    + destruct (Retrain.COMPONENT_MODEL_PATH f1) as [c2|] eqn:E2.
      * pose proof (copy2_spec Model (Retrain.copy_component e) c2
                      (Retrain.component_backup (Retrain.now e)) f1)
          as (B1 & B2 & B3 & B4). cbv zeta in B1, B2, B3, B4.
        destruct (Retrain.copy2 (Retrain.copy_component e) c2 _ f1)
          as [f2 r2]; cbn [fst snd] in *.
        split; [congruence|]. split; [congruence|]. split.
        { intros name H1 H2. rewrite (B3 name H2). now apply A3. }
        intros ->. split.
        { intros c [= <-]. rewrite (B3 _ Hd). now apply A4. }
        { intros c Hc. rewrite B4 by reflexivity. congruence. }
      * cbn [fst snd]. split; [congruence|]. split; [congruence|]. split.
        { intros name H1 _. now apply A3. }
        intros _. split; [intros c [= <-]; now apply A4|].
        intros c Hc. congruence.
    + split; [congruence|]. split; [congruence|]. split.
      { intros name H1 _. now apply A3. }
      discriminate.
  - cbn [fst snd].
    destruct (Retrain.COMPONENT_MODEL_PATH f) as [c2|] eqn:E2.
    + pose proof (copy2_spec Model (Retrain.copy_component e) c2
                    (Retrain.component_backup (Retrain.now e)) f)
        as (B1 & B2 & B3 & B4). cbv zeta in B1, B2, B3, B4.
      destruct (Retrain.copy2 (Retrain.copy_component e) c2 _ f)
        as [f2 r2]; cbn [fst snd] in *.
      split; [congruence|]. split; [congruence|]. split.
      { intros name _ H2. now apply B3. }
      intros ->. split; [discriminate|].
      intros c [= <-]. now apply B4.
    + cbn [fst snd]. split; [congruence|]. split; [congruence|].
      split; [reflexivity|]. intros _. split; discriminate.
Qed.

(** C8, as stated, fails: when the category fit succeeds and the component
    fit raises, the run aborts with the new category model already saved
    next to the old component model. *)
Lemma failed_component_fit_leaves_mixed_pair :
  let out := Retrain.retrain_models Examples.half_failing_run
                                    Examples.deployed in
  snd out = Raise "fit failed"
  /\ Retrain.CATEGORY_MODEL_PATH (fst out)
     = Some (Retrain.Pickled "category-v2")
  /\ Retrain.COMPONENT_MODEL_PATH (fst out)
     = Some (Retrain.Pickled "component-v1").
Proof. vm_compute. repeat split. Qed.

Ltac untouched HA HB HC Eb :=
  split; [exact HC|];
  split; [discriminate|];
  split; [intros H; exfalso; apply H; congruence|];
  split; [intros H; exfalso; apply H; congruence|];
  intros df' mc' acc' msg' Hb' Hf' Htc' Hd' Htp';
  first [ discriminate Hb'
        | unfold Spec.training_frame in Hf';
          repeat match goal with
                 | E : Retrain.merged _ = _ |- _ => rewrite E in Hf'
                 | E : Retrain.mapping _ = _ |- _ => rewrite E in Hf'
                 end;
          first [ discriminate Hf'
                | injection Hf' as <-; congruence ] ].

(** C8, amended. The job first copies each existing artifact to a
    timestamped backup file; no other file of the directory is touched,
    and a run that returns leaves each previous artifact under its backup
    name and two freshly trained artifacts in place. An artifact changes
    only through the dump of its own model, after that model was split,
    fitted and evaluated without error: it then holds the new model, or
    is damaged when the dump is interrupted. The component artifact
    changes only after the category dump completed. When the component
    training raises after the category dump, the run fails with the new
    category artifact beside the previous component artifact. *)
Theorem retrain_models_artifact_outcomes (Model : Type)
    (e : Retrain.Env Model) (f : Retrain.Files Model) :
  let out := Retrain.retrain_models e f in
  (forall name,
     name <> Retrain.category_backup (Retrain.now e) ->
     name <> Retrain.component_backup (Retrain.now e) ->
     Dict.get (Retrain.backups (fst out)) name
     = Dict.get (Retrain.backups f) name)
  /\ (forall accs, snd out = Ok accs ->
        (forall c, Retrain.CATEGORY_MODEL_PATH f = Some c ->
           Dict.get (Retrain.backups (fst out))
                    (Retrain.category_backup (Retrain.now e)) = Some c)
        /\ (forall c, Retrain.COMPONENT_MODEL_PATH f = Some c ->
              Dict.get (Retrain.backups (fst out))
                       (Retrain.component_backup (Retrain.now e)) = Some c)
        /\ exists df mc mp,
             Spec.training_frame e = Some df
             /\ Retrain.train e (Retrain.category_samples df)
                = Ok (mc, fst accs)
             /\ Retrain.train e (Retrain.component_samples
                                   (Retrain.component_corpus df))
                = Ok (mp, snd accs)
             /\ Retrain.CATEGORY_MODEL_PATH (fst out)
                = Some (Retrain.Pickled mc)
             /\ Retrain.COMPONENT_MODEL_PATH (fst out)
                = Some (Retrain.Pickled mp))
  /\ (Retrain.CATEGORY_MODEL_PATH (fst out)
      <> Retrain.CATEGORY_MODEL_PATH f ->
      exists df mc acc,
        Spec.training_frame e = Some df
        /\ Retrain.train e (Retrain.category_samples df) = Ok (mc, acc)
        /\ (Retrain.CATEGORY_MODEL_PATH (fst out)
            = Some (Retrain.Pickled mc)
            \/ (Retrain.CATEGORY_MODEL_PATH (fst out)
                = Some Retrain.Damaged
                /\ Retrain.dump_category e = Retrain.Interrupted)))
  /\ (Retrain.COMPONENT_MODEL_PATH (fst out)
      <> Retrain.COMPONENT_MODEL_PATH f ->
      (exists df mp acc,
         Spec.training_frame e = Some df
         /\ Retrain.train e (Retrain.component_samples
                               (Retrain.component_corpus df))
            = Ok (mp, acc)
         /\ (Retrain.COMPONENT_MODEL_PATH (fst out)
             = Some (Retrain.Pickled mp)
             \/ (Retrain.COMPONENT_MODEL_PATH (fst out)
                 = Some Retrain.Damaged
                 /\ Retrain.dump_component e = Retrain.Interrupted)))
      /\ Retrain.dump_category e = Retrain.Completes
      /\ exists mc, Retrain.CATEGORY_MODEL_PATH (fst out)
                    = Some (Retrain.Pickled mc))
  /\ (forall df mc acc msg,
        snd (Retrain.backup_models e f) = Ok tt ->
        Spec.training_frame e = Some df ->
        Retrain.train e (Retrain.category_samples df) = Ok (mc, acc) ->
        Retrain.dump_category e = Retrain.Completes ->
        Retrain.train e (Retrain.component_samples
                           (Retrain.component_corpus df)) = Raise msg ->
        snd out = Raise msg
        /\ Retrain.CATEGORY_MODEL_PATH (fst out)
           = Some (Retrain.Pickled mc)
        /\ Retrain.COMPONENT_MODEL_PATH (fst out)
           = Retrain.COMPONENT_MODEL_PATH f).
Proof.
  cbv zeta.
  pose proof (backup_models_spec Model e f) as (HA & HB & HC & HD).
  cbv zeta in HA, HB, HC, HD.
  unfold Retrain.retrain_models.
  destruct (Retrain.backup_models e f) as [f0 [[]|msg0]] eqn:Eb;
    cbn [fst snd] in *.
  2: { untouched HA HB HC Eb. }
  destruct (Retrain.merged e) as [df0|msg1] eqn:Em; cbn [fst snd].
  2: { untouched HA HB HC Eb. }
  destruct (Retrain.mapping e) as [m|msg2] eqn:Emap; cbn [fst snd].
  2: { untouched HA HB HC Eb. }
  assert (Hf : Spec.training_frame e
               = Some (Retrain.with_category
                         (Hierarchical.reverse_mapping m) df0))
    by (unfold Spec.training_frame; now rewrite Em, Emap).
  set (df := Retrain.with_category (Hierarchical.reverse_mapping m) df0)
    in *.
  destruct (Retrain.train e (Retrain.category_samples df))
    as [[mc acc]|msg3] eqn:Tc; cbn [fst snd].
  2: { split; [exact HC|]. split; [discriminate|].
       split; [intros H; exfalso; apply H; congruence|].
       split; [intros H; exfalso; apply H; congruence|].
       intros df' mc' acc' msg' _ Hf' Htc' _ _.
       rewrite Hf in Hf'. injection Hf' as <-. congruence. }
  destruct (HD eq_refl) as [HD1 HD2].
  unfold Retrain.write_file.
  destruct (Retrain.dump_category e) eqn:Dc;
    cbn [fst snd Retrain.CATEGORY_MODEL_PATH Retrain.COMPONENT_MODEL_PATH
         Retrain.backups].
  2: { split; [exact HC|]. split; [discriminate|].
       split; [intros H; exfalso; apply H; congruence|].
       split; [intros H; exfalso; apply H; congruence|].
       intros; discriminate. }
  2: { split; [exact HC|]. split; [discriminate|]. split.
       { intros _. exists df, mc, acc. split; [exact Hf|].
         split; [exact Tc|]. right. now split. }
       split; [intros H; exfalso; apply H; congruence|].
       intros; discriminate. }
  2: { split; [exact HC|]. split; [discriminate|]. split.
       { intros _. exists df, mc, acc. split; [exact Hf|].
         split; [exact Tc|]. now left. }
       split; [intros H; exfalso; apply H; congruence|].
       intros; discriminate. }
  destruct (Retrain.train e (Retrain.component_samples _))
    as [[mp acc']|msg4] eqn:Tp;
    cbn [fst snd Retrain.CATEGORY_MODEL_PATH Retrain.COMPONENT_MODEL_PATH
         Retrain.backups].
  2: { split; [exact HC|]. split; [discriminate|]. split.
       { intros _. exists df, mc, acc. split; [exact Hf|].
         split; [exact Tc|]. now left. }
       split; [intros H; exfalso; apply H; congruence|].
       intros df' mc' acc'' msg' _ Hf' Htc' _ Htp'.
       rewrite Hf in Hf'. injection Hf' as <-.
       rewrite Tc in Htc'. rewrite Tp in Htp'.
       injection Htc' as <- <-. injection Htp' as <-.
       now repeat split. }
  destruct (Retrain.dump_component e) eqn:Dp;
    cbn [fst snd Retrain.CATEGORY_MODEL_PATH Retrain.COMPONENT_MODEL_PATH
         Retrain.backups].
  all: split; [exact HC|].
  all: split;
    [first [ discriminate
           | intros accs Hacc; injection Hacc as <-;
             split; [exact HD1|]; split; [exact HD2|];
             exists df, mc, mp;
             split; [exact Hf|]; split; [exact Tc|]; split; [exact Tp|];
             now split ]|].
  all: split;
    [intros _; exists df, mc, acc; split; [exact Hf|];
     split; [exact Tc | now left]|].
  all: split; [|intros df' mc' acc'' msg' _ Hf' Htc' _ Htp';
                 rewrite Hf in Hf'; injection Hf' as <-; congruence].
  - intros _. split; [|split; [reflexivity | now exists mc]].
    exists df, mp, acc'. split; [exact Hf|]. split; [exact Tp | now left].
  - intros H; exfalso; apply H; congruence.
  - intros _. split; [|split; [reflexivity | now exists mc]].
    exists df, mp, acc'. split; [exact Hf|]. split; [exact Tp|].
    right. now split.
  - intros _. split; [|split; [reflexivity | now exists mc]].
    exists df, mp, acc'. split; [exact Hf|]. split; [exact Tp | now left].
Qed.

Lemma retrain_models_artifact_outcomes_witness :
  let out := Retrain.retrain_models Examples.half_failing_run
                                    Examples.deployed in
  snd out = Raise "fit failed"
  /\ Retrain.CATEGORY_MODEL_PATH (fst out)
     = Some (Retrain.Pickled "category-v2")
  /\ Retrain.COMPONENT_MODEL_PATH (fst out)
     = Retrain.COMPONENT_MODEL_PATH Examples.deployed.
Proof.
  destruct (retrain_models_artifact_outcomes string
              Examples.half_failing_run Examples.deployed)
    as (_ & _ & _ & _ & H).
  eapply H; vm_compute; reflexivity.
Defined.

(** ** The hierarchical predictor: failure modes *)

Lemma load_if_absent_readable {A} (cached : option A)
    (f : Hierarchical.File A) :
  f <> Hierarchical.Unloadable ->
  Hierarchical.load_if_absent cached f = Ok (Spec.cached_or_file cached f).
Proof.
  intros H. destruct cached as [a|]; [reflexivity|].
  destruct f; [reflexivity | contradiction | reflexivity].
Qed.

Lemma load_models_readable (d : Hierarchical.Disk) (g : Hierarchical.Globals) :
  Spec.readable d ->
  exists g' c2c,
    Hierarchical._load_models d g
    = (g', Ok (Spec.cached_or_file (Hierarchical._category_model g)
                 (Hierarchical.CATEGORY_MODEL_PATH d),
               Spec.cached_or_file (Hierarchical._component_model g)
                 (Hierarchical.COMPONENT_MODEL_PATH d),
               Spec.cached_or_file (Hierarchical._category_mapping g)
                 (Hierarchical.MAPPING_PATH d),
               c2c)).
Proof.
  intros (H1 & H2 & H3). unfold Hierarchical._load_models.
  rewrite (load_if_absent_readable _ _ H1), (load_if_absent_readable _ _ H2).
  destruct (Hierarchical._category_mapping g) as [m|];
    [eexists; eexists; reflexivity|].
  destruct (Hierarchical.MAPPING_PATH d) as [| |m];
    [eexists; eexists; reflexivity | contradiction
    | eexists; eexists; reflexivity].
Qed.

(** C6, as stated, fails: a category model file that exists but cannot be
    loaded makes [_load_models] raise, outside both [try] blocks, and
    [predict_hierarchical] passes the exception on to its caller. *)
Lemma unloadable_artifact_raises :
  snd (Hierarchical.predict_hierarchical Examples.corrupt_category
         Hierarchical.fresh "pc slow" true)
  = Raise "load failed".
Proof. reflexivity. Qed.

(** C6, amended. When no artifact path holds an unloadable file,
    [predict_hierarchical] never raises. It returns
    [(None, 0.0, "models_not_loaded", [], {})] when a model is neither
    cached nor on disk, [(None, 0.0, "mapping_not_loaded", [], {})] when
    the mapping or its reverse is absent, [(None, 0.0,
    "category_prediction_failed", [], {})] when the category stage raises,
    [(None, 0.0, "component_prediction_failed", [], {})] when the
    component stage raises, and the component stage's tuple otherwise. *)
Theorem predict_hierarchical_failure_modes (d : Hierarchical.Disk)
    (g : Hierarchical.Globals) (text : string) (return_multiple : bool) :
  Spec.readable d ->
  exists g' c2c o,
    Hierarchical.predict_hierarchical d g text return_multiple = (g', Ok o)
    /\ let cm := Spec.cached_or_file (Hierarchical._category_model g)
                   (Hierarchical.CATEGORY_MODEL_PATH d) in
       let pm := Spec.cached_or_file (Hierarchical._component_model g)
                   (Hierarchical.COMPONENT_MODEL_PATH d) in
       let mp := Spec.cached_or_file (Hierarchical._category_mapping g)
                   (Hierarchical.MAPPING_PATH d) in
       snd (Hierarchical._load_models d g) = Ok (cm, pm, mp, c2c)
       /\ (cm = None \/ pm = None ->
           o = (None, 0%Q, "models_not_loaded", [], []))
       /\ (forall cat_m comp_m,
              cm = Some cat_m -> pm = Some comp_m ->
              (mp = None \/ c2c = None ->
               o = (None, 0%Q, "mapping_not_loaded", [], []))
              /\ (forall mapping rev,
                     mp = Some mapping -> c2c = Some rev ->
                     (forall msg,
                         Hierarchical.category_stage cat_m text = Raise msg ->
                         o = (None, 0%Q, "category_prediction_failed",
                              [], []))
                     /\ (forall pc cc,
                            Hierarchical.category_stage cat_m text
                            = Ok (pc, cc) ->
                            (forall msg,
                                Hierarchical.component_stage comp_m mapping
                                  rev pc cc text return_multiple = Raise msg ->
                                o = (None, 0%Q,
                                     "component_prediction_failed", [], []))
                            /\ (forall o',
                                   Hierarchical.component_stage comp_m mapping
                                     rev pc cc text return_multiple = Ok o' ->
                                   o = o')))).
Proof.
  intros Hr. destruct (load_models_readable d g Hr) as (g' & c2c & E).
  exists g', c2c. eexists. unfold Hierarchical.predict_hierarchical.
  rewrite E. split; [reflexivity|]. cbv zeta. cbn [snd].
  split; [reflexivity|].
  set (cm := Spec.cached_or_file (Hierarchical._category_model g) _).
  set (pm := Spec.cached_or_file (Hierarchical._component_model g) _).
  set (mp := Spec.cached_or_file (Hierarchical._category_mapping g) _).
  unfold Hierarchical.predict_loaded, Hierarchical.failure.
  split.
  - intros [H | H]; rewrite H; [reflexivity|].
    now destruct cm.
  - intros cat_m comp_m -> ->. split.
    + intros [H | H]; rewrite H; [reflexivity|]. now destruct mp.
    + intros mapping rev -> ->. split.
      * intros msg H. now rewrite H.
      * intros pc cc H. rewrite H. split.
        -- intros msg H'. now rewrite H'.
        -- intros o' H'. now rewrite H'.
Qed.

Lemma predict_hierarchical_failure_modes_witness :
  Spec.readable Examples.no_artifacts
  /\ exists g',
      Hierarchical.predict_hierarchical Examples.no_artifacts
        Hierarchical.fresh "pc slow" true
      = (g', Ok (None, 0%Q, "models_not_loaded", [], [])).
Proof.
  assert (R : Spec.readable Examples.no_artifacts)
    by (repeat split; discriminate).
  split; [exact R|].
  destruct (predict_hierarchical_failure_modes Examples.no_artifacts
              Hierarchical.fresh "pc slow" true R)
    as (g' & c2c & o & E & _ & Hm & _).
  exists g'. rewrite E. f_equal. f_equal. apply Hm. now left.
Defined.

(** ** The hierarchical predictor: renormalisation *)

Lemma fold_Qplus_shift (l : list Q) (a : Q) :
  (fold_left Qplus l a == a + fold_left Qplus l 0)%Q.
Proof.
  revert a; induction l as [|x l IH]; intros a; simpl.
  - ring.
  - rewrite (IH (a + x)%Q), (IH (0 + x)%Q). ring.
Qed.

Lemma sum_cons (x : Q) (l : list Q) :
  (Py.sum (x :: l) == x + Py.sum l)%Q.
Proof.
  unfold Py.sum. simpl. rewrite fold_Qplus_shift. ring.
Qed.

Lemma sum_map_div (t : Q) (l : list Q) :
  (Py.sum (map (fun p => p / t) l) == Py.sum l / t)%Q.
Proof.
  induction l as [|x l IH].
  - unfold Py.sum, Qdiv. simpl. ring.
  - cbn [map]. rewrite !sum_cons, IH. unfold Qdiv. ring.
Qed.

Lemma sum_repeat (c : Q) (n : nat) :
  (Py.sum (repeat c n) == Hierarchical.Q_of_nat n * c)%Q.
Proof.
  induction n as [|n IH].
  - unfold Py.sum, Hierarchical.Q_of_nat. simpl. ring.
  - cbn [repeat]. rewrite sum_cons, IH.
    unfold Hierarchical.Q_of_nat.
    rewrite Nat2Z.inj_succ, <- Z.add_1_r, inject_Z_plus. ring.
Qed.

Lemma Q_of_nat_pos (n : nat) : 0 < n -> ~ (Hierarchical.Q_of_nat n == 0)%Q.
Proof.
  intros H E. unfold Hierarchical.Q_of_nat, Qeq in E. simpl in E. lia.
Qed.

(** Whenever the list of kept probabilities is non-empty, the
    renormalisation succeeds and the renormalised vector, one entry per
    kept probability, sums to 1 (exactly, over the rationals): it is the
    kept vector divided by its sum when that sum is positive, and the
    uniform distribution otherwise, in particular when the sum is 0. *)
Lemma normalize_sums_to_one (filtered_probs : list Q) :
  filtered_probs <> [] ->
  exists normalized_probs,
    Hierarchical.normalize filtered_probs = Ok normalized_probs
    /\ (Py.sum normalized_probs == 1)%Q
    /\ length normalized_probs = length filtered_probs
    /\ ((0 < Py.sum filtered_probs)%Q ->
        normalized_probs
        = map (fun p => (p / Py.sum filtered_probs)%Q) filtered_probs)
    /\ ((Py.sum filtered_probs == 0)%Q ->
        normalized_probs
        = repeat (1 / Hierarchical.Q_of_nat (length filtered_probs))%Q
                 (length filtered_probs)).
Proof.
  intros Hne. unfold Hierarchical.normalize.
  destruct (Py.Qlt_bool 0 (Py.sum filtered_probs)) eqn:E.
  - apply Qlt_bool_iff in E. eexists. split; [reflexivity|].
    repeat split.
    + rewrite sum_map_div. field. intros Z. rewrite Z in E.
      exact (Qlt_irrefl _ E).
    + apply length_map.
    + intros Hz. rewrite Hz in E. exfalso. exact (Qlt_irrefl _ E).
  - destruct filtered_probs as [|p l]; [contradiction|].
    eexists. split; [reflexivity|]. repeat split.
    + rewrite sum_repeat. field. apply Q_of_nat_pos. simpl. lia.
    + apply repeat_length.
    + intros Hpos. apply Qlt_bool_iff in Hpos. congruence.
Qed.

(** ** Sorted lists *)

Lemma ssorted_app {A} (R : A -> A -> Prop) (l1 l2 : list A) :
  StronglySorted R (l1 ++ l2) <->
  StronglySorted R l1 /\ StronglySorted R l2
  /\ (forall a b, In a l1 -> In b l2 -> R a b).
Proof.
  induction l1 as [|x l1 IH]; simpl.
  - split.
    + intros H. repeat split; [constructor | exact H | intros a b []].
    + intros (_ & H & _). exact H.
  - split.
    + intros H. apply StronglySorted_inv in H. destruct H as [Hs Hf].
      apply IH in Hs. destruct Hs as (H1 & H2 & H3).
      rewrite Forall_app in Hf. destruct Hf as [Hf1 Hf2].
      repeat split; [now constructor | exact H2 |].
      intros a b [<- | Ha] Hb.
      * rewrite Forall_forall in Hf2. now apply Hf2.
      * now apply H3.
    + intros (H1 & H2 & H3). apply StronglySorted_inv in H1.
      destruct H1 as [Hs Hf]. constructor.
      * apply IH. repeat split; [exact Hs | exact H2 |].
        intros a b Ha Hb. apply H3; [now right | exact Hb].
      * apply Forall_app. split; [exact Hf|].
        apply Forall_forall. intros b Hb. apply H3; [now left | exact Hb].
Qed.

Lemma ssorted_rev {A} (R : A -> A -> Prop) (l : list A) :
  StronglySorted R l -> StronglySorted (fun a b => R b a) (rev l).
Proof.
  induction 1 as [|x l Hs IH Hf]; simpl; [constructor|].
  apply ssorted_app. repeat split.
  - exact IH.
  - repeat constructor.
  - intros a b Ha [<- | []]. rewrite Forall_forall in Hf.
    apply Hf. now apply in_rev.
Qed.

Lemma ssorted_firstn {A} (R : A -> A -> Prop) (n : nat) (l : list A) :
  StronglySorted R l -> StronglySorted R (firstn n l).
Proof.
  intros H. rewrite <- (firstn_skipn n l) in H.
  now apply ssorted_app in H.
Qed.

Lemma ssorted_map {A B} (R : A -> A -> Prop) (R' : B -> B -> Prop)
    (f : A -> B) (l : list A) :
  (forall a b, In a l -> In b l -> R a b -> R' (f a) (f b)) ->
  StronglySorted R l -> StronglySorted R' (map f l).
Proof.
  intros Himp H. induction H as [|x l Hs IH Hf]; simpl; constructor.
  - apply IH. intros a b Ha Hb. apply Himp; now right.
  - apply Forall_forall. intros y Hy. apply in_map_iff in Hy.
    destruct Hy as (z & <- & Hz). rewrite Forall_forall in Hf.
    apply Himp; [now left | now right | now apply Hf].
Qed.

(** *** The descending stable sort *)

Lemma insert_desc_perm {A} (key : A -> Q) (x : A) (l : list A) :
  Permutation (Py.insert_desc key x l) (x :: l).
Proof.
  induction l as [|y l IH]; simpl; [reflexivity|].
  destruct (Qle_bool (key y) (key x)); [reflexivity|].
  rewrite IH. apply perm_swap.
Qed.

Lemma sort_desc_perm {A} (key : A -> Q) (l : list A) :
  Permutation (Py.sort_desc key l) l.
Proof.
  induction l as [|x l IH]; [reflexivity|].
  change (Py.sort_desc key (x :: l))
    with (Py.insert_desc key x (Py.sort_desc key l)).
  rewrite insert_desc_perm. now constructor.
Qed.

Lemma insert_desc_sorted {A} (key : A -> Q) (x : A) (l : list A) :
  Spec.non_increasing key l ->
  Spec.non_increasing key (Py.insert_desc key x l).
Proof.
  unfold Spec.non_increasing.
  induction 1 as [|y l Hs IH Hf]; simpl; [repeat constructor|].
  destruct (Qle_bool (key y) (key x)) eqn:E.
  - apply Qle_bool_iff in E. constructor; [now constructor|].
    constructor; [exact E|].
    apply Forall_forall. intros z Hz. rewrite Forall_forall in Hf.
    apply Qle_trans with (key y); [now apply Hf | exact E].
  - constructor; [exact IH|].
    apply Forall_forall. intros z Hz.
    apply (Permutation_in _ (insert_desc_perm key x l)) in Hz.
    destruct Hz as [Hx | Hz].
    + subst z.
      destruct (Qlt_le_dec (key x) (key y)) as [Hlt | Hle];
        [now apply Qlt_le_weak|].
      apply Qle_bool_iff in Hle. congruence.
    + rewrite Forall_forall in Hf. now apply Hf.
Qed.

Lemma sort_desc_sorted {A} (key : A -> Q) (l : list A) :
  Spec.non_increasing key (Py.sort_desc key l).
Proof.
  induction l as [|x l IH]; [constructor|].
  change (Py.sort_desc key (x :: l))
    with (Py.insert_desc key x (Py.sort_desc key l)).
  now apply insert_desc_sorted.
Qed.

(** *** [np.argsort] *)

Lemma insert_asc_perm (x : nat * Q) (l : list (nat * Q)) :
  Permutation (Py.insert_asc x l) (x :: l).
Proof.
  induction l as [|y l IH]; simpl; [reflexivity|].
  destruct (Qle_bool (snd x) (snd y)); [reflexivity|].
  rewrite IH. apply perm_swap.
Qed.

Lemma asc_lex_of_le (x z : nat * Q) :
  (snd x <= snd z)%Q -> fst x < fst z -> Spec.asc_lex x z.
Proof.
  intros Hle Hlt. destruct (Qle_lt_or_eq _ _ Hle) as [H | H].
  - now left.
  - right. now split.
Qed.

Lemma asc_lex_le (y z : nat * Q) : Spec.asc_lex y z -> (snd y <= snd z)%Q.
Proof.
  intros [H | [H _]]; [now apply Qlt_le_weak | rewrite H; apply Qle_refl].
Qed.

Lemma insert_asc_sorted (x : nat * Q) (l : list (nat * Q)) :
  StronglySorted Spec.asc_lex l ->
  Forall (fun y => fst x < fst y) l ->
  StronglySorted Spec.asc_lex (Py.insert_asc x l).
Proof.
  induction 1 as [|y l Hs IH Hf]; intros Hidx; simpl;
    [repeat constructor|].
  apply Forall_cons_iff in Hidx. destruct Hidx as [Hy Hl].
  destruct (Qle_bool (snd x) (snd y)) eqn:E.
  - apply Qle_bool_iff in E. constructor; [now constructor|].
    constructor; [now apply asc_lex_of_le|].
    rewrite Forall_forall in *. intros z Hz.
    apply asc_lex_of_le; [|now apply Hl].
    apply Qle_trans with (snd y); [exact E | apply asc_lex_le; now apply Hf].
  - constructor; [now apply IH|].
    apply Forall_forall. intros z Hz.
    apply (Permutation_in _ (insert_asc_perm x l)) in Hz.
    destruct Hz as [Hx | Hz].
    + subst z. left. apply Qnot_le_lt. intros Hle.
      apply Qle_bool_iff in Hle. congruence.
    + rewrite Forall_forall in Hf. now apply Hf.
Qed.

Lemma sorted_pairs_perm (ps : list (nat * Q)) :
  Permutation (Spec.sorted_pairs ps) ps.
Proof.
  induction ps as [|x ps IH]; [reflexivity|].
  unfold Spec.sorted_pairs in *. simpl. rewrite insert_asc_perm.
  now constructor.
Qed.

Lemma sorted_pairs_sorted (ps : list (nat * Q)) :
  StronglySorted (fun a b => fst a < fst b) ps ->
  StronglySorted Spec.asc_lex (Spec.sorted_pairs ps).
Proof.
  induction 1 as [|x ps Hs IH Hf]; [constructor|].
  change (Spec.sorted_pairs (x :: ps))
    with (Py.insert_asc x (Spec.sorted_pairs ps)).
  apply insert_asc_sorted; [exact IH|].
  apply Forall_forall. intros y Hy.
  apply (Permutation_in _ (sorted_pairs_perm ps)) in Hy.
  rewrite Forall_forall in Hf. now apply Hf.
Qed.

Lemma enumerate_in (v : list Q) (s i : nat) (q : Q) :
  In (i, q) (combine (seq s (length v)) v) ->
  s <= i /\ nth_error v (i - s) = Some q.
Proof.
  revert s; induction v as [|x v IH]; intros s; simpl; [intros []|].
  intros [E | H].
  - injection E as <- <-. split; [lia|]. now rewrite Nat.sub_diag.
  - apply IH in H. destruct H as [Hle Hn]. split; [lia|].
    replace (i - s) with (S (i - S s)) by lia. exact Hn.
Qed.

Lemma enumerate_increasing (v : list Q) (s : nat) :
  StronglySorted (fun a b : nat * Q => fst a < fst b)
                 (combine (seq s (length v)) v).
Proof.
  revert s; induction v as [|x v IH]; intros s; simpl; constructor.
  - apply IH.
  - apply Forall_forall. intros [i q] H. apply enumerate_in in H.
    simpl. lia.
Qed.

Lemma enumerate_fst (v : list Q) (s : nat) :
  map fst (combine (seq s (length v)) v) = seq s (length v).
Proof.
  revert s; induction v as [|x v IH]; intros s; simpl; [reflexivity|].
  now rewrite IH.
Qed.

Lemma argsort_perm (v : list Q) :
  Permutation (Py.argsort v) (seq 0 (length v)).
Proof.
  unfold Py.argsort. fold (Spec.sorted_pairs (combine (seq 0 (length v)) v)).
  rewrite (sorted_pairs_perm _). now rewrite enumerate_fst.
Qed.

(** The reversed [argsort] lists the indices by descending value, equal
    values by descending index. *)
Lemma argsort_rev_ranked (v : list Q) :
  StronglySorted (Spec.ranked_before v) (rev (Py.argsort v)).
Proof.
  unfold Py.argsort. fold (Spec.sorted_pairs (combine (seq 0 (length v)) v)).
  rewrite <- map_rev.
  apply (ssorted_map (fun a b => Spec.asc_lex b a)).
  - intros [i p] [j q] Hi Hj H.
    apply in_rev in Hi. apply in_rev in Hj.
    apply (Permutation_in _ (sorted_pairs_perm _)) in Hi.
    apply (Permutation_in _ (sorted_pairs_perm _)) in Hj.
    apply enumerate_in in Hi. apply enumerate_in in Hj.
    rewrite Nat.sub_0_r in Hi, Hj.
    exists p, q. unfold Spec.asc_lex in H. simpl in *. tauto.
  - apply ssorted_rev, sorted_pairs_sorted, enumerate_increasing.
Qed.

Lemma argsort_rev_nodup (v : list Q) : NoDup (rev (Py.argsort v)).
Proof.
  apply (Permutation_NoDup (l := seq 0 (length v))).
  - rewrite <- (Permutation_rev (Py.argsort v)).
    symmetry. apply argsort_perm.
  - apply seq_NoDup.
Qed.

Lemma argsort_rev_in (v : list Q) (i : nat) :
  In i (rev (Py.argsort v)) <-> i < length v.
Proof.
  rewrite <- in_rev. split.
  - intros H. apply (Permutation_in _ (argsort_perm v)) in H.
    apply in_seq in H. lia.
  - intros H. apply (Permutation_in _ (Permutation_sym (argsort_perm v))).
    apply in_seq. lia.
Qed.

(** ** The hierarchical predictor: top-5 alternatives *)

Lemma traverse_picked (comps : list string) (probs : list Q)
    (idx : list nat) (alts : list (string * Q)) :
  traverse (Hierarchical.pick comps probs) idx = Ok alts ->
  Spec.picked comps probs idx alts.
Proof.
  unfold Spec.picked.
  revert alts; induction idx as [|i idx IH]; intros alts; simpl.
  - intros H. injection H as <-. constructor.
  - unfold Hierarchical.pick at 1.
    destruct (nth_error comps i) as [c|] eqn:Ec; [|discriminate].
    destruct (nth_error probs i) as [p|] eqn:Ep; [|discriminate].
    simpl.
    destruct (traverse (Hierarchical.pick comps probs) idx) as [bs|];
      [|discriminate].
    simpl. intros H. injection H as <-.
    constructor; [now split | now apply IH].
Qed.

Lemma picked_in (comps : list string) (probs : list Q)
    (idx : list nat) (alts : list (string * Q)) (b : string * Q) :
  Spec.picked comps probs idx alts -> In b alts ->
  exists j, In j idx /\ nth_error comps j = Some (fst b)
            /\ nth_error probs j = Some (snd b).
Proof.
  induction 1 as [|i a idx alts [Hc Hp] Hf IH]; intros Hin; [destruct Hin|].
  destruct Hin as [<- | Hin].
  - exists i. repeat split; [now left | exact Hc | exact Hp].
  - destruct (IH Hin) as (j & Hj & H'). exists j. split; [now right | exact H'].
Qed.

Lemma picked_non_increasing (comps : list string) (probs : list Q)
    (idx : list nat) (alts : list (string * Q)) :
  Spec.picked comps probs idx alts ->
  StronglySorted (Spec.ranked_before probs) idx ->
  Spec.non_increasing snd alts.
Proof.
  unfold Spec.non_increasing.
  induction 1 as [|i a idx alts [Hc Hp] Hf IH]; intros Hs; [constructor|].
  apply StronglySorted_inv in Hs. destruct Hs as [Hs Hall].
  constructor; [now apply IH|].
  apply Forall_forall. intros b Hb.
  destruct (picked_in _ _ _ _ _ Hf Hb) as (j & Hj & _ & Hq).
  rewrite Forall_forall in Hall.
  destruct (Hall j Hj) as (p & q & Hp' & Hq' & Hord).
  rewrite Hp in Hp'. rewrite Hq in Hq'.
  injection Hp' as <-. injection Hq' as <-.
  destruct Hord as [H | [H _]];
    [now apply Qlt_le_weak | rewrite H; apply Qle_refl].
Qed.

Lemma top5_indices_facts (probs : list Q) :
  let idx := Hierarchical.top5_indices probs in
  length idx = min 5 (length probs)
  /\ NoDup idx
  /\ StronglySorted (Spec.ranked_before probs) idx
  /\ (forall i j, In i idx -> j < length probs -> ~ In j idx ->
                  Spec.ranked_before probs i j).
Proof.
  cbv zeta. unfold Hierarchical.top5_indices.
  set (r := rev (Py.argsort probs)).
  assert (Hs : StronglySorted (Spec.ranked_before probs) r)
    by apply argsort_rev_ranked.
  assert (Hn : NoDup r) by apply argsort_rev_nodup.
  repeat split.
  - rewrite length_firstn. unfold r.
    rewrite length_rev, (Permutation_length (argsort_perm probs)).
    now rewrite length_seq.
  - rewrite <- (firstn_skipn 5 r) in Hn. now apply NoDup_app_remove_r in Hn.
  - now apply ssorted_firstn.
  - intros i j Hi Hj Hnot.
    rewrite <- (firstn_skipn 5 r) in Hs. apply ssorted_app in Hs.
    destruct Hs as (_ & _ & Hcross). apply Hcross; [exact Hi|].
    apply (argsort_rev_in probs) in Hj. fold r in Hj.
    rewrite <- (firstn_skipn 5 r) in Hj. apply in_app_or in Hj.
    destruct Hj as [Hj | Hj]; [contradiction | exact Hj].
Qed.

Lemma component_stage_inv (comp_m : Hierarchical.Model)
    (mapping : Hierarchical.Mapping) (c2c : Dict.dict string)
    (pc : string) (cc : Q) (text : string) (rm : bool)
    (o : Hierarchical.Output) :
  Hierarchical.component_stage comp_m mapping c2c pc cc text rm = Ok o ->
  exists comp_probs fprobs fcomps nprobs top_idx label conf,
    Hierarchical.predict_proba comp_m text = Ok comp_probs
    /\ Hierarchical.candidates mapping pc comp_probs
         (Hierarchical.classes_ comp_m) = Ok (fprobs, fcomps)
    /\ Hierarchical.normalize fprobs = Ok nprobs
    /\ Py.argmax nprobs = Some top_idx
    /\ nth_error fcomps top_idx = Some label
    /\ nth_error nprobs top_idx = Some conf
    /\ traverse (Hierarchical.pick fcomps nprobs)
                (Hierarchical.top5_indices nprobs)
       = Ok (Hierarchical.out_top5 o)
    /\ Hierarchical.out_label o = Some label
    /\ Hierarchical.out_confidence o = (cc * conf)%Q
    /\ Hierarchical.out_source o = "hierarchical_ml".
Proof.
  unfold Hierarchical.component_stage.
  destruct (Hierarchical.predict_proba comp_m text) as [comp_probs|] eqn:E1;
    [|discriminate]. simpl.
  destruct (Hierarchical.candidates _ _ _ _) as [[fprobs fcomps]|] eqn:E2;
    [|discriminate]. simpl.
  destruct (Hierarchical.normalize fprobs) as [nprobs|] eqn:E3;
    [|discriminate]. simpl.
  destruct (Py.argmax nprobs) as [top_idx|] eqn:E4; [|discriminate]. simpl.
  destruct (nth_error fcomps top_idx) as [label|] eqn:E5; [|discriminate].
  simpl.
  destruct (nth_error nprobs top_idx) as [conf|] eqn:E6; [|discriminate].
  simpl.
  destruct (traverse _ _) as [alts|] eqn:T; [|discriminate]. simpl.
  intros H. injection H as <-.
  exists comp_probs, fprobs, fcomps, nprobs, top_idx, label, conf.
  repeat split; try reflexivity; assumption.
Qed.

(** ** The hierarchical predictor: the vector behind the answer *)

Lemma predict_hierarchical_inv (d : Hierarchical.Disk)
    (g g' : Hierarchical.Globals) (text : string) (rm : bool)
    (o : Hierarchical.Output) (c : string) :
  Hierarchical.predict_hierarchical d g text rm = (g', Ok o) ->
  Hierarchical.out_label o = Some c ->
  exists cat_m comp_m mapping c2c pc cc,
    Hierarchical._load_models d g
    = (g', Ok (Some cat_m, Some comp_m, Some mapping, Some c2c))
    /\ Hierarchical.category_stage cat_m text = Ok (pc, cc)
    /\ Hierarchical.component_stage comp_m mapping c2c pc cc text rm = Ok o.
Proof.
  unfold Hierarchical.predict_hierarchical.
  destruct (Hierarchical._load_models d g) as [g0 [l|m]]; [|discriminate].
  intros H. injection H as <- <-.
  destruct l as [[[cm pm] mp] c2c]. unfold Hierarchical.predict_loaded.
  destruct cm as [cat_m|]; [|discriminate].
  destruct pm as [comp_m|]; [|discriminate].
  destruct mp as [mapping|]; [|discriminate].
  destruct c2c as [rev|]; [|discriminate].
  destruct (Hierarchical.category_stage cat_m text) as [[pc cc]|] eqn:C;
    [|discriminate].
  destruct (Hierarchical.component_stage _ _ _ _ _ _ _) as [o|] eqn:E;
    [|discriminate].
  intros _. now exists cat_m, comp_m, mapping, rev, pc, cc.
Qed.

(** C3. Whenever [predict_hierarchical] answers with a component, the
    kept probabilities (those of the components listed under the
    predicted category, or all of them when none is listed) are not
    empty and are renormalised into a vector of the same length that sums
    to 1 (exactly, over the rationals): the kept vector divided by its
    sum when that sum is positive, the uniform distribution when the sum
    is 0. The answer is read off that vector: the component stands at its
    [argmax], the confidence is the category confidence times the entry
    there, and every alternative is a kept component paired with its
    entry. *)
Theorem answer_is_picked_from_a_vector_summing_to_one
    (d : Hierarchical.Disk) (g g' : Hierarchical.Globals) (text : string)
    (rm : bool) (o : Hierarchical.Output) (c : string) :
  Hierarchical.predict_hierarchical d g text rm = (g', Ok o) ->
  Hierarchical.out_label o = Some c ->
  exists cat_m comp_m mapping c2c pc cc comp_probs fprobs fcomps nprobs
         top_idx conf idx,
    Hierarchical._load_models d g
    = (g', Ok (Some cat_m, Some comp_m, Some mapping, Some c2c))
    /\ Hierarchical.category_stage cat_m text = Ok (pc, cc)
    /\ Hierarchical.predict_proba comp_m text = Ok comp_probs
    /\ Hierarchical.candidates mapping pc comp_probs
         (Hierarchical.classes_ comp_m) = Ok (fprobs, fcomps)
    /\ fprobs <> []
    /\ Hierarchical.normalize fprobs = Ok nprobs
    /\ (Py.sum nprobs == 1)%Q
    /\ length nprobs = length fprobs
    /\ ((0 < Py.sum fprobs)%Q ->
        nprobs = map (fun p => (p / Py.sum fprobs)%Q) fprobs)
    /\ ((Py.sum fprobs == 0)%Q ->
        nprobs = repeat (1 / Hierarchical.Q_of_nat (length fprobs))%Q
                        (length fprobs))
    /\ Py.argmax nprobs = Some top_idx
    /\ nth_error fcomps top_idx = Some c
    /\ nth_error nprobs top_idx = Some conf
    /\ Hierarchical.out_confidence o = (cc * conf)%Q
    /\ Spec.picked fcomps nprobs idx (Hierarchical.out_top5 o).
Proof.
  intros H Hl.
  destruct (predict_hierarchical_inv _ _ _ _ _ _ _ H Hl)
    as (cat_m & comp_m & mapping & c2c & pc & cc & Hload & Hcat & Hcomp).
  apply component_stage_inv in Hcomp.
  destruct Hcomp as (comp_probs & fprobs & fcomps & nprobs & top_idx & label
                     & conf & Hp & Hc & Hn & Ha & Hlab & Hconf & Ht & Hol
                     & Hoc & _).
  assert (Hne : fprobs <> []).
  { intros ->. unfold Hierarchical.normalize in Hn. cbn in Hn.
    discriminate. }
  destruct (normalize_sums_to_one fprobs Hne)
    as (n' & Hn' & Hsum & Hlen & Hpos & Hzero).
  assert (n' = nprobs) by congruence. subst n'.
  assert (label = c) by congruence. subst label.
  exists cat_m, comp_m, mapping, c2c, pc, cc, comp_probs, fprobs, fcomps,
         nprobs, top_idx, conf, (Hierarchical.top5_indices nprobs).
  repeat (split; [assumption|]).
  now apply traverse_picked.
Qed.

Lemma answer_is_picked_from_a_vector_summing_to_one_witness :
  exists g' o nprobs top_idx conf,
    Hierarchical.predict_hierarchical (App.disk Examples.performance_env)
      Hierarchical.fresh "pc slow" true = (g', Ok o)
    /\ Hierarchical.out_label o = Some "RAM Upgrade"
    /\ (Py.sum nprobs == 1)%Q
    /\ Py.argmax nprobs = Some top_idx
    /\ nth_error nprobs top_idx = Some conf.
Proof.
  assert (E : exists g' o,
             Hierarchical.predict_hierarchical
               (App.disk Examples.performance_env) Hierarchical.fresh
               "pc slow" true = (g', Ok o)
             /\ Hierarchical.out_label o = Some "RAM Upgrade").
  { eexists. eexists. split; [vm_compute; reflexivity | reflexivity]. }
  destruct E as (g' & o & E & L).
  destruct (answer_is_picked_from_a_vector_summing_to_one _ _ _ _ _ _ _ E L)
    as (cat_m & comp_m & mapping & c2c & pc & cc & comp_probs & fprobs
        & fcomps & nprobs & top_idx & conf & idx & _ & _ & _ & _ & _
        & _ & Hsum & _ & _ & _ & Ha & _ & Hconf & _).
  now exists g', o, nprobs, top_idx, conf.
Defined.

(** ** The hierarchical predictor: ranking of the alternatives *)

(** C9, as stated, fails. In two runs the component model gives its two
    candidates the same probability; only the order in which it lists
    its classes differs: CPU, GPU in one run and GPU, CPU in the other.
    The two runs return the same probabilities with the labels in
    opposite orders. So the alternatives are not in ascending label order
    in both runs, and not in descending label order in both either: the
    order follows the positions of the probabilities, not the labels.
    Also only two alternatives, not five, are returned. *)
Lemma ties_follow_position_not_label :
  let cpu_first :=
    Hierarchical.out_top5
      (Hierarchical.predict_loaded (Examples.loaded_with Examples.tie_cpu_gpu)
                                   "pc slow" true) in
  let gpu_first :=
    Hierarchical.out_top5
      (Hierarchical.predict_loaded (Examples.loaded_with Examples.tie_gpu_cpu)
                                   "pc slow" true) in
  map fst cpu_first = rev (map fst gpu_first)
  /\ map snd cpu_first = map snd gpu_first
  /\ length cpu_first = 2
  /\ ~ (Spec.ties_ascending_by_label cpu_first
        /\ Spec.ties_ascending_by_label gpu_first)
  /\ ~ (Spec.ties_descending_by_label cpu_first
        /\ Spec.ties_descending_by_label gpu_first).
Proof.
  cbv zeta. split; [reflexivity|]. split; [reflexivity|].
  split; [reflexivity|]. split.
  - intros [H _].
    specialize (H 0 1 ("GPU Upgrade", (4 # 8)%Q) ("CPU Upgrade", (4 # 8)%Q)).
    assert (F : String.leb "GPU Upgrade" "CPU Upgrade" = true).
    { apply H; [lia | reflexivity | reflexivity | reflexivity]. }
    vm_compute in F. discriminate.
  - intros [_ H].
    specialize (H 0 1 ("CPU Upgrade", (4 # 8)%Q) ("GPU Upgrade", (4 # 8)%Q)).
    assert (F : String.leb "GPU Upgrade" "CPU Upgrade" = true).
    { apply H; [lia | reflexivity | reflexivity | reflexivity]. }
    vm_compute in F. discriminate.
Qed.

(** C9, amended. When the component stage succeeds, its alternatives are
    min(5, n) distinct candidates of the category-filtered set (n
    candidates; the whole class list when the filter keeps none), each
    paired with its renormalised probability and listed in non-increasing
    probability, and no candidate left out has a higher probability than
    a candidate listed. Nothing is said about the order of candidates of
    equal probability: it is the order in which [np.argsort] lists equal
    values, and labels play no part in it. *)
Theorem top5_are_the_most_probable_candidates
    (comp_m : Hierarchical.Model) (mapping : Hierarchical.Mapping)
    (c2c : Dict.dict string) (pc : string) (cc : Q) (text : string)
    (rm : bool) (o : Hierarchical.Output) :
  Hierarchical.component_stage comp_m mapping c2c pc cc text rm = Ok o ->
  exists comp_probs fprobs fcomps nprobs idx,
    Hierarchical.predict_proba comp_m text = Ok comp_probs
    /\ Hierarchical.candidates mapping pc comp_probs
         (Hierarchical.classes_ comp_m) = Ok (fprobs, fcomps)
    /\ Hierarchical.normalize fprobs = Ok nprobs
    /\ Spec.picked fcomps nprobs idx (Hierarchical.out_top5 o)
    /\ length (Hierarchical.out_top5 o) = min 5 (length nprobs)
    /\ NoDup idx
    /\ (forall i j p q,
          In i idx -> ~ In j idx ->
          nth_error nprobs i = Some p -> nth_error nprobs j = Some q ->
          (q <= p)%Q)
    /\ Spec.non_increasing snd (Hierarchical.out_top5 o).
Proof.
  intros H. apply component_stage_inv in H.
  destruct H as (comp_probs & fprobs & fcomps & nprobs & top_idx & label
                 & conf & Hp & Hc & Hn & _ & _ & _ & Ht & _).
  exists comp_probs, fprobs, fcomps, nprobs,
         (Hierarchical.top5_indices nprobs).
  pose proof (top5_indices_facts nprobs) as (Hlen & Hnd & Hs & Hout).
  pose proof (traverse_picked _ _ _ _ Ht) as Hpick.
  split; [exact Hp|]. split; [exact Hc|]. split; [exact Hn|].
  split; [exact Hpick|]. split.
  { unfold Spec.picked in Hpick. apply Forall2_length in Hpick.
    now rewrite <- Hpick. }
  split; [exact Hnd|]. split.
  { intros i j p q Hi Hj Ei Ej.
    assert (Hlt : j < length nprobs)
      by (apply nth_error_Some; congruence).
    destruct (Hout i j Hi Hlt Hj) as (p' & q' & Ei' & Ej' & Hord).
    rewrite Ei in Ei'. rewrite Ej in Ej'.
    injection Ei' as <-. injection Ej' as <-.
    destruct Hord as [Hord | [Hord _]];
      [now apply Qlt_le_weak | rewrite Hord; apply Qle_refl]. }
  now apply (picked_non_increasing fcomps nprobs _ _ Hpick).
Qed.

Lemma top5_are_the_most_probable_candidates_witness :
  exists o,
    Hierarchical.component_stage Examples.prefers_ram
      Examples.performance_mapping
      (Hierarchical.reverse_mapping Examples.performance_mapping)
      "Performance" 1%Q "pc slow" true = Ok o
    /\ map fst (Hierarchical.out_top5 o)
       = ["RAM Upgrade"; "SSD Upgrade"; "CPU Upgrade"]
    /\ length (Hierarchical.out_top5 o) = 3
    /\ Spec.non_increasing snd (Hierarchical.out_top5 o).
Proof.
  eexists. split; [vm_compute; reflexivity|].
  split; [reflexivity|].
  destruct (top5_are_the_most_probable_candidates Examples.prefers_ram
              Examples.performance_mapping
              (Hierarchical.reverse_mapping Examples.performance_mapping)
              "Performance" 1%Q "pc slow" true _ eq_refl)
    as (cp & fp & fc & np & idx & _ & _ & _ & _ & _ & _ & _ & Hs).
  split; [reflexivity | exact Hs].
Defined.

(** ** The recommend endpoint: alternatives *)

Lemma nodupb_spec (l : list string) : Spec.nodupb l = true -> NoDup l.
Proof.
  induction l as [|x l IH]; simpl; [constructor|].
  rewrite andb_true_iff, negb_true_iff. intros [Hx Hl].
  constructor; [|now apply IH].
  intros Hin. apply mem_In in Hin. congruence.
Qed.

Lemma NoDup_firstn {A} (n : nat) (l : list A) :
  NoDup l -> NoDup (firstn n l).
Proof.
  intros H. rewrite <- (firstn_skipn n l) in H.
  now apply NoDup_app_remove_r in H.
Qed.

Lemma dedupe_from_nodup (seen : list string) (l : list (string * Q)) :
  NoDup (map fst (Py.dedupe_from seen l))
  /\ (forall x, In x (map fst (Py.dedupe_from seen l)) -> ~ In x seen).
Proof.
  revert seen; induction l as [|[c s] l IH]; intros seen; simpl.
  - split; [constructor | intros x []].
  - destruct (PyStr.mem c seen) eqn:M.
    + apply IH.
    + destruct (IH (c :: seen)) as [Hn Hd]. split.
      * simpl. constructor; [|exact Hn].
        intros Hin. apply (Hd c Hin). now left.
      * simpl. intros x [<- | Hin].
        -- intros Hs. apply mem_In in Hs. congruence.
        -- intros Hs. apply (Hd x Hin). now right.
Qed.

Lemma labels_to_alternatives (l : list (string * Q)) :
  App.labels (App.to_alternatives l) = map fst l.
Proof.
  unfold App.labels, App.to_alternatives. rewrite map_map. reflexivity.
Qed.

Lemma to_alternatives_sorted (l : list (string * Q)) :
  Spec.non_increasing snd l ->
  Spec.non_increasing App.confidence (App.to_alternatives l).
Proof.
  unfold Spec.non_increasing, App.to_alternatives.
  apply ssorted_map. intros a b _ _ H. exact H.
Qed.

Lemma rules_table_ok : forallb Spec.rule_ok Rules.RULES = true.
Proof. vm_compute. reflexivity. Qed.

Lemma match_rule_from_table (t : string) (res : Rules.RuleResult) :
  Rules.match_rule t = Some res ->
  exists r, In r Rules.RULES /\ res = Rules.package r.
Proof.
  intros H. apply first_match_some in H.
  destruct H as (pre & r & post & E & _ & _ & ->).
  exists r. split; [|reflexivity]. rewrite E. apply in_or_app. right. now left.
Qed.

Lemma merge_related_shape (text c : string) (top5 : list (string * Q)) :
  let merged := App.merge_related text c top5 in
  length merged <= 5
  /\ NoDup (map fst merged)
  /\ Spec.non_increasing snd merged.
Proof.
  cbv zeta. unfold App.merge_related.
  set (all := (top5 ++ MultiComponent.get_related_components text c)%list).
  repeat split.
  - apply firstn_le_length.
  - rewrite <- firstn_map. apply NoDup_firstn.
    apply (Permutation_NoDup (l := map fst (Py.dedupe all))).
    + apply Permutation_map. symmetry. apply sort_desc_perm.
    + apply dedupe_from_nodup.
  - apply ssorted_firstn. apply sort_desc_sorted.
Qed.

Lemma predict_loaded_source (l : Hierarchical.Loaded) (text : string)
    (rm : bool) (c : string) :
  Hierarchical.out_label (Hierarchical.predict_loaded l text rm) = Some c ->
  Hierarchical.out_source (Hierarchical.predict_loaded l text rm)
  = "hierarchical_ml".
Proof.
  destruct l as [[[cm pm] mp] c2c]. unfold Hierarchical.predict_loaded.
  destruct cm as [cat_m|]; [|discriminate].
  destruct pm as [comp_m|]; [|discriminate].
  destruct mp as [mapping|]; [|discriminate].
  destruct c2c as [rev|]; [|discriminate].
  destruct (Hierarchical.category_stage cat_m text) as [[pc cc]|];
    [|discriminate].
  destruct (Hierarchical.component_stage _ _ _ _ _ _ _) as [o|] eqn:E;
    [|discriminate].
  intros _. apply component_stage_inv in E.
  destruct E as (? & ? & ? & ? & ? & ? & ? & E). tauto.
Qed.

Lemma picked_nodup (comps : list string) (probs : list Q)
    (idx : list nat) (alts : list (string * Q)) :
  Spec.picked comps probs idx alts ->
  NoDup idx -> NoDup comps -> NoDup (map fst alts).
Proof.
  intros Hp Hidx Hc.
  induction Hp as [|i a idx alts [Hi _] Hf IH]; simpl; [constructor|].
  apply NoDup_cons_iff in Hidx. destruct Hidx as [Hni Hidx].
  constructor; [|now apply IH].
  intros Hin. apply in_map_iff in Hin. destruct Hin as (b & Hb & Hin).
  destruct (picked_in _ _ _ _ _ Hf Hin) as (j & Hj & Hcj & _).
  assert (E : i = j).
  { apply (proj1 (NoDup_nth_error comps) Hc).
    - apply nth_error_Some. congruence.
    - congruence. }
  subst j. contradiction.
Qed.

Lemma flat_top_shape (classes : list string) (probs : list Q) (k : nat)
    (top : list (string * Q)) :
  Spec.picked classes probs (firstn k (rev (Py.argsort probs))) top ->
  Spec.non_increasing snd top
  /\ (NoDup classes -> NoDup (map fst top)).
Proof.
  intros Hp. split.
  - apply (picked_non_increasing classes probs _ _ Hp).
    apply ssorted_firstn, argsort_rev_ranked.
  - intros Hc. apply (picked_nodup classes probs _ _ Hp); [|exact Hc].
    apply NoDup_firstn, argsort_rev_nodup.
Qed.

Lemma predict_product_need_inv (model : Hierarchical.Model) (text : string)
    (base_label : string) (base_conf : Q) (top3 : list (string * Q)) :
  App.predict_product_need (Some model) text
  = (Some base_label, base_conf, top3) ->
  exists probs rest,
    Hierarchical.predict_proba model text = Ok probs
    /\ traverse (Hierarchical.pick (Hierarchical.classes_ model) probs)
                (firstn 3 (rev (Py.argsort probs))) = Ok top3
    /\ top3 = (base_label, base_conf) :: rest.
Proof.
  unfold App.predict_product_need.
  destruct (Hierarchical.predict_proba model text) as [probs|] eqn:E1;
    [|discriminate]. simpl.
  destruct (traverse _ _) as [t3|] eqn:E2; [|discriminate]. simpl.
  destruct t3 as [|[l c] rest]; [discriminate|]. simpl.
  intros H. injection H as <- <- <-.
  exists probs, rest. repeat split. exact E2.
Qed.

Lemma picked_same_head (classes : list string) (probs : list Q)
    (idx : list nat) (k : nat) (a b : string * Q)
    (ta tb : list (string * Q)) :
  Spec.picked classes probs (firstn 3 idx) (a :: ta) ->
  Spec.picked classes probs (firstn (S k) idx) (b :: tb) ->
  fst b = fst a.
Proof.
  destruct idx as [|i idx]; simpl; intros Ha Hb.
  - inversion Ha.
  - inversion Ha as [|? ? ? ? [Ha1 _] _]; subst.
    inversion Hb as [|? ? ? ? [Hb1 _] _]; subst.
    congruence.
Qed.

Lemma rule_alternatives_shape (lbl : string) (conf : Q) (expl : string)
    (related : list string) :
  (0 <= conf)%Q ->
  let l := App.mkAlt lbl conf (Some expl)
           :: map (fun rc => App.mkAlt rc (conf * (8 # 10))%Q None)
                  (firstn 4 related) in
  length l <= 5
  /\ Spec.non_increasing App.confidence l
  /\ App.labels l = lbl :: firstn 4 related.
Proof.
  intros Hpos. cbv zeta.
  generalize (firstn_le_length 4 related).
  generalize (firstn 4 related) as rel. intros rel Hlen.
  repeat split.
  - cbn [length]. rewrite length_map. lia.
  - constructor.
    + apply (ssorted_map (fun _ _ : string => True)).
      * intros a b _ _ _. cbn [App.confidence]. apply Qle_refl.
      * clear. induction rel as [|x l IH]; constructor; [exact IH|].
        apply Forall_forall. intros; exact I.
    + apply Forall_forall. intros a Ha. apply in_map_iff in Ha.
      destruct Ha as (rc & <- & _). cbn [App.confidence].
      clear - Hpos. destruct conf as [n d].
      unfold Qle in *. simpl in *. nia.
  - unfold App.labels. cbn [map App.label]. f_equal.
    rewrite map_map. cbn [App.label]. apply map_id.
Qed.

Lemma rule_stage_inv (e : App.Env) (st st1 : App.State) (t : string)
    (loc1 : App.Locals) :
  App.rule_stage e st t = (st1, loc1) ->
  (App.final_label loc1 = None \/ Spec.shape e loc1)
  /\ App.feedback_csv st1 = App.feedback_csv st.
Proof.
  unfold App.rule_stage.
  destruct (App.HIERARCHICAL_AVAILABLE e).
  2: { intros H. injection H as <- <-. split; [now left | reflexivity]. }
  destruct (Rules.match_rule t) as [[[[lbl conf] expl] related]|] eqn:M.
  2: { intros H. injection H as <- <-. split; [now left | reflexivity]. }
  intros H. injection H as <- <-. split; [|reflexivity]. right.
  destruct (match_rule_from_table t _ M) as (r & Hin & E).
  pose proof rules_table_ok as Hok. rewrite forallb_forall in Hok.
  specialize (Hok r Hin). unfold Spec.rule_ok in Hok.
  apply andb_true_iff in Hok. destruct Hok as [Hpos Hnd].
  unfold Rules.package in E. injection E as -> -> -> ->.
  apply Qle_bool_iff in Hpos. apply nodupb_spec in Hnd.
  destruct (rule_alternatives_shape (Rules.component r) (Rules.confidence r)
              (Rules.explanation r) (Rules.related_of r) Hpos)
    as (Hlen & Hsort & Hl).
  exists (Rules.component r).
  split; [reflexivity|]. split; [exact Hlen|]. split; [exact Hsort|].
  split; [now left|]. split.
  - intros _. change (hd_error (App.labels
      (App.mkAlt (Rules.component r) (Rules.confidence r)
                 (Some (Rules.explanation r))
       :: map (fun rc => App.mkAlt rc (Rules.confidence r * (8 # 10))%Q None)
              (firstn 4 (Rules.related_of r))))
      = Some (Rules.component r)).
    now rewrite Hl.
  - intros _. change (NoDup (App.labels
      (App.mkAlt (Rules.component r) (Rules.confidence r)
                 (Some (Rules.explanation r))
       :: map (fun rc => App.mkAlt rc (Rules.confidence r * (8 # 10))%Q None)
              (firstn 4 (Rules.related_of r))))).
    now rewrite Hl.
Qed.

Lemma predict_hierarchical_source (d : Hierarchical.Disk)
    (g g' : Hierarchical.Globals) (t : string) (rm : bool) (c src : string)
    (conf : Q) (top5 : list (string * Q))
    (grouped : Dict.dict (list (string * Q))) :
  Hierarchical.predict_hierarchical d g t rm
  = (g', Ok (Some c, conf, src, top5, grouped)) ->
  src = "hierarchical_ml".
Proof.
  unfold Hierarchical.predict_hierarchical.
  destruct (Hierarchical._load_models d g) as [g0 [l|m]]; [|discriminate].
  intros H. injection H as _ H.
  pose proof (predict_loaded_source l t rm c) as S.
  rewrite H in S. exact (S eq_refl).
Qed.

Lemma hier_locals_shape (e : App.Env) (c t : string) (conf : Q)
    (top5 : list (string * Q))
    (grp : option (list App.CategoryRecommendations)) :
  Spec.shape e
    (App.mkLocals (Some c) conf "hierarchical_ml"
       (App.to_alternatives (firstn 5 (App.merge_related t c top5))) grp).
Proof.
  destruct (merge_related_shape t c top5) as (Hlen & Hnd & Hs).
  exists c. cbn [App.final_label App.alternatives_list App.loc_source].
  split; [reflexivity|]. split.
  { unfold App.to_alternatives. rewrite length_map. apply firstn_le_length. }
  split.
  { apply to_alternatives_sorted, ssorted_firstn, Hs. }
  split; [right; now left|]. split.
  - intros H. now contradiction H.
  - intros _. rewrite labels_to_alternatives, <- firstn_map.
    now apply NoDup_firstn.
Qed.

Lemma hierarchical_stage_inv (e : App.Env) (st st' : App.State) (t : string)
    (loc loc' : App.Locals) :
  App.hierarchical_stage e st t loc = (st', loc') ->
  (App.final_label loc = None \/ Spec.shape e loc) ->
  (App.final_label loc' = None \/ Spec.shape e loc')
  /\ App.feedback_csv st' = App.feedback_csv st.
Proof.
  unfold App.hierarchical_stage. intros H Inv.
  destruct (App.final_label loc) as [l0|] eqn:FL.
  { injection H as <- <-. split; [|reflexivity].
    destruct Inv as [Inv | Inv]; [discriminate | now right]. }
  assert (Keep : App.final_label loc = None \/ Spec.shape e loc)
    by now left.
  destruct (App.HIERARCHICAL_AVAILABLE e).
  2: { injection H as <- <-. now split. }
  destruct (Hierarchical.predict_hierarchical _ _ _ _)
    as [g [[[[[comp conf] src] top5] grouped]|m]] eqn:P.
  2: { injection H as <- <-. now split. }
  destruct comp as [c|].
  2: { injection H as <- <-. now split. }
  destruct (PyStr.truthy c).
  2: { injection H as <- <-. now split. }
  apply predict_hierarchical_source in P. subst src.
  destruct grouped as [|g0 grouped].
  { injection H as <- <-. split; [|reflexivity]. right.
    apply hier_locals_shape. }
  destruct (Hierarchical._load_models (App.disk e) g)
    as [g1 [[[[? ?] ?] [c2c|]]|m]];
    injection H as <- <-; (split; [|reflexivity]); right;
    apply hier_locals_shape.
Qed.

Lemma flat_locals_shape (e : App.Env) (model : Hierarchical.Model)
    (probs : list Q) (base_label : string) (base_conf : Q)
    (rest : list (string * Q))
    (grp : option (list App.CategoryRecommendations)) :
  App.product_need_model e = Some model ->
  Spec.picked (Hierarchical.classes_ model) probs
    (firstn 3 (rev (Py.argsort probs))) ((base_label, base_conf) :: rest) ->
  Spec.shape e
    (App.mkLocals (Some base_label) base_conf "ml"
       (App.to_alternatives
          (firstn 5
             match traverse
                     (Hierarchical.pick (Hierarchical.classes_ model) probs)
                     (firstn 5 (rev (Py.argsort probs))) with
             | Ok t => t
             | Raise _ => (base_label, base_conf) :: rest
             end))
       grp).
Proof.
  intros PM P3. exists base_label.
  cbv beta iota delta [App.final_label App.alternatives_list
                       App.loc_source].
  split; [reflexivity|]. split.
  { unfold App.to_alternatives. rewrite length_map. apply firstn_le_length. }
  destruct (traverse
              (Hierarchical.pick (Hierarchical.classes_ model) probs)
              (firstn 5 (rev (Py.argsort probs)))) as [t5|m] eqn:E5.
  - pose proof (traverse_picked _ _ _ _ E5) as P5.
    destruct (flat_top_shape _ _ _ _ P5) as [Hs Hn].
    split; [apply to_alternatives_sorted, ssorted_firstn, Hs|].
    split; [right; now right|]. split.
    + intros _. rewrite labels_to_alternatives.
      destruct t5 as [|b tb].
      * destruct (rev (Py.argsort probs)); inversion P3; inversion P5.
      * cbn [firstn map hd_error]. f_equal.
        apply (picked_same_head _ _ _ 4 _ _ _ _ P3 P5).
    + intros [Hne | Hd]; [now contradiction Hne|].
      rewrite labels_to_alternatives, <- firstn_map.
      apply NoDup_firstn, Hn, Hd, PM.
  - destruct (flat_top_shape _ _ _ _ P3) as [Hs Hn].
    split; [apply to_alternatives_sorted, ssorted_firstn, Hs|].
    split; [right; now right|]. split.
    + intros _. rewrite labels_to_alternatives. reflexivity.
    + intros [Hne | Hd]; [now contradiction Hne|].
      rewrite labels_to_alternatives, <- firstn_map.
      apply NoDup_firstn, Hn, Hd, PM.
Qed.

Lemma flat_stage_inv (e : App.Env) (st st' : App.State) (t : string)
    (loc loc' : App.Locals) :
  App.flat_stage e st t loc = (st', loc') ->
  (App.final_label loc = None \/ Spec.shape e loc) ->
  (App.final_label loc' = None \/ Spec.shape e loc')
  /\ App.feedback_csv st' = App.feedback_csv st.
Proof.
  unfold App.flat_stage. intros H Inv.
  destruct (App.final_label loc) as [l0|] eqn:FL.
  { assert (E : loc' = loc /\ st' = st).
    { destruct (App.product_need_model e); injection H as <- <-; now split. }
    destruct E as [-> ->]. split; [|reflexivity].
    destruct Inv as [Inv | Inv]; [discriminate | now right]. }
  assert (Keep : App.final_label loc = None \/ Spec.shape e loc)
    by now left.
  destruct (App.product_need_model e) as [model|] eqn:PM.
  2: { injection H as <- <-. now split. }
  destruct (App.predict_product_need (Some model) t)
    as [[[base_label|] base_conf] top3] eqn:P.
  2: { injection H as <- <-. now split. }
  destruct (PyStr.truthy base_label).
  2: { injection H as <- <-. now split. }
  apply predict_product_need_inv in P.
  destruct P as (probs & rest & E1 & E2 & E3).
  pose proof (traverse_picked _ _ _ _ E2) as P3. subst top3.
  rewrite E1 in H. injection H as <- <-. split; [|reflexivity]. right.
  exact (flat_locals_shape e model probs base_label base_conf rest
           (App.grouped_by_category_list loc) PM P3).
Qed.

Lemma recommend_inv (e : App.Env) (st st' : App.State) (text : string)
    (r : App.ProductNeedResponse) (lbl : string) :
  App.product_need_recommend e st text = (st', App.Returns r) ->
  App.component r = Some lbl ->
  exists st3 loc,
    Spec.shape e loc
    /\ App.final_label loc = Some lbl
    /\ App.feedback_csv st3 = App.feedback_csv st
    /\ r = App.mkResponse (Some lbl) None (App.final_conf loc)
             (App.ensure_primary lbl (App.final_conf loc)
                                 (App.alternatives_list loc))
             (Py.Qlt_bool (App.final_conf loc) App.MEDIUM_CONF_THRESHOLD)
             (App.loc_source loc)
             (Py.Qlt_bool (App.final_conf loc) (App.LOW_CONF_THRESHOLD e))
             (App.grouped_by_category_list loc)
    /\ st' =
       if Py.Qlt_bool (App.final_conf loc) (App.LOW_CONF_THRESHOLD e)
          && App.HIERARCHICAL_AVAILABLE e
       then
         App.mkState (App.globals st3)
           (fst (Feedback.save_feedback (App.feedback_write e)
                   (App.format_4f e) (App.now e)
                   (App.feedback_csv st3) (PyStr.strip text) (Some lbl)
                   (App.final_conf loc) None (App.loc_source loc)))
           (App.trace st3 ++ [App.SaveFeedback])%list
       else st3.
Proof.
  unfold App.product_need_recommend.
  destruct (negb (PyStr.truthy (PyStr.strip text))); [discriminate|].
  destruct (App.rule_stage e st (PyStr.strip text)) as [st1 loc1] eqn:R.
  destruct (App.hierarchical_stage e st1 (PyStr.strip text) loc1)
    as [st2 loc2] eqn:H.
  destruct (App.flat_stage e st2 (PyStr.strip text) loc2)
    as [st3 loc3] eqn:F.
  destruct (rule_stage_inv _ _ _ _ _ R) as [I1 C1].
  destruct (hierarchical_stage_inv _ _ _ _ _ _ H I1) as [I2 C2].
  destruct (flat_stage_inv _ _ _ _ _ _ F I2) as [I3 C3].
  destruct (App.final_label loc3) as [l|] eqn:FL.
  2: { intros E. injection E as _ <-. discriminate. }
  intros E Hc. injection E as E1 E2. subst r. cbn [App.component] in Hc.
  injection Hc as ->.
  exists st3, loc3. split.
  { destruct I3 as [I3 | I3]; [congruence | exact I3]. }
  split; [exact FL|]. split; [congruence|]. split; [reflexivity|].
  rewrite <- E1.
  destruct (Py.Qlt_bool (App.final_conf loc3) (App.LOW_CONF_THRESHOLD e)
            && App.HIERARCHICAL_AVAILABLE e); [|reflexivity].
  unfold App.log. cbn [App.feedback_csv App.globals App.trace].
  now destruct (Feedback.save_feedback _ _ _ _ _ _ _ _ _).
Qed.

Lemma ensure_primary_cases (lbl : string) (conf : Q)
    (l : list App.ProductNeedAlternative) :
  length l <= 5 ->
  (In lbl (App.labels l) /\ App.ensure_primary lbl conf l = l)
  \/ (~ In lbl (App.labels l)
      /\ App.ensure_primary lbl conf l
         = App.mkAlt lbl conf None :: firstn 4 l).
Proof.
  intros Hlen. unfold App.ensure_primary.
  destruct (PyStr.mem lbl (App.labels l)) eqn:M.
  - left. split; [now apply mem_In | now apply firstn_all2].
  - right. split; [|reflexivity].
    intros Hin. apply mem_In in Hin. congruence.
Qed.

(** C4, as stated, fails on the hierarchical path. For ["games lag"] the
    primary label is [RAM Upgrade] but the related component
    [GPU Upgrade], scored 0.7, heads the list. For a request where five
    related components outrank the primary, the primary is re-inserted in
    front with its lower confidence, and the confidences are no longer
    non-increasing. *)
Lemma primary_neither_first_nor_highest :
  (exists r,
      snd (App.product_need_recommend Examples.performance_env
             Examples.start "games lag") = App.Returns r
      /\ App.component r = Some "RAM Upgrade"
      /\ App.labels (App.alternatives r)
         = ["GPU Upgrade"; "RAM Upgrade"; "SSD Upgrade"; "CPU Upgrade"])
  /\ (exists r,
         snd (App.product_need_recommend Examples.peripheral_env
                Examples.start "it is slow, lag and overheat")
         = App.Returns r
         /\ App.component r = Some "Webcam Upgrade"
         /\ ~ Spec.non_increasing App.confidence (App.alternatives r)).
Proof.
  split.
  - eexists. split; [vm_compute; reflexivity|]. split; reflexivity.
  - eexists. split; [vm_compute; reflexivity|]. split; [reflexivity|].
    intros H. apply StronglySorted_inv in H. destruct H as [_ H].
    apply Forall_inv in H. vm_compute in H. now apply H.
Qed.

(** C4, amended. For every response with a non-null primary label the
    alternatives list has at most 5 entries, contains the primary label,
    and is non-increasing in confidence from its second entry on. Its
    labels are distinct whenever the prediction comes from the rule or
    hierarchical stage, and from the flat stage when the flat model's
    classes are distinct. When the prediction does not come from the
    hierarchical stage the first entry carries the primary label and the
    whole list is non-increasing. On the hierarchical path the list is the
    confidence-sorted merge of the model's alternatives and the related
    components: it is non-increasing as a whole unless the primary label
    had fallen out of it and was re-inserted in front with the response's
    confidence. *)
Theorem alternatives_shape_of_response (e : App.Env) (st st' : App.State)
    (text : string) (r : App.ProductNeedResponse) (lbl : string) :
  App.product_need_recommend e st text = (st', App.Returns r) ->
  App.component r = Some lbl ->
  let alts := App.alternatives r in
  length alts <= 5
  /\ In lbl (App.labels alts)
  /\ Spec.non_increasing App.confidence (tl alts)
  /\ (App.source r <> "ml" \/ Spec.flat_classes_distinct e ->
      NoDup (App.labels alts))
  /\ (App.source r <> "hierarchical_ml" ->
      hd_error (App.labels alts) = Some lbl
      /\ Spec.non_increasing App.confidence alts)
  /\ (Spec.non_increasing App.confidence alts
      \/ exists rest,
           alts = App.mkAlt lbl (App.resp_confidence r) None :: rest).
Proof.
  intros H Hc. destruct (recommend_inv _ _ _ _ _ _ H Hc)
    as (st3 & loc & Hshape & FL & _ & -> & _).
  cbn [App.alternatives App.source App.resp_confidence]. cbv zeta.
  destruct Hshape as (lbl' & FL' & Hlen & Hsort & _ & Hhd & Hnd).
  rewrite FL in FL'. injection FL' as <-.
  destruct (ensure_primary_cases lbl (App.final_conf loc)
              (App.alternatives_list loc) Hlen) as [[Hin ->] | [Hnin ->]].
  - repeat split; try assumption.
    + destruct (App.alternatives_list loc); [constructor|].
      now apply StronglySorted_inv in Hsort.
    + now apply Hhd.
    + now left.
  - assert (Hs4 : Spec.non_increasing App.confidence
                    (firstn 4 (App.alternatives_list loc)))
      by now apply ssorted_firstn.
    split.
    { cbn [length].
      pose proof (firstn_le_length 4 (App.alternatives_list loc)). lia. }
    split; [now left|]. split; [exact Hs4|]. split.
    { intros Hcond. unfold App.labels. cbn [map App.label].
      constructor.
      - intros Hin. apply Hnin. unfold App.labels.
        rewrite <- firstn_map in Hin. now apply firstn_incl in Hin.
      - rewrite <- firstn_map. apply NoDup_firstn. now apply Hnd. }
    split.
    { intros Hsrc. exfalso. apply Hnin. specialize (Hhd Hsrc).
      destruct (App.labels (App.alternatives_list loc)) as [|x xs];
        [discriminate|].
      injection Hhd as ->. now left. }
    right. now eexists.
Qed.

Lemma alternatives_shape_of_response_witness :
  exists st' r,
    App.product_need_recommend Examples.performance_env Examples.start
      "games lag" = (st', App.Returns r)
    /\ App.component r = Some "RAM Upgrade"
    /\ length (App.alternatives r) <= 5
    /\ In "RAM Upgrade" (App.labels (App.alternatives r))
    /\ Spec.non_increasing App.confidence (tl (App.alternatives r)).
Proof.
  eexists. eexists. split; [vm_compute; reflexivity|].
  split; [reflexivity|].
  match goal with
  | |- context [App.alternatives ?r] =>
      destruct (alternatives_shape_of_response Examples.performance_env
                  Examples.start _ "games lag" r "RAM Upgrade"
                  ltac:(vm_compute; reflexivity) eq_refl)
        as (H1 & H2 & H3 & _)
  end.
  exact (conj H1 (conj H2 H3)).
Defined.

(** ** The recommend endpoint: feedback records *)

(** C5, as stated, fails: a request for which no stage produces a label is
    answered with a null label, confidence 0.0 and [ask_feedback] set, but
    the endpoint returns before the feedback store is written; no record
    is appended. *)
Lemma null_prediction_is_not_recorded :
  let out := App.product_need_recommend Examples.bare_env Examples.start
               "xyz unrelated gibberish" in
  snd out = App.Returns App.no_prediction
  /\ App.component App.no_prediction = None
  /\ (App.resp_confidence App.no_prediction < 5 # 10)%Q
  /\ App.feedback_csv (fst out) = App.feedback_csv Examples.start
  /\ ~ In App.SaveFeedback (App.trace (fst out)).
Proof.
  vm_compute. repeat split.
  intros [H | [H | []]]; discriminate.
Qed.

(** C5, amended. For every call of the recommend endpoint that returns a
    non-null label, with the feedback module imported and the writes to
    the feedback file completing: when the returned confidence is below
    0.5 the file holds, after the call, what it held before (the header
    line when it did not exist), followed by exactly one new line; that
    line carries the clock reading, the trimmed text, the returned label,
    the returned confidence as printed by [f"{confidence:.4f}"], an
    empty correction, the returned source and [False]. When the
    confidence is at least 0.5 the file is left as it was. *)
Theorem low_confidence_label_recorded_once (e : App.Env)
    (st st' : App.State) (text : string) (r : App.ProductNeedResponse)
    (lbl : string) :
  App.product_need_recommend e st text = (st', App.Returns r) ->
  App.component r = Some lbl ->
  App.HIERARCHICAL_AVAILABLE e = true ->
  App.feedback_write e = Feedback.Completes ->
  ((App.resp_confidence r < 5 # 10)%Q ->
   App.feedback_csv st'
   = Some (match App.feedback_csv st with
           | Some held => held
           | None => [Feedback.HEADER]
           end
           ++ [[App.now e; PyStr.strip text; lbl;
                App.format_4f e (App.resp_confidence r); "";
                App.source r; "False"]])%list)
  /\ ((5 # 10 <= App.resp_confidence r)%Q ->
      App.feedback_csv st' = App.feedback_csv st).
Proof.
  intros H Hc Hav Hw.
  destruct (recommend_inv _ _ _ _ _ _ H Hc)
    as (st3 & loc & _ & _ & Hcsv & -> & ->).
  cbn [App.resp_confidence App.source].
  unfold App.LOW_CONF_THRESHOLD, Feedback.LOW_CONFIDENCE_THRESHOLD.
  rewrite Hav, Hw, andb_true_r.
  split.
  - intros Hlt. rewrite (proj2 (Qlt_bool_iff _ _) Hlt).
    cbn [App.feedback_csv]. rewrite Hcsv.
    unfold Feedback.save_feedback, Feedback.data_row.
    cbn [fst Feedback.or_empty Feedback.str_bool].
    destruct (App.feedback_csv st) as [held|]; reflexivity.
  - intros Hge. destruct (Py.Qlt_bool (App.final_conf loc) (5 # 10)) eqn:E.
    + apply Qlt_bool_iff in E. exfalso. exact (Qlt_not_le _ _ E Hge).
    + exact Hcsv.
Qed.

Lemma low_confidence_label_recorded_once_witness :
  exists st' r,
    App.product_need_recommend Examples.unsure_env Examples.start
      "games lag" = (st', App.Returns r)
    /\ App.component r = Some "RAM Upgrade"
    /\ App.HIERARCHICAL_AVAILABLE Examples.unsure_env = true
    /\ App.feedback_write Examples.unsure_env = Feedback.Completes
    /\ (App.resp_confidence r < 5 # 10)%Q
    /\ App.feedback_csv st'
       = Some [Feedback.HEADER;
               ["2024-01-01T00:00:00"; "games lag"; "RAM Upgrade";
                "0.3000"; ""; "hierarchical_ml"; "False"]].
Proof.
  eexists. eexists. split; [vm_compute; reflexivity|].
  split; [reflexivity|]. split; [reflexivity|]. split; [reflexivity|].
  split; [reflexivity|].
  match goal with
  | |- App.feedback_csv ?s = _ =>
      destruct (low_confidence_label_recorded_once Examples.unsure_env
                  Examples.start s "games lag"
                  (Examples.response_of
                     (App.product_need_recommend Examples.unsure_env
                        Examples.start "games lag"))
                  "RAM Upgrade"
                  ltac:(vm_compute; reflexivity) eq_refl eq_refl eq_refl)
        as [Hlow _]
  end.
  rewrite Hlow; [vm_compute; reflexivity | reflexivity].
Defined.

(** * Further properties *)

(** ** The rule matcher: normalisation and dead rules *)

Lemma lower_char_idem (c : ascii) :
  PyStr.lower_char (PyStr.lower_char c) = PyStr.lower_char c.
Proof.
  destruct c as [[] [] [] [] [] [] [] []]; vm_compute; reflexivity.
Qed.

Lemma isspace_lower_char (c : ascii) :
  PyStr.isspace (PyStr.lower_char c) = PyStr.isspace c.
Proof.
  destruct c as [[] [] [] [] [] [] [] []]; vm_compute; reflexivity.
Qed.

Lemma lower_idem (s : string) : PyStr.lower (PyStr.lower s) = PyStr.lower s.
Proof.
  induction s as [|c s IH]; simpl; [reflexivity|].
  now rewrite lower_char_idem, IH.
Qed.

Lemma lstrip_lower (s : string) :
  PyStr.lstrip (PyStr.lower s) = PyStr.lower (PyStr.lstrip s).
Proof.
  induction s as [|c s IH]; simpl; [reflexivity|].
  rewrite isspace_lower_char. destruct (PyStr.isspace c); [exact IH|].
  reflexivity.
Qed.

Lemma rstrip_lower (s : string) :
  PyStr.rstrip (PyStr.lower s) = PyStr.lower (PyStr.rstrip s).
Proof.
  induction s as [|c s IH]; simpl; [reflexivity|].
  rewrite IH, isspace_lower_char.
  destruct (PyStr.rstrip s); simpl; [|reflexivity].
  now destruct (PyStr.isspace c).
Qed.

Lemma strip_lower (s : string) :
  PyStr.strip (PyStr.lower s) = PyStr.lower (PyStr.strip s).
Proof.
  unfold PyStr.strip. now rewrite lstrip_lower, rstrip_lower.
Qed.

Lemma rstrip_idem (s : string) : PyStr.rstrip (PyStr.rstrip s) = PyStr.rstrip s.
Proof.
  induction s as [|c s IH]; simpl; [reflexivity|].
  destruct (PyStr.rstrip s) as [|d r] eqn:E.
  - destruct (PyStr.isspace c) eqn:Hc; simpl; [reflexivity|].
    now rewrite Hc.
  - cbn [PyStr.rstrip]. cbn [PyStr.rstrip] in IH.
    destruct (PyStr.rstrip r) as [|d' r'].
    + destruct (PyStr.isspace d); [discriminate|]. now rewrite IH.
    + now rewrite IH.
Qed.

Lemma lstrip_left_trimmed (s : string) : Spec.left_trimmed (PyStr.lstrip s).
Proof.
  induction s as [|c s IH]; simpl; [exact I|].
  destruct (PyStr.isspace c) eqn:E; [exact IH | exact E].
Qed.

Lemma lstrip_fixed (s : string) : Spec.left_trimmed s -> PyStr.lstrip s = s.
Proof.
  destruct s as [|c s]; simpl; [reflexivity|]. now intros ->.
Qed.

Lemma rstrip_left_trimmed (s : string) :
  Spec.left_trimmed s -> Spec.left_trimmed (PyStr.rstrip s).
Proof.
  destruct s as [|c s]; simpl; [exact id|]. intros Hc.
  destruct (PyStr.rstrip s); [now rewrite Hc | exact Hc].
Qed.

Lemma strip_idem (s : string) : PyStr.strip (PyStr.strip s) = PyStr.strip s.
Proof.
  unfold PyStr.strip.
  rewrite (lstrip_fixed (PyStr.rstrip (PyStr.lstrip s))).
  - apply rstrip_idem.
  - apply rstrip_left_trimmed, lstrip_left_trimmed.
Qed.

(** X1. [match_rule] gives the same answer on a text, on its trimmed form
    (the form the recommend endpoint passes) and on its lowercased form:
    outer whitespace and letter case never change the rule that fires. *)
Theorem match_rule_ignores_case_and_margins (text : string) :
  Rules.match_rule (PyStr.strip text) = Rules.match_rule text
  /\ Rules.match_rule (PyStr.lower text) = Rules.match_rule text
  /\ Rules.match_rule (PyStr.lower (PyStr.strip text))
     = Rules.match_rule text.
Proof.
  unfold Rules.match_rule, Rules.match_rule_in. repeat split.
  - now rewrite <- strip_lower, strip_idem.
  - now rewrite lower_idem.
  - now rewrite lower_idem, <- strip_lower, strip_idem.
Qed.

Lemma string_app_assoc (a b c : string) : (a ++ b) ++ c = a ++ (b ++ c).
Proof.
  induction a as [|x a IH]; simpl; [reflexivity | now rewrite IH].
Qed.

Lemma is_substring_trans (a b c : string) :
  Spec.is_substring a b -> Spec.is_substring b c -> Spec.is_substring a c.
Proof.
  intros (p1 & q1 & ->) (p2 & q2 & ->).
  exists (p2 ++ p1), (q1 ++ q2).
  now rewrite !string_app_assoc.
Qed.

Lemma subsumes_fires (t : string) (e l : Rules.Rule) :
  Spec.subsumes e l = true ->
  Rules.rule_fires t l = true -> Rules.rule_fires t e = true.
Proof.
  intros Hs Hl. apply rule_fires_spec. apply rule_fires_spec in Hl.
  intros ke Hke. unfold Spec.subsumes in Hs.
  rewrite forallb_forall in Hs. specialize (Hs ke Hke).
  apply existsb_exists in Hs. destruct Hs as (kl & Hkl & Hc).
  apply contains_spec in Hc.
  exact (is_substring_trans _ _ _ Hc (Hl kl Hkl)).
Qed.

Lemma live_after_first_match (t : string) (rules seen : list Rules.Rule) :
  (forall e, In e seen -> Rules.rule_fires t e = false) ->
  Rules.first_match t (Spec.live_after seen rules)
  = Rules.first_match t rules.
Proof.
  revert seen; induction rules as [|r rest IH]; intros seen Hseen;
    [reflexivity|].
  cbn [Spec.live_after Rules.first_match].
  destruct (existsb (fun e => Spec.subsumes e r) seen) eqn:Ex.
  - apply existsb_exists in Ex. destruct Ex as (e & He & Hs).
    destruct (Rules.rule_fires t r) eqn:F.
    + specialize (Hseen e He).
      rewrite (subsumes_fires t e r Hs F) in Hseen. discriminate.
    + apply IH. intros e' [<- | He']; [exact F | now apply Hseen].
  - cbn [Rules.first_match]. destruct (Rules.rule_fires t r) eqn:F;
      [reflexivity|].
    apply IH. intros e' [<- | He']; [exact F | now apply Hseen].
Qed.

(** X2. A rule never answers when an earlier rule of the table fires on
    every text it fires on: [match_rule] over [RULES] equals the first
    match over the table with those rules removed, and 21 of the 94 rules
    of [RULES] are dead in this way. *)
Theorem dead_rules_never_answer (text : string) :
  Rules.match_rule text
  = Rules.first_match (Spec.normalized text) (Spec.live_rules Rules.RULES)
  /\ length Rules.RULES = 94
  /\ length (Spec.live_rules Rules.RULES) = 73.
Proof.
  split; [|split; vm_compute; reflexivity].
  unfold Rules.match_rule, Rules.match_rule_in, Spec.live_rules,
    Spec.normalized.
  symmetry. apply live_after_first_match. intros e [].
Qed.

Lemma first_match_in (t : string) (rules : list Rules.Rule)
    (res : Rules.RuleResult) :
  Rules.first_match t rules = Some res ->
  exists r, In r rules /\ Rules.rule_fires t r = true
            /\ res = Rules.package r.
Proof.
  induction rules as [|r0 rules IH]; simpl; [discriminate|].
  destruct (Rules.rule_fires t r0) eqn:F.
  - intros H. injection H as <-. exists r0. repeat split; [now left | exact F].
  - intros H. destruct (IH H) as (r & Hin & Hr). exists r.
    split; [now right | exact Hr].
Qed.

Lemma first_match_app_left (t : string) (l1 l2 : list Rules.Rule) :
  existsb (Rules.rule_fires t) l1 = true ->
  Rules.first_match t (l1 ++ l2) = Rules.first_match t l1.
Proof.
  induction l1 as [|r l1 IH]; simpl; [discriminate|].
  destruct (Rules.rule_fires t r); [reflexivity | exact IH].
Qed.

Lemma answer_within_prefix (t : string) (n : nat) (kw : string)
    (res : Rules.RuleResult) :
  nth_error Rules.RULES n
  = Some (Rules.mkRule (Rules.KwStr kw)
            (Rules.component (nth n Rules.RULES
               (Rules.mkRule (Rules.KwStr "") "" 0%Q "" None)))
            (Rules.confidence (nth n Rules.RULES
               (Rules.mkRule (Rules.KwStr "") "" 0%Q "" None)))
            (Rules.explanation (nth n Rules.RULES
               (Rules.mkRule (Rules.KwStr "") "" 0%Q "" None)))
            (Rules.related_components (nth n Rules.RULES
               (Rules.mkRule (Rules.KwStr "") "" 0%Q "" None)))) ->
  PyStr.contains (PyStr.lower kw) t = true ->
  Rules.first_match t Rules.RULES = Some res ->
  exists r, In r (firstn (S n) Rules.RULES) /\ res = Rules.package r.
Proof.
  intros Hn Hc Hm.
  rewrite <- (firstn_skipn (S n) Rules.RULES) in Hm.
  rewrite first_match_app_left in Hm.
  - destruct (first_match_in _ _ _ Hm) as (r & Hin & _ & E). now exists r.
  - apply existsb_exists. eexists. split.
    + apply (nth_error_In (firstn (S n) Rules.RULES) n).
      rewrite nth_error_firstn.
      destruct (Nat.ltb_spec n (S n)) as [_ | H]; [exact Hn | lia].
    + unfold Rules.rule_fires. cbn [Rules.keywords]. exact Hc.
Qed.

(** X3. The rules that map a call about a microphone in Zoom or Teams to
    [Microphone Upgrade] are among the dead ones: for every text that
    mentions "zoom" or "teams" (in any case) a rule does answer, and the
    answer is never [Microphone Upgrade]. *)
Theorem zoom_and_teams_never_reach_microphone (text : string) :
  Spec.is_substring "zoom" (Spec.normalized text)
  \/ Spec.is_substring "teams" (Spec.normalized text) ->
  exists label conf expl related,
    Rules.match_rule text = Some (label, conf, expl, related)
    /\ label <> "Microphone Upgrade".
Proof.
  intros H.
  assert (Hex : exists n kw,
             (n = 52 /\ kw = "zoom" \/ n = 58 /\ kw = "teams")
             /\ PyStr.contains (PyStr.lower kw) (Spec.normalized text) = true).
  { destruct H as [H | H]; apply contains_spec in H.
    - exists 52, "zoom". split; [now left | exact H].
    - exists 58, "teams". split; [now right | exact H]. }
  destruct Hex as (n & kw & Hn & Hc).
  assert (Hsome : exists res, Rules.match_rule text = Some res).
  { destruct (Rules.match_rule text) as [res|] eqn:M; [now exists res|].
    exfalso. apply first_match_none with (r :=
      nth n Rules.RULES (Rules.mkRule (Rules.KwStr "") "" 0%Q "" None))
      in M.
    - apply M. apply rule_fires_spec.
      destruct Hn as [[-> ->] | [-> ->]]; exact Hc.
    - apply nth_In. destruct Hn as [[-> _] | [-> _]]; vm_compute; lia. }
  destruct Hsome as ([[[label conf] expl] related] & M).
  exists label, conf, expl, related. split; [exact M|].
  assert (Hpre : exists r, In r (firstn (S n) Rules.RULES)
                           /\ (label, conf, expl, related) = Rules.package r).
  { apply (answer_within_prefix (Spec.normalized text) n kw).
    - destruct Hn as [[-> ->] | [-> ->]]; reflexivity.
    - exact Hc.
    - exact M. }
  destruct Hpre as (r & Hin & E).
  assert (Hall : forallb
            (fun r => negb (String.eqb (Rules.component r)
                                       "Microphone Upgrade"))
            (firstn 59 Rules.RULES) = true) by (vm_compute; reflexivity).
  rewrite forallb_forall in Hall.
  assert (Hin59 : In r (firstn 59 Rules.RULES)).
  { destruct Hn as [[-> _] | [-> _]]; [|exact Hin].
    change (firstn 59 Rules.RULES)
      with (firstn 53 Rules.RULES ++ firstn 6 (skipn 53 Rules.RULES))%list.
    apply in_or_app. now left. }
  specialize (Hall r Hin59). apply negb_true_iff in Hall.
  apply String.eqb_neq in Hall.
  unfold Rules.package in E. injection E as -> _ _ _. exact Hall.
Qed.

Lemma zoom_and_teams_never_reach_microphone_witness :
  (Spec.is_substring "zoom" (Spec.normalized "Zoom mic not working")
   \/ Spec.is_substring "teams" (Spec.normalized "Zoom mic not working"))
  /\ exists label conf expl related,
      Rules.match_rule "Zoom mic not working"
      = Some (label, conf, expl, related)
      /\ label <> "Microphone Upgrade".
Proof.
  assert (H : Spec.is_substring "zoom"
                (Spec.normalized "Zoom mic not working")).
  { exists "", " mic not working". reflexivity. }
  split; [now left|].
  apply (zoom_and_teams_never_reach_microphone "Zoom mic not working").
  now left.
Defined.

(** ** Related components and grouping *)

Lemma scan_components_in (primary : string) (components rest : list string)
    (cs : string * Q) :
  In cs (MultiComponent.scan_components primary components rest) ->
  fst cs <> primary /\ In (fst cs) rest.
Proof.
  induction rest as [|c rest IH]; simpl; [intros []|].
  destruct (c =? primary)%string eqn:E; simpl.
  - intros H. destruct (IH H) as [H1 H2]. split; [exact H1 | now right].
  - intros [<- | H].
    + simpl. split; [now apply String.eqb_neq | now left].
    + destruct (IH H) as [H1 H2]. split; [exact H1 | now right].
Qed.

Lemma scan_problems_in (table : Dict.dict (list string))
    (t primary : string) (cs : string * Q) :
  In cs (MultiComponent.scan_problems table t primary) ->
  fst cs <> primary
  /\ exists problem components,
       In (problem, components) table
       /\ Spec.is_substring problem t /\ In (fst cs) components.
Proof.
  induction table as [|[problem components] table IH]; simpl; [intros []|].
  intros H. apply in_app_or in H. destruct H as [H | H].
  - destruct (PyStr.contains problem t) eqn:C; [|destruct H].
    apply scan_components_in in H. destruct H as [H1 H2].
    split; [exact H1|]. exists problem, components.
    repeat split; [now left | now apply contains_spec | exact H2].
  - destruct (IH H) as (H1 & p & c & Hin & Hs & Hc).
    split; [exact H1|]. exists p, c. repeat split; [now right | | ]; assumption.
Qed.

(** X4. Every component returned by [get_related_components] differs from
    the primary component and is listed in [PROBLEM_TO_COMPONENTS] under a
    problem phrase that occurs in the lowercased text; no component is
    returned twice. *)
Theorem related_components_are_distinct_and_justified
    (text primary : string) :
  let result := MultiComponent.get_related_components text primary in
  NoDup (map fst result)
  /\ Forall
       (fun cs =>
          fst cs <> primary
          /\ exists problem components,
               In (problem, components) MultiComponent.PROBLEM_TO_COMPONENTS
               /\ Spec.is_substring problem (PyStr.lower text)
               /\ In (fst cs) components)
       result.
Proof.
  cbv zeta. unfold MultiComponent.get_related_components,
    MultiComponent.get_related_components_in.
  set (related := MultiComponent.scan_problems _ _ _).
  split.
  - rewrite <- firstn_map. apply NoDup_firstn.
    apply (Permutation_NoDup (l := map fst (Py.dedupe related))).
    + apply Permutation_map. symmetry. apply sort_desc_perm.
    + apply dedupe_from_nodup.
  - apply Forall_forall. intros cs Hin.
    apply firstn_incl in Hin.
    apply (Permutation_in _ (sort_desc_perm snd _)) in Hin.
    apply dedupe_from_incl in Hin.
    now apply scan_problems_in in Hin.
Qed.

Lemma dict_get_in {V} (d : Dict.dict V) (k : string) (v : V) :
  Dict.get d k = Some v -> In (k, v) d.
Proof.
  induction d as [|[k' v'] d IH]; simpl; [discriminate|].
  destruct (k =? k')%string eqn:E.
  - apply String.eqb_eq in E. subst k'. intros H. injection H as ->.
    now left.
  - intros H. right. now apply IH.
Qed.

Lemma dict_in_get {V} (d : Dict.dict V) (k : string) (v : V) :
  NoDup (map fst d) -> In (k, v) d -> Dict.get d k = Some v.
Proof.
  induction d as [|[k' v'] d IH]; simpl; [intros _ []|].
  intros Hn [E | Hin].
  - injection E as -> ->. now rewrite String.eqb_refl.
  - apply NoDup_cons_iff in Hn. destruct Hn as [Hni Hn].
    destruct (k =? k')%string eqn:E; [|now apply IH].
    apply String.eqb_eq in E. subst k'. exfalso. apply Hni.
    apply in_map_iff. now exists (k, v).
Qed.

Lemma dict_set_keys {V} (d : Dict.dict V) (k : string) (v : V) :
  map fst (Dict.set d k v)
  = if PyStr.mem k (map fst d) then map fst d else (map fst d ++ [k])%list.
Proof.
  unfold PyStr.mem. induction d as [|[k' v'] d IH]; simpl; [reflexivity|].
  destruct (k =? k')%string eqn:E; simpl.
  - apply String.eqb_eq in E. now subst k'.
  - rewrite IH. now destruct (existsb (String.eqb k) (map fst d)).
Qed.

Lemma dict_set_nodup {V} (d : Dict.dict V) (k : string) (v : V) :
  NoDup (map fst d) -> NoDup (map fst (Dict.set d k v)).
Proof.
  intros Hn. rewrite dict_set_keys.
  destruct (PyStr.mem k (map fst d)) eqn:M; [exact Hn|].
  apply NoDup_app.
  - exact Hn.
  - repeat constructor. intros [].
  - intros x Hx [<- | []]. apply mem_In in Hx. congruence.
Qed.

Lemma dict_set_in {V} (d : Dict.dict V) (k k' : string) (v v' : V) :
  In (k', v') (Dict.set d k v) -> (k', v') = (k, v) \/ In (k', v') d.
Proof.
  induction d as [|[k0 v0] d IH]; simpl.
  - intros [E | []]. left. now symmetry.
  - destruct (k =? k0)%string; simpl.
    + intros [E | H]; [left; now symmetry | right; now right].
    + intros [E | H]; [right; now left|].
      destruct (IH H) as [E | Hin]; [now left | right; now right].
Qed.

Lemma dict_set_append_concat {A} (d : Dict.dict (list A)) (k : string)
    (x : A) :
  Permutation
    (concat (map snd (Dict.set d k (Dict.get_default d k [] ++ [x])%list)))
    (concat (map snd d) ++ [x])%list.
Proof.
  unfold Dict.get_default.
  induction d as [|[k0 v0] d IH]; simpl; [reflexivity|].
  destruct (k =? k0)%string eqn:E; simpl.
  - rewrite <- !app_assoc. apply Permutation_app_head.
    apply Permutation_app_comm.
  - rewrite <- app_assoc. apply Permutation_app_head. exact IH.
Qed.

Lemma map_values_keys {V W} (f : V -> W) (d : Dict.dict V) :
  map fst (Dict.map_values f d) = map fst d.
Proof.
  unfold Dict.map_values. rewrite map_map. reflexivity.
Qed.

Lemma map_values_sort_concat {A} (key : A -> Q) (d : Dict.dict (list A)) :
  Permutation (concat (map snd (Dict.map_values (Py.sort_desc key) d)))
              (concat (map snd d)).
Proof.
  induction d as [|[k v] d IH]; simpl; [reflexivity|].
  apply Permutation_app; [apply sort_desc_perm | exact IH].
Qed.

Lemma group_fold_inv (c2c : Dict.dict string) (comps : list (string * Q))
    (g0 : Dict.dict (list (string * Q))) :
  let categ := fun cc : string * Q =>
                 Dict.get_default c2c (fst cc) "Other" in
  let g :=
    fold_left
      (fun grouped cc =>
         Dict.set grouped (categ cc)
                  (Dict.get_default grouped (categ cc) [] ++ [cc])%list)
      comps g0 in
  NoDup (map fst g0) ->
  (forall k l, In (k, l) g0 -> l <> [] /\ Forall (fun x => categ x = k) l) ->
  NoDup (map fst g)
  /\ (forall k l, In (k, l) g -> l <> [] /\ Forall (fun x => categ x = k) l)
  /\ Permutation (concat (map snd g)) (concat (map snd g0) ++ comps)%list.
Proof.
  cbv zeta. revert g0. induction comps as [|cc comps IH]; intros g0 Hn Hinv.
  - simpl. rewrite app_nil_r.
    split; [exact Hn | split; [exact Hinv | reflexivity]].
  - cbn [fold_left].
    set (cat := Dict.get_default c2c (fst cc) "Other").
    set (g1 := Dict.set g0 cat (Dict.get_default g0 cat [] ++ [cc])%list).
    assert (Hn1 : NoDup (map fst g1)) by now apply dict_set_nodup.
    assert (Hinv1 : forall k l, In (k, l) g1 ->
              l <> []
              /\ Forall (fun x => Dict.get_default c2c (fst x) "Other" = k) l).
    { intros k l Hin. apply dict_set_in in Hin. destruct Hin as [E | Hin].
      - injection E as -> ->. split.
        + intros H. apply app_eq_nil in H. destruct H as [_ H]. discriminate.
        + apply Forall_app. split; [|now repeat constructor].
          unfold Dict.get_default.
          destruct (Dict.get g0 cat) as [l0|] eqn:G; [|constructor].
          apply dict_get_in in G. now apply Hinv in G.
      - now apply Hinv. }
    destruct (IH g1 Hn1 Hinv1) as (H1 & H2 & H3).
    split; [exact H1|]. split; [exact H2|].
    rewrite H3. unfold g1. rewrite dict_set_append_concat.
    now rewrite <- app_assoc.
Qed.

(** X5. [group_by_category] neither loses nor invents a recommendation:
    its buckets, taken together, are a rearrangement of the input list.
    The category keys are distinct, no bucket is empty, every entry sits
    in the bucket of its category (["Other"] when the mapping has none),
    and every bucket is in non-increasing confidence order. *)
Theorem group_by_category_partitions (components : list (string * Q))
    (component_to_category : Dict.dict string) :
  let grouped :=
    MultiComponent.group_by_category components component_to_category in
  NoDup (map fst grouped)
  /\ Permutation (concat (map snd grouped)) components
  /\ Forall
       (fun bucket =>
          snd bucket <> []
          /\ Spec.non_increasing snd (snd bucket)
          /\ Forall
               (fun cc =>
                  Dict.get_default component_to_category (fst cc) "Other"
                  = fst bucket)
               (snd bucket))
       grouped.
Proof.
  cbv zeta. unfold MultiComponent.group_by_category.
  destruct (group_fold_inv component_to_category components [])
    as (Hn & Hinv & Hperm); [constructor | intros k l [] |].
  cbv zeta in Hn, Hinv, Hperm. simpl in Hperm.
  split; [now rewrite map_values_keys|]. split.
  - rewrite map_values_sort_concat. exact Hperm.
  - apply Forall_forall. intros [k l'] Hin.
    unfold Dict.map_values in Hin. apply in_map_iff in Hin.
    destruct Hin as ([k0 l] & E & Hin). simpl in E. injection E as -> <-.
    destruct (Hinv k l Hin) as [Hne Hcat]. cbn [fst snd]. repeat split.
    + intros H. apply Hne.
      pose proof (Permutation_length (sort_desc_perm snd l)) as L.
      rewrite H in L. destruct l; [reflexivity | discriminate].
    + apply sort_desc_sorted.
    + apply Forall_forall. intros x Hx.
      apply (Permutation_in _ (sort_desc_perm snd l)) in Hx.
      rewrite Forall_forall in Hcat. now apply Hcat.
Qed.

(** ** The category mapping *)

Lemma assign_category_get (cat : string) (comps : list string)
    (acc : Dict.dict string) (k : string) :
  Dict.get (fold_left (fun acc' c => Dict.set acc' c cat) comps acc) k
  = if PyStr.mem k comps then Some cat else Dict.get acc k.
Proof.
  revert acc; induction comps as [|c comps IH]; intros acc; [reflexivity|].
  cbn [fold_left]. rewrite IH. unfold PyStr.mem. cbn [existsb].
  fold (PyStr.mem k comps).
  destruct (PyStr.mem k comps); [now rewrite orb_true_r|].
  rewrite orb_false_r. destruct (k =? c)%string eqn:E.
  - apply String.eqb_eq in E. subst c. apply dict_get_set_same.
  - apply dict_get_set_other. now apply String.eqb_neq.
Qed.

Lemma assign_all_sound (m : Hierarchical.Mapping) (acc : Dict.dict string)
    (k cat : string) :
  Dict.get (Spec.assign_all m acc) k = Some cat ->
  Dict.get acc k = Some cat
  \/ exists comps, In (cat, comps) m /\ In k comps.
Proof.
  revert acc; induction m as [|[c0 comps0] m IH]; intros acc; [now left|].
  unfold Spec.assign_all. cbn [fold_left fst snd]. fold (Spec.assign_all m).
  intros H. apply IH in H. destruct H as [H | (comps & Hin & Hk)].
  - rewrite assign_category_get in H.
    destruct (PyStr.mem k comps0) eqn:M; [|now left].
    injection H as <-. right. exists comps0.
    split; [now left | now apply mem_In].
  - right. exists comps. split; [now right | exact Hk].
Qed.

Lemma assign_all_none (m : Hierarchical.Mapping) (acc : Dict.dict string)
    (k : string) :
  Dict.get (Spec.assign_all m acc) k = None <->
  Dict.get acc k = None /\ forall e, In e m -> ~ In k (snd e).
Proof.
  revert acc; induction m as [|[c0 comps0] m IH]; intros acc.
  - simpl. split; [intros H; split; [exact H | intros e []] | now intros [H _]].
  - unfold Spec.assign_all. cbn [fold_left fst snd]. fold (Spec.assign_all m).
    rewrite IH, assign_category_get.
    destruct (PyStr.mem k comps0) eqn:M.
    + split; [intros [H _]; discriminate|].
      intros [_ H]. exfalso. apply (H (c0, comps0)); [now left|].
      now apply mem_In.
    + split.
      * intros [H1 H2]. split; [exact H1|].
        intros e [<- | He]; [|now apply H2].
        simpl. intros Hk. apply mem_In in Hk. congruence.
      * intros [H1 H2]. split; [exact H1|].
        intros e He. apply H2. now right.
Qed.

Lemma assign_all_keeps (m : Hierarchical.Mapping) (acc : Dict.dict string)
    (k : string) :
  (forall e, In e m -> ~ In k (snd e)) ->
  Dict.get (Spec.assign_all m acc) k = Dict.get acc k.
Proof.
  revert acc; induction m as [|[c0 comps0] m IH]; intros acc Hno;
    [reflexivity|].
  unfold Spec.assign_all. cbn [fold_left fst snd]. fold (Spec.assign_all m).
  rewrite IH by (intros e He; apply Hno; now right).
  rewrite assign_category_get.
  destruct (PyStr.mem k comps0) eqn:M; [|reflexivity].
  exfalso. apply (Hno (c0, comps0)); [now left | now apply mem_In].
Qed.

Lemma reverse_mapping_last_listing_wins_aux (m : Hierarchical.Mapping)
    (component : string) :
  (forall cat,
      Dict.get (Hierarchical.reverse_mapping m) component = Some cat ->
      exists comps, In (cat, comps) m /\ In component comps)
  /\ (Dict.get (Hierarchical.reverse_mapping m) component = None <->
      forall cat comps, In (cat, comps) m -> ~ In component comps).
Proof.
  change (Hierarchical.reverse_mapping m) with (Spec.assign_all m []).
  split.
  - intros cat H. apply assign_all_sound in H.
    destruct H as [H | H]; [discriminate | exact H].
  - rewrite assign_all_none. split.
    + intros [_ H] cat comps Hin. exact (H (cat, comps) Hin).
    + intros H. split; [reflexivity|]. intros [cat comps] He.
      exact (H cat comps He).
Qed.

(** X6. The reverse mapping built by [_load_models] sends a component to a
    category that lists it, and to nothing exactly when no category lists
    it; when several categories list a component, the one declared last
    in the mapping wins. *)
Theorem reverse_mapping_last_listing_wins (m : Hierarchical.Mapping)
    (component : string) :
  (forall cat,
      Dict.get (Hierarchical.reverse_mapping m) component = Some cat ->
      exists comps, In (cat, comps) m /\ In component comps)
  /\ (Dict.get (Hierarchical.reverse_mapping m) component = None <->
      forall cat comps, In (cat, comps) m -> ~ In component comps)
  /\ (forall pre cat comps post,
         m = (pre ++ (cat, comps) :: post)%list ->
         In component comps ->
         (forall e, In e post -> ~ In component (snd e)) ->
         Dict.get (Hierarchical.reverse_mapping m) component = Some cat).
Proof.
  change (Hierarchical.reverse_mapping m) with (Spec.assign_all m []).
  split; [|split].
  - intros cat H. apply assign_all_sound in H.
    destruct H as [H | H]; [discriminate | exact H].
  - rewrite assign_all_none. split.
    + intros [_ H] cat comps Hin. exact (H (cat, comps) Hin).
    + intros H. split; [reflexivity|]. intros [cat comps] He.
      exact (H cat comps He).
  - intros pre cat comps post -> Hin Hpost.
    unfold Spec.assign_all. rewrite fold_left_app. cbn [fold_left fst snd].
    fold (Spec.assign_all pre []).
    match goal with
    | |- Dict.get (fold_left _ post ?acc) _ = _ =>
        change (Dict.get (Spec.assign_all post acc) component = Some cat)
    end.
    rewrite (assign_all_keeps post _ component Hpost).
    rewrite assign_category_get.
    now rewrite (proj2 (mem_In component comps) Hin).
Qed.

(** ** The lazy loader *)

(** X7. Once [_load_models] has returned both models and the mapping, they
    stay cached: any later call returns the same values and leaves the
    globals unchanged whatever the artifact files have become, so
    [predict_hierarchical] no longer depends on the disk. *)
Theorem loaded_artifacts_stay_cached (d : Hierarchical.Disk)
    (g g' : Hierarchical.Globals) (cm pm : Hierarchical.Model)
    (mp : Hierarchical.Mapping) (c2c : option (Dict.dict string)) :
  Hierarchical._load_models d g = (g', Ok (Some cm, Some pm, Some mp, c2c)) ->
  forall d',
    Hierarchical._load_models d' g' = (g', Ok (Some cm, Some pm, Some mp, c2c))
    /\ forall text rm,
         Hierarchical.predict_hierarchical d' g' text rm
         = (g', Ok (Hierarchical.predict_loaded
                      (Some cm, Some pm, Some mp, c2c) text rm)).
Proof.
  intros H d'.
  assert (E : g' = Hierarchical.mkGlobals (Some cm) (Some pm) (Some mp) c2c).
  { destruct g as [gc gp gm gr], d as [dc dp dm].
    unfold Hierarchical._load_models in H.
    cbn [Hierarchical._category_model Hierarchical._component_model
         Hierarchical._category_mapping Hierarchical._component_to_category
         Hierarchical.CATEGORY_MODEL_PATH Hierarchical.COMPONENT_MODEL_PATH
         Hierarchical.MAPPING_PATH] in H.
    destruct gc, dc; cbn [Hierarchical.load_if_absent] in H;
      try discriminate;
      destruct gp, dp; cbn [Hierarchical.load_if_absent] in H;
        try discriminate;
        destruct gm, dm; try discriminate;
          injection H as <- <- <- <- <-; reflexivity. }
  subst g'.
  assert (L : Hierarchical._load_models d'
                (Hierarchical.mkGlobals (Some cm) (Some pm) (Some mp) c2c)
              = (Hierarchical.mkGlobals (Some cm) (Some pm) (Some mp) c2c,
                 Ok (Some cm, Some pm, Some mp, c2c))) by reflexivity.
  split; [exact L|]. intros text rm.
  unfold Hierarchical.predict_hierarchical. now rewrite L.
Qed.

Lemma loaded_artifacts_stay_cached_witness :
  exists g' c2c,
    Hierarchical._load_models
      (App.disk Examples.performance_env) Hierarchical.fresh
    = (g', Ok (Some Examples.sure_performance, Some Examples.prefers_ram,
               Some Examples.performance_mapping, c2c))
    /\ Hierarchical._load_models Examples.corrupt_category g'
       = (g', Ok (Some Examples.sure_performance, Some Examples.prefers_ram,
                  Some Examples.performance_mapping, c2c)).
Proof.
  eexists. eexists. split; [reflexivity|].
  eapply (loaded_artifacts_stay_cached (App.disk Examples.performance_env)
            Hierarchical.fresh).
  reflexivity.
Defined.

(** X8. [get_category_for_component], called in a fresh process whose
    artifact files all load, answers with the reverse mapping of the
    mapping file, hence with a category that lists the component, and with
    [None] when the mapping file is missing. It raises when a model file
    cannot be loaded, although only the mapping is consulted. *)
Theorem category_lookup_follows_mapping (d : Hierarchical.Disk)
    (component : string) :
  (Spec.readable d ->
   forall m, Hierarchical.MAPPING_PATH d = Hierarchical.Holds m ->
     snd (CategoryLookup.get_category_for_component d Hierarchical.fresh
                                                    component)
     = Ok (Dict.get (Hierarchical.reverse_mapping m) component)
     /\ forall cat,
          Dict.get (Hierarchical.reverse_mapping m) component = Some cat ->
          exists comps, In (cat, comps) m /\ In component comps)
  /\ (Spec.readable d ->
      Hierarchical.MAPPING_PATH d = Hierarchical.Missing ->
      snd (CategoryLookup.get_category_for_component d Hierarchical.fresh
                                                     component)
      = Ok None)
  /\ (Hierarchical.CATEGORY_MODEL_PATH d = Hierarchical.Unloadable
      \/ (Hierarchical.CATEGORY_MODEL_PATH d <> Hierarchical.Unloadable
          /\ Hierarchical.COMPONENT_MODEL_PATH d = Hierarchical.Unloadable) ->
      snd (CategoryLookup.get_category_for_component d Hierarchical.fresh
                                                     component)
      = Raise "load failed").
Proof.
  destruct d as [dc dp dm].
  unfold Spec.readable, CategoryLookup.get_category_for_component,
    Hierarchical._load_models, Hierarchical.fresh.
  cbn [Hierarchical._category_model Hierarchical._component_model
       Hierarchical._category_mapping Hierarchical._component_to_category
       Hierarchical.CATEGORY_MODEL_PATH Hierarchical.COMPONENT_MODEL_PATH
       Hierarchical.MAPPING_PATH].
  split; [|split].
  - intros (H1 & H2 & _) m ->. split.
    + destruct dc; [|contradiction|]; destruct dp; try contradiction;
        cbn [Hierarchical.load_if_absent snd];
        now destruct (Hierarchical.reverse_mapping m).
    + intros cat Hc.
      destruct (reverse_mapping_last_listing_wins_aux m component)
        as [Hs _]. now apply Hs.
  - intros (H1 & H2 & _) ->.
    destruct dc; [|contradiction|]; destruct dp; try contradiction;
      reflexivity.
  - intros [-> | [H1 ->]]; [reflexivity|].
    destruct dc; [reflexivity | contradiction | reflexivity].
Qed.

Lemma category_lookup_follows_mapping_witness :
  Spec.readable (App.disk Examples.performance_env)
  /\ snd (CategoryLookup.get_category_for_component
            (App.disk Examples.performance_env) Hierarchical.fresh
            "SSD Upgrade")
     = Ok (Dict.get (Hierarchical.reverse_mapping Examples.performance_mapping)
                    "SSD Upgrade")
  /\ Hierarchical.CATEGORY_MODEL_PATH Examples.corrupt_category
     = Hierarchical.Unloadable
  /\ snd (CategoryLookup.get_category_for_component
            Examples.corrupt_category Hierarchical.fresh "SSD Upgrade")
     = Raise "load failed".
Proof.
  assert (R : Spec.readable (App.disk Examples.performance_env))
    by (repeat split; discriminate).
  split; [exact R|]. split; [|split; [reflexivity|]].
  - destruct (category_lookup_follows_mapping
                (App.disk Examples.performance_env) "SSD Upgrade")
      as (H & _ & _).
    now destruct (H R Examples.performance_mapping eq_refl) as [E _].
  - destruct (category_lookup_follows_mapping Examples.corrupt_category
                "SSD Upgrade") as (_ & _ & H).
    apply H. now left.
Defined.

(** ** The hierarchical predictor: where the alternatives come from *)

Lemma filter_by_category_spec (listed : list string) (probs : list Q)
    (classes : list string) (i : nat) (fp : list Q) (fc : list string) :
  Hierarchical.filter_by_category listed probs i classes = Ok (fp, fc) ->
  fc = filter (fun c => PyStr.mem c listed) classes
  /\ length fp = length fc
  /\ Forall (fun p => In p probs) fp.
Proof.
  revert i fp fc; induction classes as [|c classes IH]; intros i fp fc; simpl.
  - intros H. injection H as <- <-. repeat split. constructor.
  - destruct (PyStr.mem c listed).
    + destruct (nth_error probs i) as [p|] eqn:E; [|discriminate]. simpl.
      destruct (Hierarchical.filter_by_category listed probs (S i) classes)
        as [[fp' fc']|] eqn:R; [|discriminate]. simpl.
      intros H. injection H as <- <-.
      destruct (IH _ _ _ R) as (H1 & H2 & H3).
      repeat split; [now rewrite H1 | simpl; now rewrite H2 |].
      constructor; [now apply nth_error_In in E | exact H3].
    + apply IH.
Qed.

Lemma candidates_spec (mapping : Hierarchical.Mapping) (pc : string)
    (probs : list Q) (classes : list string) (fp : list Q)
    (fc : list string) :
  Hierarchical.candidates mapping pc probs classes = Ok (fp, fc) ->
  let kept := filter (fun c => PyStr.mem c (Dict.get_default mapping pc []))
                     classes in
  Forall (fun p => In p probs) fp
  /\ ((kept <> [] /\ fc = kept)
      \/ (kept = [] /\ fp = probs /\ fc = classes)).
Proof.
  unfold Hierarchical.candidates. cbv zeta.
  destruct (Hierarchical.filter_by_category _ probs 0 classes)
    as [[fp' fc']|] eqn:R; [|discriminate]. simpl.
  destruct (filter_by_category_spec _ _ _ _ _ _ R) as (H1 & H2 & H3).
  destruct fp' as [|p fp'].
  - intros H. injection H as <- <-. split.
    + apply Forall_forall. intros q Hq. exact Hq.
    + right. destruct fc'; [|discriminate]. now rewrite <- H1.
  - intros H. injection H as <- <-. split; [exact H3|]. left.
    rewrite <- H1. split; [|reflexivity].
    destruct fc'; [discriminate | discriminate].
Qed.

(** X9. The primary label and every alternative returned by the component
    stage are classes of the component model; and as soon as the model
    knows one class listed under the predicted category, all of them are
    listed under that category. *)
Theorem alternatives_stay_in_predicted_category
    (comp_m : Hierarchical.Model) (mapping : Hierarchical.Mapping)
    (c2c : Dict.dict string) (pc : string) (cc : Q) (text : string)
    (rm : bool) (o : Hierarchical.Output) :
  Hierarchical.component_stage comp_m mapping c2c pc cc text rm = Ok o ->
  let listed := Dict.get_default mapping pc [] in
  let labels :=
    (match Hierarchical.out_label o with Some l => [l] | None => [] end
     ++ map fst (Hierarchical.out_top5 o))%list in
  Hierarchical.out_label o <> None
  /\ Forall (fun l => In l (Hierarchical.classes_ comp_m)) labels
  /\ ((exists c, In c (Hierarchical.classes_ comp_m) /\ In c listed) ->
      Forall (fun l => In l listed) labels).
Proof.
  intros H. apply component_stage_inv in H.
  destruct H as (comp_probs & fprobs & fcomps & nprobs & top_idx & label
                 & conf & Hp & Hc & Hn & Ha & Hl & _ & Ht & Hlab & _).
  cbv zeta. rewrite Hlab.
  apply candidates_spec in Hc. cbv zeta in Hc. destruct Hc as [_ Hc].
  apply traverse_picked in Ht.
  assert (Hfrom : Forall (fun l => In l fcomps)
                    ([label] ++ map fst (Hierarchical.out_top5 o))%list).
  { apply Forall_app. split.
    - repeat constructor. now apply nth_error_In in Hl.
    - apply Forall_forall. intros l Hin. apply in_map_iff in Hin.
      destruct Hin as (alt & <- & Hin).
      destruct (picked_in _ _ _ _ _ Ht Hin) as (j & _ & Hj & _).
      now apply nth_error_In in Hj. }
  split; [discriminate|]. split.
  - eapply Forall_impl; [|exact Hfrom]. intros l Hin.
    destruct Hc as [[_ ->] | [_ [_ ->]]]; [|exact Hin].
    now apply filter_In in Hin.
  - intros (c & Hc1 & Hc2).
    destruct Hc as [[_ ->] | [Hk _]].
    + eapply Forall_impl; [|exact Hfrom]. intros l Hin.
      apply filter_In in Hin. destruct Hin as [_ Hin]. now apply mem_In.
    + exfalso.
      assert (Hin : In c (filter
                (fun c => PyStr.mem c (Dict.get_default mapping pc []))
                (Hierarchical.classes_ comp_m))).
      { apply filter_In. split; [exact Hc1 | now apply mem_In]. }
      rewrite Hk in Hin. destruct Hin.
Qed.

Lemma alternatives_stay_in_predicted_category_witness :
  exists o,
    Hierarchical.component_stage Examples.prefers_ram
      Examples.performance_mapping
      (Hierarchical.reverse_mapping Examples.performance_mapping)
      "Performance" 1%Q "games lag" true = Ok o
    /\ Hierarchical.out_label o <> None
    /\ Forall (fun l => In l ["RAM Upgrade"; "SSD Upgrade"; "CPU Upgrade"])
              (map fst (Hierarchical.out_top5 o)).
Proof.
  eexists. split; [vm_compute; reflexivity|].
  destruct (alternatives_stay_in_predicted_category Examples.prefers_ram
              Examples.performance_mapping
              (Hierarchical.reverse_mapping Examples.performance_mapping)
              "Performance" 1%Q "games lag" true _ eq_refl)
    as (H1 & _ & H3).
  split; [exact H1|].
  assert (Hex : exists c,
             In c (Hierarchical.classes_ Examples.prefers_ram)
             /\ In c (Dict.get_default Examples.performance_mapping
                        "Performance" [])).
  { exists "RAM Upgrade". split; [right; now left | now left]. }
  specialize (H3 Hex). apply Forall_app in H3. exact (proj2 H3).
Defined.

(** ** The hierarchical predictor: confidence *)

Lemma argmax_from_spec (l pre : list Q) (bi : nat) (b : Q) :
  nth_error (pre ++ l) bi = Some b ->
  Forall (fun q => (q <= b)%Q) pre ->
  exists p,
    nth_error (pre ++ l) (Py.argmax_from bi b (length pre) l) = Some p
    /\ Forall (fun q => (q <= p)%Q) (pre ++ l).
Proof.
  revert pre bi b; induction l as [|x l IH]; intros pre bi b Hb Hpre.
  - exists b. simpl. split; [exact Hb | now rewrite app_nil_r].
  - cbn [Py.argmax_from].
    replace (pre ++ x :: l)%list with ((pre ++ [x]) ++ l)%list
      in * by now rewrite <- app_assoc.
    replace (S (length pre)) with (length (pre ++ [x])%list)
      by (rewrite length_app; simpl; lia).
    destruct (Py.Qlt_bool b x) eqn:E.
    + apply Qlt_bool_iff in E. apply IH.
      * rewrite nth_error_app1 by (rewrite length_app; simpl; lia).
        now rewrite nth_error_app2, Nat.sub_diag by lia.
      * apply Forall_app. split; [|repeat constructor; apply Qle_refl].
        eapply Forall_impl; [|exact Hpre]. intros q Hq.
        apply Qle_trans with b; [exact Hq | now apply Qlt_le_weak].
    + apply IH; [exact Hb|].
      apply Forall_app. split; [exact Hpre|]. repeat constructor.
      destruct (Qlt_le_dec b x) as [Hlt | Hle]; [|exact Hle].
      apply Qlt_bool_iff in Hlt. congruence.
Qed.

Lemma argmax_spec (v : list Q) (i : nat) :
  Py.argmax v = Some i ->
  exists p, nth_error v i = Some p /\ Forall (fun q => (q <= p)%Q) v.
Proof.
  destruct v as [|x l]; [discriminate|]. simpl. intros H. injection H as <-.
  apply (argmax_from_spec l [x] 0 x); [reflexivity|].
  repeat constructor. apply Qle_refl.
Qed.

Lemma top5_head_is_maximal (probs : list Q) (i0 : nat) (rest : list nat)
    (j : nat) (q : Q) :
  Hierarchical.top5_indices probs = i0 :: rest ->
  nth_error probs j = Some q ->
  exists p, nth_error probs i0 = Some p /\ (q <= p)%Q.
Proof.
  intros Hidx Hj.
  destruct (top5_indices_facts probs) as (_ & _ & Hs & Hout).
  rewrite Hidx in Hs, Hout.
  assert (Hlt : j < length probs) by (apply nth_error_Some; congruence).
  assert (Hcase : j = i0 \/ Spec.ranked_before probs i0 j).
  { destruct (Nat.eq_dec j i0) as [-> | Hne]; [now left|]. right.
    destruct (in_dec Nat.eq_dec j rest) as [Hin | Hnin].
    - apply StronglySorted_inv in Hs. destruct Hs as [_ Hall].
      rewrite Forall_forall in Hall. now apply Hall.
    - apply Hout; [now left | exact Hlt |].
      intros [E | Hin]; [now apply Hne | contradiction]. }
  destruct Hcase as [-> | (p & q' & Hp & Hq & Hord)].
  - exists q. split; [exact Hj | apply Qle_refl].
  - exists p. split; [exact Hp|]. rewrite Hj in Hq. injection Hq as <-.
    destruct Hord as [H | [H _]];
      [now apply Qlt_le_weak | rewrite H; apply Qle_refl].
Qed.

Lemma primary_confidence_nonempty
    (comp_m : Hierarchical.Model) (mapping : Hierarchical.Mapping)
    (c2c : Dict.dict string) (pc : string) (cc : Q) (text : string)
    (rm : bool) (o : Hierarchical.Output) :
  Hierarchical.component_stage comp_m mapping c2c pc cc text rm = Ok o ->
  exists first rest, Hierarchical.out_top5 o = first :: rest.
Proof.
  intros H. apply component_stage_inv in H.
  destruct H as (comp_probs & fprobs & fcomps & nprobs & top_idx & label
                 & conf & _ & _ & _ & _ & _ & Hconf & Ht & _).
  apply traverse_picked in Ht. unfold Spec.picked in Ht.
  apply Forall2_length in Ht.
  destruct (top5_indices_facts nprobs) as (Hlen & _).
  assert (top_idx < length nprobs)
    by (apply nth_error_Some; congruence).
  destruct (Hierarchical.out_top5 o) as [|first rest];
    [simpl in Ht; lia | now exists first, rest].
Qed.

(** X10. When the component stage succeeds, the returned confidence is the
    category confidence times the largest renormalised probability; no
    alternative has a higher probability than that, and the first
    alternative has exactly that probability (it may carry another label
    than the primary when probabilities tie). *)
Theorem primary_confidence_is_the_maximum
    (comp_m : Hierarchical.Model) (mapping : Hierarchical.Mapping)
    (c2c : Dict.dict string) (pc : string) (cc : Q) (text : string)
    (rm : bool) (o : Hierarchical.Output) :
  Hierarchical.component_stage comp_m mapping c2c pc cc text rm = Ok o ->
  exists comp_probs fprobs fcomps nprobs conf first rest,
    Hierarchical.predict_proba comp_m text = Ok comp_probs
    /\ Hierarchical.candidates mapping pc comp_probs
         (Hierarchical.classes_ comp_m) = Ok (fprobs, fcomps)
    /\ Hierarchical.normalize fprobs = Ok nprobs
    /\ Hierarchical.out_confidence o = (cc * conf)%Q
    /\ In conf nprobs
    /\ Forall (fun q => (q <= conf)%Q) nprobs
    /\ Forall (fun alt => (snd alt <= conf)%Q) (Hierarchical.out_top5 o)
    /\ Hierarchical.out_top5 o = first :: rest
    /\ (snd first == conf)%Q.
Proof.
  intros H. apply component_stage_inv in H.
  destruct H as (comp_probs & fprobs & fcomps & nprobs & top_idx & label
                 & conf & Hp & Hc & Hn & Ha & Hl & Hconf & Ht & _ & Hoc & _).
  apply argmax_spec in Ha. destruct Ha as (p & Hp' & Hmax).
  rewrite Hconf in Hp'. injection Hp' as <-.
  apply traverse_picked in Ht.
  assert (Halts : Forall (fun alt => (snd alt <= conf)%Q)
                         (Hierarchical.out_top5 o)).
  { apply Forall_forall. intros alt Hin.
    destruct (picked_in _ _ _ _ _ Ht Hin) as (j & _ & _ & Hj).
    rewrite Forall_forall in Hmax. apply Hmax.
    now apply nth_error_In in Hj. }
  destruct (Hierarchical.top5_indices nprobs) as [|i0 idx] eqn:Hidx.
  { exfalso. destruct (top5_indices_facts nprobs) as (Hlen & _).
    rewrite Hidx in Hlen. cbn [length] in Hlen.
    assert (top_idx < length nprobs)
      by (apply nth_error_Some; congruence).
    lia. }
  destruct (Hierarchical.out_top5 o) as [|first rest] eqn:Etop;
    [inversion Ht|].
  assert (Hf : nth_error nprobs i0 = Some (snd first))
    by (inversion Ht as [|? ? ? ? [_ Hf] _]; exact Hf).
  exists comp_probs, fprobs, fcomps, nprobs, conf, first, rest.
  repeat split; try assumption.
  - now apply nth_error_In in Hconf.
  - apply Forall_inv in Halts.
    destruct (top5_head_is_maximal nprobs i0 idx top_idx conf Hidx Hconf)
      as (p & Hp0 & Hle).
    rewrite Hf in Hp0. injection Hp0 as <-.
    now apply Qle_antisym.
Qed.

Lemma primary_confidence_is_the_maximum_witness :
  exists o first rest,
    Hierarchical.component_stage Examples.tie_cpu_gpu Examples.two_components
      (Hierarchical.reverse_mapping Examples.two_components)
      "Performance" 1%Q "pc slow" true = Ok o
    /\ Hierarchical.out_label o = Some "CPU Upgrade"
    /\ Hierarchical.out_top5 o = first :: rest
    /\ fst first = "GPU Upgrade"
    /\ Forall (fun alt => (snd alt <= snd first)%Q)
              (Hierarchical.out_top5 o).
Proof.
  eexists. eexists. eexists. split; [vm_compute; reflexivity|].
  split; [reflexivity|]. split; [reflexivity|]. split; [reflexivity|].
  destruct (primary_confidence_is_the_maximum Examples.tie_cpu_gpu
              Examples.two_components
              (Hierarchical.reverse_mapping Examples.two_components)
              "Performance" 1%Q "pc slow" true _ eq_refl)
    as (cp & fp & fc & np & conf & f & r & _ & _ & _ & _ & _ & _ & Hall
        & E & Heq).
  injection E as <- _.
  eapply Forall_impl; [|exact Hall]. intros alt Hle. cbv beta in *.
  now rewrite Heq.
Defined.

Lemma sum_nonneg (l : list Q) :
  Forall (fun p => (0 <= p)%Q) l -> (0 <= Py.sum l)%Q.
Proof.
  induction 1 as [|x l Hx _ IH].
  - unfold Py.sum. simpl. apply Qle_refl.
  - rewrite sum_cons. rewrite <- (Qplus_0_r 0).
    now apply Qplus_le_compat.
Qed.

Lemma sum_bounds_member (l : list Q) (p : Q) :
  Forall (fun p => (0 <= p)%Q) l -> In p l -> (p <= Py.sum l)%Q.
Proof.
  induction 1 as [|x l Hx Hl IH]; intros Hin; [destruct Hin|].
  rewrite sum_cons. destruct Hin as [-> | Hin].
  - rewrite <- (Qplus_0_r p) at 1.
    apply Qplus_le_compat; [apply Qle_refl | now apply sum_nonneg].
  - rewrite <- (Qplus_0_l p).
    apply Qplus_le_compat; [exact Hx | now apply IH].
Qed.

Lemma normalize_bounds (fp np : list Q) :
  Forall (fun p => (0 <= p)%Q) fp ->
  Hierarchical.normalize fp = Ok np ->
  Forall (fun q => (0 <= q)%Q /\ (q <= 1)%Q) np.
Proof.
  intros Hpos. unfold Hierarchical.normalize.
  destruct (Py.Qlt_bool 0 (Py.sum fp)) eqn:E.
  - apply Qlt_bool_iff in E. intros H. injection H as <-.
    apply Forall_forall. intros q Hq. apply in_map_iff in Hq.
    destruct Hq as (p & <- & Hp). split.
    + apply Qle_shift_div_l; [exact E|]. rewrite Qmult_0_l.
      rewrite Forall_forall in Hpos. now apply Hpos.
    + apply Qle_shift_div_r; [exact E|]. rewrite Qmult_1_l.
      now apply sum_bounds_member.
  - destruct fp as [|p fp]; [discriminate|]. intros H. injection H as <-.
    apply Forall_forall. intros q Hq.
    apply (repeat_spec (length (p :: fp))
             (1 / Hierarchical.Q_of_nat (length (p :: fp)))%Q q) in Hq.
    subst q. set (n := length (p :: fp)).
    assert (Hn : (1 <= Hierarchical.Q_of_nat n)%Q).
    { unfold Hierarchical.Q_of_nat, Qle. simpl. lia. }
    assert (Hn0 : (0 < Hierarchical.Q_of_nat n)%Q)
      by (apply Qlt_le_trans with 1%Q; [reflexivity | exact Hn]).
    split.
    + apply Qle_shift_div_l; [exact Hn0|]. rewrite Qmult_0_l. discriminate.
    + apply Qle_shift_div_r; [exact Hn0|]. now rewrite Qmult_1_l.
Qed.

(** X11. When the component model's probabilities are non-negative and the
    category confidence is non-negative, the combined confidence returned
    by the component stage lies between 0 and the category confidence, and
    every alternative carries a probability between 0 and 1. *)
Theorem combined_confidence_is_bounded
    (comp_m : Hierarchical.Model) (mapping : Hierarchical.Mapping)
    (c2c : Dict.dict string) (pc : string) (cc : Q) (text : string)
    (rm : bool) (o : Hierarchical.Output) (comp_probs : list Q) :
  Hierarchical.component_stage comp_m mapping c2c pc cc text rm = Ok o ->
  Hierarchical.predict_proba comp_m text = Ok comp_probs ->
  Forall (fun p => (0 <= p)%Q) comp_probs ->
  (0 <= cc)%Q ->
  (0 <= Hierarchical.out_confidence o)%Q
  /\ (Hierarchical.out_confidence o <= cc)%Q
  /\ Forall (fun alt => (0 <= snd alt)%Q /\ (snd alt <= 1)%Q)
            (Hierarchical.out_top5 o).
Proof.
  intros H Hpp Hpos Hcc. apply component_stage_inv in H.
  destruct H as (comp_probs' & fprobs & fcomps & nprobs & top_idx & label
                 & conf & Hp & Hc & Hn & _ & _ & Hconf & Ht & _ & Hoc & _).
  rewrite Hpp in Hp. injection Hp as <-.
  apply candidates_spec in Hc. cbv zeta in Hc. destruct Hc as [Hsub _].
  assert (Hfpos : Forall (fun p => (0 <= p)%Q) fprobs).
  { apply Forall_forall. intros p Hin. rewrite Forall_forall in Hsub, Hpos.
    now apply Hpos, Hsub. }
  pose proof (normalize_bounds _ _ Hfpos Hn) as Hb.
  rewrite Forall_forall in Hb.
  destruct (Hb conf (nth_error_In _ _ Hconf)) as [H0 H1].
  rewrite Hoc. split; [now apply Qmult_le_0_compat|]. split.
  - assert (Hm : (conf * cc <= 1 * cc)%Q)
      by now apply Qmult_le_compat_r.
    assert (E1 : (cc * conf == conf * cc)%Q) by ring.
    assert (E2 : (1 * cc == cc)%Q) by ring.
    rewrite E1. now rewrite E2 in Hm.
  - apply traverse_picked in Ht. apply Forall_forall. intros alt Hin.
    destruct (picked_in _ _ _ _ _ Ht Hin) as (j & _ & _ & Hj).
    apply Hb. now apply nth_error_In in Hj.
Qed.

Lemma combined_confidence_is_bounded_witness :
  exists o,
    Hierarchical.component_stage Examples.prefers_ram
      Examples.performance_mapping
      (Hierarchical.reverse_mapping Examples.performance_mapping)
      "Performance" (1 # 2)%Q "games lag" true = Ok o
    /\ Forall (fun p => (0 <= p)%Q)
              [(1 # 10)%Q; (6 # 10)%Q; (3 # 10)%Q; 0%Q; 0%Q]
    /\ (0 <= 1 # 2)%Q
    /\ (0 <= Hierarchical.out_confidence o)%Q
    /\ (Hierarchical.out_confidence o <= 1 # 2)%Q.
Proof.
  assert (Hpos : Forall (fun p => (0 <= p)%Q)
                   [(1 # 10)%Q; (6 # 10)%Q; (3 # 10)%Q; 0%Q; 0%Q])
    by (repeat constructor; discriminate).
  eexists. split; [vm_compute; reflexivity|].
  split; [exact Hpos|]. split; [discriminate|].
  destruct (combined_confidence_is_bounded Examples.prefers_ram
              Examples.performance_mapping
              (Hierarchical.reverse_mapping Examples.performance_mapping)
              "Performance" (1 # 2)%Q "games lag" true _ _ eq_refl eq_refl
              Hpos ltac:(discriminate))
    as (H1 & H2 & _).
  split; [exact H1 | exact H2].
Defined.

Lemma component_stage_grouped (comp_m : Hierarchical.Model)
    (mapping : Hierarchical.Mapping) (c2c : Dict.dict string)
    (pc : string) (cc : Q) (text : string) (rm : bool)
    (o : Hierarchical.Output) :
  Hierarchical.component_stage comp_m mapping c2c pc cc text rm = Ok o ->
  Hierarchical.out_grouped o
  = if rm
    then MultiComponent.group_by_category (Hierarchical.out_top5 o) c2c
    else [].
Proof.
  unfold Hierarchical.component_stage.
  destruct (Hierarchical.predict_proba comp_m text); [|discriminate]. simpl.
  destruct (Hierarchical.candidates _ _ _ _) as [[fp fc]|]; [|discriminate].
  simpl.
  destruct (Hierarchical.normalize fp) as [np|]; [|discriminate]. simpl.
  destruct (Py.argmax np); [|discriminate]. simpl.
  destruct (nth_error fc n); [|discriminate]. simpl.
  destruct (nth_error np n); [|discriminate]. simpl.
  destruct (traverse _ _); [|discriminate]. simpl.
  intros H. injection H as <-. reflexivity.
Qed.

(** X12. With [return_multiple] set, the grouping returned by the
    component stage holds exactly its top-5 alternatives: the buckets
    together are a rearrangement of the alternatives, under distinct
    category keys. Without it the grouping is empty. *)
Theorem grouping_holds_exactly_the_alternatives
    (comp_m : Hierarchical.Model) (mapping : Hierarchical.Mapping)
    (c2c : Dict.dict string) (pc : string) (cc : Q) (text : string)
    (rm : bool) (o : Hierarchical.Output) :
  Hierarchical.component_stage comp_m mapping c2c pc cc text rm = Ok o ->
  (rm = true ->
   Permutation (concat (map snd (Hierarchical.out_grouped o)))
               (Hierarchical.out_top5 o)
   /\ NoDup (map fst (Hierarchical.out_grouped o))
   /\ Hierarchical.out_grouped o <> [])
  /\ (rm = false -> Hierarchical.out_grouped o = []).
Proof.
  intros H. pose proof (component_stage_grouped _ _ _ _ _ _ _ _ H) as G.
  split; intros ->; [|exact G].
  rewrite G. unfold MultiComponent.group_by_category.
  destruct (group_fold_inv c2c (Hierarchical.out_top5 o) [])
    as (Hn & _ & Hperm); [constructor | intros k l [] |].
  cbv zeta in Hn, Hperm. simpl in Hperm.
  assert (P : Permutation
                (concat (map snd
                   (Dict.map_values (Py.sort_desc snd)
                      (fold_left
                         (fun grouped cc0 =>
                            Dict.set grouped
                              (Dict.get_default c2c (fst cc0) "Other")
                              (Dict.get_default grouped
                                 (Dict.get_default c2c (fst cc0) "Other") []
                               ++ [cc0])%list)
                         (Hierarchical.out_top5 o) []))))
                (Hierarchical.out_top5 o)).
  { rewrite map_values_sort_concat. exact Hperm. }
  split; [exact P|]. split; [now rewrite map_values_keys|].
  intros E. rewrite E in P. simpl in P.
  apply Permutation_nil in P.
  destruct (primary_confidence_nonempty _ _ _ _ _ _ _ _ H) as (f & r & Ef).
  rewrite Ef in P. discriminate.
Qed.

Lemma grouping_holds_exactly_the_alternatives_witness :
  exists o,
    Hierarchical.component_stage Examples.prefers_ram
      Examples.performance_mapping
      (Hierarchical.reverse_mapping Examples.performance_mapping)
      "Performance" 1%Q "games lag" true = Ok o
    /\ Permutation (concat (map snd (Hierarchical.out_grouped o)))
                   (Hierarchical.out_top5 o).
Proof.
  eexists. split; [vm_compute; reflexivity|].
  destruct (grouping_holds_exactly_the_alternatives Examples.prefers_ram
              Examples.performance_mapping
              (Hierarchical.reverse_mapping Examples.performance_mapping)
              "Performance" 1%Q "games lag" true _ eq_refl) as [H _].
  exact (proj1 (H eq_refl)).
Defined.

(** ** The recommend endpoint: gating *)

Lemma rules_table_confident :
  forallb (fun r => Qle_bool (88 # 100)%Q (Rules.confidence r)
                    && Qle_bool (Rules.confidence r) (96 # 100)%Q)
          Rules.RULES = true.
Proof. vm_compute. reflexivity. Qed.

Lemma blank_matches_no_rule : Rules.first_match "" Rules.RULES = None.
Proof. vm_compute. reflexivity. Qed.

Lemma match_rule_strip (text : string) :
  Rules.match_rule (PyStr.strip text) = Rules.match_rule text.
Proof.
  unfold Rules.match_rule, Rules.match_rule_in.
  now rewrite <- strip_lower, strip_idem.
Qed.

Lemma matched_text_is_not_blank (text : string) (res : Rules.RuleResult) :
  Rules.match_rule text = Some res ->
  PyStr.truthy (PyStr.strip text) = true.
Proof.
  intros H. destruct (PyStr.strip text) eqn:E; [|reflexivity].
  exfalso. unfold Rules.match_rule, Rules.match_rule_in in H.
  rewrite strip_lower, E in H. cbn [PyStr.lower] in H.
  rewrite blank_matches_no_rule in H. discriminate.
Qed.

(** X13. When the rule modules are imported and a rule matches the text,
    the recommend endpoint answers from the rule alone: label, confidence
    and source [rule], the rule's label first among the alternatives,
    followed by up to four related components at 0.8 times the
    confidence. The hierarchical and flat stages are not invoked, no model
    is loaded, and since every rule's confidence is at least 0.88 the
    response is neither low-confidence nor a feedback request and nothing
    is written to the feedback store. *)
Theorem rule_match_short_circuits (e : App.Env) (st : App.State)
    (text lbl expl : string) (conf : Q) (related : list string) :
  App.HIERARCHICAL_AVAILABLE e = true ->
  Rules.match_rule text = Some (lbl, conf, expl, related) ->
  App.product_need_recommend e st text
  = (App.mkState (App.globals st) (App.feedback_csv st)
                 (App.trace st ++ [App.RuleStage])%list,
     App.Returns
       (App.mkResponse (Some lbl) None conf
          (App.mkAlt lbl conf (Some expl)
           :: map (fun rc => App.mkAlt rc (conf * (8 # 10))%Q None)
                  (firstn 4 related))
          false "rule" false None)).
Proof.
  intros Hav M.
  pose proof (matched_text_is_not_blank _ _ M) as Hnb.
  destruct (match_rule_from_table _ _ M) as (r & Hin & E).
  pose proof rules_table_confident as Hc. rewrite forallb_forall in Hc.
  specialize (Hc r Hin). apply andb_true_iff in Hc. destruct Hc as [Hlo _].
  apply Qle_bool_iff in Hlo.
  unfold Rules.package in E. injection E as El Ec Ee Er.
  assert (Hconf : (88 # 100 <= conf)%Q) by now rewrite Ec.
  assert (L4 : Py.Qlt_bool conf App.MEDIUM_CONF_THRESHOLD = false).
  { destruct (Py.Qlt_bool conf App.MEDIUM_CONF_THRESHOLD) eqn:B;
      [|reflexivity].
    apply Qlt_bool_iff in B. exfalso.
    apply (Qlt_irrefl conf).
    apply Qlt_le_trans with (4 # 10)%Q; [exact B|].
    apply Qle_trans with (88 # 100)%Q; [discriminate | exact Hconf]. }
  assert (L5 : Py.Qlt_bool conf (App.LOW_CONF_THRESHOLD e) = false).
  { unfold App.LOW_CONF_THRESHOLD, Feedback.LOW_CONFIDENCE_THRESHOLD.
    rewrite Hav.
    destruct (Py.Qlt_bool conf (5 # 10)) eqn:B; [|reflexivity].
    apply Qlt_bool_iff in B. exfalso.
    apply (Qlt_irrefl conf).
    apply Qlt_le_trans with (5 # 10)%Q; [exact B|].
    apply Qle_trans with (88 # 100)%Q; [discriminate | exact Hconf]. }
  unfold App.product_need_recommend. rewrite Hnb. cbn [negb].
  unfold App.rule_stage. rewrite Hav, match_rule_strip, M.
  unfold App.hierarchical_stage, App.flat_stage.
  cbn [App.final_label App.final_conf App.alternatives_list App.loc_source
       App.grouped_by_category_list].
  rewrite L4, L5. cbn [andb].
  unfold App.ensure_primary, App.labels. cbn [map App.label].
  unfold PyStr.mem at 1. cbn [existsb]. rewrite String.eqb_refl. cbn [orb].
  destruct (App.product_need_model e); unfold App.log;
    cbn [App.globals App.feedback_csv App.trace];
    (rewrite firstn_all2;
     [reflexivity
     | cbn [length]; rewrite length_map;
       pose proof (firstn_le_length 4 related); lia]).
Qed.

Lemma rule_match_short_circuits_witness :
  App.HIERARCHICAL_AVAILABLE Examples.performance_env = true
  /\ Rules.match_rule "No power at all"
     = Some ("PSU Upgrade", (95 # 100)%Q,
             "No power usually means PSU failure.",
             ["Power Cable Replacement"])
  /\ App.product_need_recommend Examples.performance_env Examples.start
       "No power at all"
     = (App.mkState Hierarchical.fresh None [App.RuleStage],
        App.Returns
          (App.mkResponse (Some "PSU Upgrade") None (95 # 100)%Q
             [App.mkAlt "PSU Upgrade" (95 # 100)%Q
                (Some "No power usually means PSU failure.");
              App.mkAlt "Power Cable Replacement"
                ((95 # 100) * (8 # 10))%Q None]
             false "rule" false None)).
Proof.
  split; [reflexivity|]. split; [vm_compute; reflexivity|].
  apply (rule_match_short_circuits Examples.performance_env Examples.start
           "No power at all" "PSU Upgrade"
           "No power usually means PSU failure." (95 # 100)%Q
           ["Power Cable Replacement"]).
  - reflexivity.
  - vm_compute. reflexivity.
Defined.

(** X14. A hierarchical stage that raises (an artifact that cannot be
    loaded) does not fail the request: with no matching rule and no flat
    model, the endpoint returns the null prediction, with confidence 0,
    source [none], [ask_feedback] set and no alternatives, and leaves the
    feedback store untouched. *)
Theorem failing_hierarchical_stage_degrades (e : App.Env) (st : App.State)
    (text msg : string) (g' : Hierarchical.Globals) :
  PyStr.truthy (PyStr.strip text) = true ->
  App.HIERARCHICAL_AVAILABLE e = true ->
  Rules.match_rule text = None ->
  Hierarchical.predict_hierarchical (App.disk e) (App.globals st)
    (PyStr.strip text) true = (g', Raise msg) ->
  App.product_need_model e = None ->
  App.product_need_recommend e st text
  = (App.mkState g' (App.feedback_csv st)
       (App.trace st ++ [App.RuleStage; App.HierarchicalStage])%list,
     App.Returns
       (App.mkResponse None None 0%Q [] true "none" true None)).
Proof.
  intros Hnb Hav M P Hflat.
  unfold App.product_need_recommend. rewrite Hnb. cbn [negb].
  unfold App.rule_stage. rewrite Hav, match_rule_strip, M.
  unfold App.hierarchical_stage, App.initial, App.log.
  cbn [App.final_label App.globals App.feedback_csv App.trace].
  rewrite Hav, P.
  unfold App.flat_stage. cbn [App.final_label]. rewrite Hflat.
  cbn [App.final_label]. unfold App.no_prediction.
  now rewrite <- app_assoc.
Qed.

Lemma failing_hierarchical_stage_degrades_witness :
  let e := App.mkEnv true Examples.corrupt_category None
                     Feedback.Completes Examples.four_decimals
                     "2024-01-01T00:00:00" in
  PyStr.truthy (PyStr.strip "xyz unrelated gibberish") = true
  /\ Rules.match_rule "xyz unrelated gibberish" = None
  /\ Hierarchical.predict_hierarchical Examples.corrupt_category
       Hierarchical.fresh (PyStr.strip "xyz unrelated gibberish") true
     = (Hierarchical.fresh, Raise "load failed")
  /\ App.product_need_recommend e Examples.start "xyz unrelated gibberish"
     = (App.mkState Hierarchical.fresh None
          [App.RuleStage; App.HierarchicalStage],
        App.Returns
          (App.mkResponse None None 0%Q [] true "none" true None)).
Proof.
  cbv zeta. split; [reflexivity|]. split; [vm_compute; reflexivity|].
  split; [reflexivity|].
  apply (failing_hierarchical_stage_degrades
           (App.mkEnv true Examples.corrupt_category None
                      Feedback.Completes Examples.four_decimals
                      "2024-01-01T00:00:00")
           Examples.start "xyz unrelated gibberish" "load failed"
           Hierarchical.fresh).
  - reflexivity.
  - reflexivity.
  - vm_compute. reflexivity.
  - reflexivity.
  - reflexivity.
Defined.

Lemma save_feedback_appends (w : Feedback.Write) (fmt : Q -> string)
    (now : string) (f : Feedback.Csv) (text : string)
    (predicted : option string) (conf : Q) (user_correct : option string)
    (src : string) :
  exists added,
    Feedback.lines
      (fst (Feedback.save_feedback w fmt now f text predicted conf
              user_correct src))
    = (Feedback.lines f ++ added)%list
    /\ length added <= match f with None => 2 | Some _ => 1 end.
Proof.
  unfold Feedback.save_feedback.
  destruct w as [| |written]; cbn [fst Feedback.lines].
  - eexists. split; [reflexivity|]. destruct f; cbn; lia.
  - exists []. split; [now rewrite app_nil_r | destruct f; cbn; lia].
  - eexists. split; [reflexivity|]. rewrite length_firstn.
    destruct f; cbn [app length]; lia.
Qed.

Lemma recommend_csv_cases (e : App.Env) (st : App.State) (text : string) :
  let st' := fst (App.product_need_recommend e st text) in
  App.feedback_csv st' = App.feedback_csv st
  \/ exists w fmt now t predicted conf correction src,
       App.feedback_csv st'
       = fst (Feedback.save_feedback w fmt now (App.feedback_csv st) t
                predicted conf correction src).
Proof.
  cbv zeta. unfold App.product_need_recommend.
  destruct (negb (PyStr.truthy (PyStr.strip text))); [now left|].
  destruct (App.rule_stage e st (PyStr.strip text)) as [st1 loc1] eqn:R.
  destruct (App.hierarchical_stage e st1 (PyStr.strip text) loc1)
    as [st2 loc2] eqn:H.
  destruct (App.flat_stage e st2 (PyStr.strip text) loc2)
    as [st3 loc3] eqn:F.
  destruct (rule_stage_inv _ _ _ _ _ R) as [I1 C1].
  destruct (hierarchical_stage_inv _ _ _ _ _ _ H I1) as [I2 C2].
  destruct (flat_stage_inv _ _ _ _ _ _ F I2) as [I3 C3].
  assert (C : App.feedback_csv st3 = App.feedback_csv st) by congruence.
  destruct (App.final_label loc3) as [l|]; [|now left].
  cbn [fst].
  destruct (Py.Qlt_bool (App.final_conf loc3) (App.LOW_CONF_THRESHOLD e)
            && App.HIERARCHICAL_AVAILABLE e); [|now left].
  right. unfold App.log. cbn [App.feedback_csv App.globals App.trace].
  rewrite C.
  destruct (Feedback.save_feedback _ _ _ _ _ _ _ _ _) as [csv ok] eqn:S.
  cbn [App.feedback_csv]. do 8 eexists. rewrite S. reflexivity.
Qed.

(** X15. The recommend endpoint only ever appends to the feedback store:
    whatever the request and its outcome, the rows present before the call
    are still there, in order, and at most one row has been added after
    them. *)
Theorem recommend_only_appends_feedback (e : App.Env) (st : App.State)
    (text : string) :
  exists added,
    Feedback.rows
      (App.feedback_csv (fst (App.product_need_recommend e st text)))
    = (Feedback.rows (App.feedback_csv st) ++ added)%list
    /\ length added <= 1.
Proof.
  destruct (recommend_csv_cases e st text)
    as [E | (w & fmt & now & t & p & conf & c & src & E)];
    cbv zeta in E; rewrite E.
  - exists []. split; [now rewrite app_nil_r | simpl; lia].
  - destruct (save_feedback_appends w fmt now (App.feedback_csv st) t p
                conf c src) as (added & Hl & Hn).
    unfold Feedback.rows. rewrite Hl.
    destruct (App.feedback_csv st) as [[|header held]|];
      cbn [Feedback.lines app tl] in *.
    + exists (tl added). split; [reflexivity|].
      destruct added; cbn [tl length] in *; lia.
    + exists added. split; [reflexivity | exact Hn].
    + exists (tl added). split; [reflexivity|].
      destruct added; cbn [tl length] in *; lia.
Qed.

(** X16. In every response of the recommend endpoint the flags agree with
    the confidence: [is_low_confidence] (below 0.4) implies
    [ask_feedback] (below 0.5); a response that does not ask for feedback
    carries a label with confidence at least 0.5; and a response without
    label is the null prediction, which sets both flags. *)
Theorem response_flags_follow_confidence (e : App.Env) (st st' : App.State)
    (text : string) (r : App.ProductNeedResponse) :
  App.product_need_recommend e st text = (st', App.Returns r) ->
  (App.is_low_confidence r = true -> App.ask_feedback r = true)
  /\ (App.ask_feedback r = false ->
      App.component r <> None /\ (5 # 10 <= App.resp_confidence r)%Q)
  /\ (App.ask_feedback r = true ->
      App.component r = None \/ (App.resp_confidence r < 5 # 10)%Q)
  /\ (App.component r = None -> r = App.no_prediction).
Proof.
  unfold App.product_need_recommend.
  destruct (negb (PyStr.truthy (PyStr.strip text))); [discriminate|].
  destruct (App.rule_stage e st (PyStr.strip text)) as [st1 loc1].
  destruct (App.hierarchical_stage e st1 (PyStr.strip text) loc1)
    as [st2 loc2].
  destruct (App.flat_stage e st2 (PyStr.strip text) loc2) as [st3 loc3].
  destruct (App.final_label loc3) as [l|].
  2: { intros H. injection H as _ <-. unfold App.no_prediction.
       cbn [App.is_low_confidence App.ask_feedback App.component].
       repeat split; try reflexivity; try discriminate. now left. }
  intros H. injection H as _ <-.
  cbn [App.is_low_confidence App.ask_feedback App.component
       App.resp_confidence].
  assert (T : App.LOW_CONF_THRESHOLD e = (5 # 10)%Q)
    by (unfold App.LOW_CONF_THRESHOLD; now destruct (App.HIERARCHICAL_AVAILABLE e)).
  rewrite T. unfold App.MEDIUM_CONF_THRESHOLD.
  split; [|split; [|split]].
  - intros H. apply Qlt_bool_iff in H. apply Qlt_bool_iff.
    apply Qlt_trans with (4 # 10)%Q; [exact H | reflexivity].
  - intros H. split; [discriminate|].
    destruct (Qlt_le_dec (App.final_conf loc3) (5 # 10)) as [Hlt | Hle];
      [|exact Hle].
    apply Qlt_bool_iff in Hlt. congruence.
  - intros H. right. now apply Qlt_bool_iff.
  - discriminate.
Qed.

Lemma response_flags_follow_confidence_witness :
  exists st' r,
    App.product_need_recommend Examples.unsure_env Examples.start
      "games lag" = (st', App.Returns r)
    /\ App.is_low_confidence r = true
    /\ App.ask_feedback r = true.
Proof.
  eexists. eexists. split; [vm_compute; reflexivity|].
  split; [reflexivity|].
  match goal with
  | |- App.ask_feedback ?r = true =>
      destruct (response_flags_follow_confidence Examples.unsure_env
                  Examples.start _ "games lag" r
                  ltac:(vm_compute; reflexivity)) as [H _]
  end.
  apply H. reflexivity.
Defined.

(** ** The flat model *)

Lemma argsort_rev_head_is_maximal (probs : list Q) (i0 : nat)
    (rest : list nat) (j : nat) (q : Q) :
  rev (Py.argsort probs) = i0 :: rest ->
  nth_error probs j = Some q ->
  exists p, nth_error probs i0 = Some p /\ (q <= p)%Q.
Proof.
  intros Hidx Hj.
  pose proof (argsort_rev_ranked probs) as Hs. rewrite Hidx in Hs.
  assert (Hin : In j (i0 :: rest)).
  { rewrite <- Hidx. apply argsort_rev_in. apply nth_error_Some. congruence. }
  destruct Hin as [<- | Hin].
  - exists q. split; [exact Hj | apply Qle_refl].
  - apply StronglySorted_inv in Hs. destruct Hs as [_ Hall].
    rewrite Forall_forall in Hall.
    destruct (Hall j Hin) as (p & q' & Hp & Hq & Hord).
    exists p. split; [exact Hp|]. rewrite Hj in Hq. injection Hq as <-.
    destruct Hord as [H | [H _]];
      [now apply Qlt_le_weak | rewrite H; apply Qle_refl].
Qed.

(** X17. [predict_product_need] answers [(None, 0.0, [])] when there is no
    model or the prediction fails. Otherwise its label is a class of the
    model, its confidence is the largest probability the model gives, and
    the top-3 list starts with that label and confidence, has
    min(3, number of probabilities) entries and is in non-increasing
    order. *)
Theorem flat_prediction_is_the_most_probable_class
    (m : option Hierarchical.Model) (text : string) :
  let '(label, conf, top3) := App.predict_product_need m text in
  (label = None -> conf = 0%Q /\ top3 = [])
  /\ (forall l, label = Some l ->
        exists model probs,
          m = Some model
          /\ Hierarchical.predict_proba model text = Ok probs
          /\ In l (Hierarchical.classes_ model)
          /\ In conf probs
          /\ Forall (fun q => (q <= conf)%Q) probs
          /\ hd_error top3 = Some (l, conf)
          /\ length top3 = min 3 (length probs)
          /\ Spec.non_increasing snd top3).
Proof.
  destruct (App.predict_product_need m text) as [[label conf] top3] eqn:P.
  split.
  - intros ->. unfold App.predict_product_need in P.
    destruct m as [model|]; [|now injection P as <- <-].
    destruct (Hierarchical.predict_proba model text) as [probs|];
      [|now injection P as <- <-]. simpl in P.
    destruct (traverse _ _) as [t3|]; [|now injection P as <- <-].
    simpl in P. destruct t3 as [|b t3]; simpl in P;
      [now injection P as <- <- | discriminate].
  - intros l ->. destruct m as [model|]; [|discriminate].
    destruct (predict_product_need_inv _ _ _ _ _ P)
      as (probs & rest & E1 & E2 & ->).
    exists model, probs. split; [reflexivity|]. split; [exact E1|].
    pose proof (traverse_picked _ _ _ _ E2) as P3.
    destruct (flat_top_shape _ _ _ _ P3) as [Hs _].
    destruct (rev (Py.argsort probs)) as [|i0 idx] eqn:Hidx;
      [inversion P3|].
    assert (Hhead : nth_error (Hierarchical.classes_ model) i0 = Some l
                    /\ nth_error probs i0 = Some conf).
    { cbn [firstn] in P3. inversion P3 as [|? ? ? ? [Hc Hp] _]. now split. }
    destruct Hhead as [Hc Hp].
    split; [now apply nth_error_In in Hc|].
    split; [now apply nth_error_In in Hp|]. split.
    { apply Forall_forall. intros q Hq. apply In_nth_error in Hq.
      destruct Hq as (j & Hj).
      destruct (argsort_rev_head_is_maximal probs i0 idx j q Hidx Hj)
        as (p & Hp' & Hle).
      rewrite Hp in Hp'. now injection Hp' as <-. }
    split; [reflexivity|]. split; [|exact Hs].
    unfold Spec.picked in P3. apply Forall2_length in P3. rewrite <- P3.
    rewrite length_firstn. f_equal. rewrite <- Hidx.
    rewrite length_rev, (Permutation_length (argsort_perm probs)).
    apply length_seq.
Qed.

Lemma flat_prediction_is_the_most_probable_class_witness :
  App.predict_product_need (Some Examples.prefers_ram) "pc slow"
  = (Some "RAM Upgrade", (6 # 10)%Q,
     [("RAM Upgrade", (6 # 10)%Q); ("SSD Upgrade", (3 # 10)%Q);
      ("CPU Upgrade", (1 # 10)%Q)])
  /\ Forall (fun q => (q <= 6 # 10)%Q)
            [(1 # 10)%Q; (6 # 10)%Q; (3 # 10)%Q; 0%Q; 0%Q].
Proof.
  assert (E : App.predict_product_need (Some Examples.prefers_ram) "pc slow"
              = (Some "RAM Upgrade", (6 # 10)%Q,
                 [("RAM Upgrade", (6 # 10)%Q); ("SSD Upgrade", (3 # 10)%Q);
                  ("CPU Upgrade", (1 # 10)%Q)]))
    by (vm_compute; reflexivity).
  split; [exact E|].
  pose proof (flat_prediction_is_the_most_probable_class
                (Some Examples.prefers_ram) "pc slow") as H.
  rewrite E in H. destruct H as [_ H].
  destruct (H _ eq_refl) as (model & probs & Hm & Hp & _ & _ & Hall & _).
  injection Hm as <-. injection Hp as <-. exact Hall.
Defined.

(** ** The keyword rules for error types *)

Lemma if_elim {A} (P : A -> Prop) (b : bool) (x y : A) :
  P x -> P y -> P (if b then x else y).
Proof. now destruct b. Qed.

Ltac labelled_shape :=
  split; [discriminate|];
  intros l E; injection E as <-;
  split; [reflexivity|];
  split; [apply Qle_bool_iff; reflexivity|];
  split; [apply Qle_bool_iff; reflexivity|];
  split; [reflexivity|];
  split; [repeat (constructor; try reflexivity)|];
  split; [repeat (constructor;
                  try (cbn [snd]; apply Qle_bool_iff; reflexivity))|];
  split; [apply nodupb_spec; reflexivity | cbn [length]; lia].

Ltac concrete_shape :=
  first [ labelled_shape
        | split; [intros _; split; reflexivity | discriminate] ].

Lemma detect_error_type_rules_confident (text l : string) (conf : Q)
    (alts : list (string * Q)) :
  ErrorRules.detect_error_type_rules text = (Some l, conf, alts) ->
  PyStr.truthy l = true /\ (75 # 100 <= conf)%Q.
Proof.
  pose (P := fun a : ErrorRules.Answer =>
               forall l conf alts,
                 a = (Some l, conf, alts) ->
                 PyStr.truthy l = true /\ (75 # 100 <= conf)%Q).
  assert (H : P (ErrorRules.detect_error_type_rules text)).
  { cbv beta zeta delta [ErrorRules.detect_error_type_rules].
    repeat apply (if_elim P); subst P; cbv beta; intros l' c' a' E;
      first [ discriminate
            | injection E as <- <- _;
              split; [reflexivity | apply Qle_bool_iff; reflexivity] ]. }
  intros E. exact (H _ _ _ E).
Qed.

(** X18. [detect_error_type_rules] either answers [(None, 0.0, [])] or
    answers a non-empty label with a confidence between 0.75 and 0.9;
    then the list of alternatives starts with that label and confidence,
    every later alternative has a strictly lower confidence, the list is
    in non-increasing order, names no label twice and has at most four
    entries. *)
Theorem error_rules_primary_leads_alternatives (text : string) :
  let '(label, conf, alts) := ErrorRules.detect_error_type_rules text in
  (label = None -> conf = 0%Q /\ alts = [])
  /\ (forall l, label = Some l ->
        PyStr.truthy l = true
        /\ (75 # 100 <= conf)%Q /\ (conf <= 9 # 10)%Q
        /\ hd_error alts = Some (l, conf)
        /\ Forall (fun a => (snd a < conf)%Q) (tl alts)
        /\ Spec.non_increasing snd alts
        /\ NoDup (map fst alts)
        /\ length alts <= 4).
Proof.
  change (Spec.answer_shape (ErrorRules.detect_error_type_rules text)).
  cbv beta zeta delta [ErrorRules.detect_error_type_rules].
  repeat apply (if_elim Spec.answer_shape).
  all: concrete_shape.
Qed.

Lemma error_rules_primary_leads_alternatives_witness :
  ErrorRules.detect_error_type_rules "PC restarts while gaming"
  = (Some "GPU Overheat", (8 # 10)%Q,
     [("GPU Overheat", (8 # 10)%Q); ("PSU / Power Issue", (5 # 10)%Q)])
  /\ (75 # 100 <= 8 # 10)%Q.
Proof.
  assert (E : ErrorRules.detect_error_type_rules "PC restarts while gaming"
              = (Some "GPU Overheat", (8 # 10)%Q,
                 [("GPU Overheat", (8 # 10)%Q);
                  ("PSU / Power Issue", (5 # 10)%Q)]))
    by (vm_compute; reflexivity).
  split; [exact E|].
  pose proof (error_rules_primary_leads_alternatives
                "PC restarts while gaming") as H.
  rewrite E in H. destruct H as [_ H].
  destruct (H _ eq_refl) as (_ & Hlo & _). exact Hlo.
Defined.

Lemma truthy_strip (text : string) :
  PyStr.truthy (PyStr.strip text) = true -> PyStr.truthy text = true.
Proof. destruct text; [discriminate | reflexivity]. Qed.

(** X19. With [detect_error_type_rules] as the second stage of
    [detect_error_type_hybrid]: on a non-blank text where the first rule
    stage is not confident (no label, or a confidence below 0.8), every
    label the keyword rules find is returned with source ["rules"], its
    own confidence and alternatives, and the model stage is not
    consulted. The 0.7 threshold of the second stage never rejects a
    match of these rules. *)
Theorem legacy_rule_match_bypasses_model (e : Detect.Env)
    (text l : string) (conf : Q) (alts : list (string * Q)) :
  PyStr.truthy (PyStr.strip text) = true ->
  Detect.truthy_label (fst (Detect.rule_based_error_type e (PyStr.strip text)))
  && Qle_bool (8 # 10) (snd (Detect.rule_based_error_type e (PyStr.strip text)))
  = false ->
  ErrorRules.detect_error_type_rules (PyStr.strip text)
  = (Some l, conf, alts) ->
  exists multi,
    Detect.detect_error_type_hybrid (ErrorRules.with_legacy_rules e) text
    = ([Detect.RuleBased; Detect.LegacyRules],
       Detect.mkDetection (Some l) conf "rules" alts multi).
Proof.
  intros Hs Hrule Hlegacy.
  destruct (detect_error_type_rules_confident _ _ _ _ Hlegacy) as [Ht Hlo].
  unfold Detect.detect_error_type_hybrid.
  rewrite (truthy_strip _ Hs), Hs. cbn [negb orb].
  cbn [ErrorRules.with_legacy_rules Detect.rule_based_error_type
       Detect.detect_error_type_rules].
  destruct (Detect.rule_based_error_type e (PyStr.strip text))
    as [rule_label rule_conf].
  cbn [fst snd] in Hrule. rewrite Hrule, Hlegacy.
  cbn [Detect.truthy_label]. rewrite Ht. cbn [andb].
  assert (Hq : Qle_bool (7 # 10) conf = true).
  { apply Qle_bool_iff. apply Qle_trans with (75 # 100)%Q;
      [apply Qle_bool_iff; reflexivity | exact Hlo]. }
  rewrite Hq. eexists. reflexivity.
Qed.

Lemma legacy_rule_match_bypasses_model_witness :
  exists multi,
    Detect.detect_error_type_hybrid
      (ErrorRules.with_legacy_rules Examples.silent_stages)
      "PC restarts while gaming"
    = ([Detect.RuleBased; Detect.LegacyRules],
       Detect.mkDetection (Some "GPU Overheat") (8 # 10)%Q "rules"
         [("GPU Overheat", (8 # 10)%Q); ("PSU / Power Issue", (5 # 10)%Q)]
         multi).
Proof.
  apply legacy_rule_match_bypasses_model; vm_compute; reflexivity.
Defined.

(** ** The hybrid detector *)

Lemma keyword_confidence_bounds (n : nat) :
  2 <= n ->
  (6 # 10 <= Detect.keyword_confidence n)%Q
  /\ (Detect.keyword_confidence n <= 8 # 10)%Q.
Proof.
  intros Hn. unfold Detect.keyword_confidence.
  destruct (Py.Qlt_bool _ _) eqn:E.
  - apply Qlt_bool_iff in E. split; [|now apply Qlt_le_weak].
    unfold Hierarchical.Q_of_nat, Qle, Qplus, Qmult, inject_Z.
    cbn [Qnum Qden]. lia.
  - split; [apply Qle_bool_iff; reflexivity | apply Qle_refl].
Qed.

Lemma scan_keywords_facts (text_lower : string)
    (table : Dict.dict (list string)) :
  NoDup (map fst table) ->
  let found :=
    flat_map
      (fun entry =>
         let n := Detect.match_count (snd entry) text_lower in
         if (2 <=? n)%nat then [(fst entry, Detect.keyword_confidence n)]
         else [])
      table in
  NoDup (map fst found)
  /\ incl (map fst found) (map fst table)
  /\ Forall (fun dt => (6 # 10 <= snd dt)%Q /\ (snd dt <= 8 # 10)%Q) found.
Proof.
  induction table as [|[k kws] table IH]; intros Hnd; cbn zeta.
  - split; [constructor|]. split; [intros x []|constructor].
  - inversion Hnd as [|? ? Hk Hrest]; subst.
    destruct (IH Hrest) as (IH1 & IH2 & IH3). cbn zeta in IH1, IH2, IH3.
    cbn [flat_map fst snd].
    destruct (2 <=? Detect.match_count kws text_lower)%nat eqn:E.
    + cbn [app map fst]. split; [|split].
      * constructor; [|exact IH1]. intros Hin. apply Hk. now apply IH2.
      * intros x [<- | Hx]; [now left | right; now apply IH2].
      * constructor; [|exact IH3]. cbn [snd].
        apply keyword_confidence_bounds. now apply Nat.leb_le.
    + cbn [app]. split; [exact IH1|]. split; [|exact IH3].
      intros x Hx. right. now apply IH2.
Qed.

Lemma detected_types_facts (text_lower : string) :
  Spec.non_increasing snd (Detect.detected_types text_lower)
  /\ NoDup (map fst (Detect.detected_types text_lower))
  /\ Forall Spec.entry_ok (Detect.detected_types text_lower).
Proof.
  unfold Detect.detected_types.
  assert (Hnd : NoDup (map fst Detect.error_keywords_multi))
    by (apply nodupb_spec; reflexivity).
  destruct (scan_keywords_facts text_lower _ Hnd) as (H1 & H2 & H3).
  cbn zeta in H1, H2, H3.
  set (found := flat_map _ _) in *.
  pose proof (sort_desc_perm snd found) as Hp.
  split; [apply sort_desc_sorted|]. split.
  - apply (Permutation_NoDup (l := map fst found)); [|exact H1].
    apply Permutation_map. now symmetry.
  - apply Forall_forall. intros dt Hdt.
    apply (Permutation_in _ Hp) in Hdt. split.
    + apply H2. now apply in_map.
    + rewrite Forall_forall in H3. now apply H3.
Qed.

Lemma filter_all {A} (p : A -> bool) (l : list A) :
  Forall (fun x => p x = true) l -> filter p l = l.
Proof.
  induction 1 as [|x l Hx _ IH]; [reflexivity|].
  cbn [filter]. now rewrite Hx, IH.
Qed.

Lemma high_confidence_filter_keeps_all (text_lower : string) :
  filter (fun dt => Qle_bool (5 # 10) (snd dt))
         (Detect.detected_types text_lower)
  = Detect.detected_types text_lower.
Proof.
  apply filter_all.
  destruct (detected_types_facts text_lower) as (_ & _ & H).
  eapply Forall_impl; [|exact H].
  intros dt (_ & Hlo & _). apply Qle_bool_iff.
  apply Qle_trans with (6 # 10)%Q; [apply Qle_bool_iff; reflexivity|exact Hlo].
Qed.

Lemma hybrid_multiple_cases (e : Detect.Env) (text : string) :
  Detect.multiple_types (snd (Detect.detect_error_type_hybrid e text)) = []
  \/ Detect.multiple_types (snd (Detect.detect_error_type_hybrid e text))
     = Spec.multiple_of text.
Proof.
  unfold Detect.detect_error_type_hybrid, Spec.multiple_of.
  destruct (negb (PyStr.truthy text) || negb (PyStr.truthy (PyStr.strip text)));
    [now left|].
  rewrite high_confidence_filter_keeps_all.
  destruct (Detect.rule_based_error_type e (PyStr.strip text))
    as [rule_label rule_conf].
  destruct (Detect.truthy_label rule_label && Qle_bool (8 # 10) rule_conf);
    [now right|].
  destruct (Detect.detect_error_type_rules e (PyStr.strip text))
    as [[legacy_label legacy_conf] legacy_alts].
  destruct (Detect.truthy_label legacy_label && Qle_bool (7 # 10) legacy_conf);
    [now right|].
  assert (Hafter : forall multi,
             Detect.multiple_types
               (Detect.after_ml rule_label rule_conf
                  (Detect.detected_types (PyStr.lower text)) multi) = []
             \/ Detect.multiple_types
                  (Detect.after_ml rule_label rule_conf
                     (Detect.detected_types (PyStr.lower text)) multi)
                = multi).
  { intros multi. unfold Detect.after_ml.
    destruct (Detect.truthy_label rule_label); [now right|].
    destruct (Detect.detected_types (PyStr.lower text));
      [now left | now right]. }
  destruct (Detect.detect_error_type_ml e (PyStr.strip text)) as [ml|m];
    [|apply Hafter].
  destruct (Detect.truthy_label (Detect.label ml)
            && Qle_bool (6 # 10) (Detect.confidence ml)); [now right|].
  destruct (Detect.truthy_label rule_label); [now right|].
  destruct (negb (Detect.source ml =? "none")); [now right|].
  apply Hafter.
Qed.

(** X20. The [multiple_types] of every answer of
    [detect_error_type_hybrid] hold no entry, two entries or three, never
    exactly one; they are in non-increasing order of confidence, name
    distinct keys of the keyword table, and every confidence lies between
    0.6 and 0.8. *)
Theorem multiple_types_come_in_twos_or_threes (e : Detect.Env)
    (text : string) :
  let m :=
    Detect.multiple_types (snd (Detect.detect_error_type_hybrid e text)) in
  (length m = 0 \/ length m = 2 \/ length m = 3)
  /\ Spec.non_increasing snd m
  /\ NoDup (map fst m)
  /\ Forall (fun dt =>
               In (fst dt) (map fst Detect.error_keywords_multi)
               /\ (6 # 10 <= snd dt)%Q /\ (snd dt <= 8 # 10)%Q) m.
Proof.
  cbn zeta.
  destruct (hybrid_multiple_cases e text) as [-> | ->].
  { split; [now left|]. split; [constructor|]. split; constructor. }
  unfold Spec.multiple_of.
  destruct (detected_types_facts (PyStr.lower text)) as (Hs & Hnd & Hall).
  set (detected := Detect.detected_types (PyStr.lower text)) in *.
  destruct (1 <? length detected)%nat eqn:E.
  2: { split; [now left|]. split; [constructor|]. split; constructor. }
  apply Nat.ltb_lt in E. split; [|split; [|split]].
  - rewrite length_firstn. lia.
  - now apply ssorted_firstn.
  - rewrite <- firstn_map. now apply NoDup_firstn.
  - apply Forall_forall. intros dt Hdt. apply firstn_incl in Hdt.
    rewrite Forall_forall in Hall. exact (Hall dt Hdt).
Qed.

Lemma truthy_label_some (l : option string) :
  Detect.truthy_label l = true -> l <> None.
Proof. now destruct l. Qed.

Lemma after_ml_labelled (rule_label : option string) (rule_conf : Q)
    (detected multi : list (string * Q)) :
  Detect.label (Detect.after_ml rule_label rule_conf detected multi) <> None.
Proof.
  unfold Detect.after_ml.
  destruct (Detect.truthy_label rule_label) eqn:E;
    [now apply truthy_label_some|].
  now destruct detected.
Qed.

Lemma ml_result_cases (e : Detect.Env) (text : string) (d : Detect.Detection) :
  Detect.detect_error_type_ml e text = Ok d ->
  d = Detect.none_result
  \/ (Detect.error_nlp_model e = true
      /\ Detect.label d = None /\ Detect.source d = "ml_low_conf"
      /\ (Detect.confidence d < 6 # 10)%Q)
  \/ (Detect.error_nlp_model e = true
      /\ Detect.label d <> None /\ Detect.source d = "ml"
      /\ (6 # 10 <= Detect.confidence d)%Q).
Proof.
  unfold Detect.detect_error_type_ml.
  destruct (Detect.error_nlp_model e); cbn [negb];
    [|intros [= <-]; now left].
  destruct (Detect.nlp_predict e (PyStr.strip text))
    as [[[best_label best_confidence] top3_list]|m]; cbn [bind];
    [|discriminate].
  destruct best_label as [b|]; [|intros [= <-]; now left].
  destruct (Py.Qlt_bool best_confidence (6 # 10)) eqn:E; intros [= <-].
  - right. left. apply Qlt_bool_iff in E. now repeat split.
  - right. right. repeat split; [discriminate|]. cbn [Detect.confidence].
    destruct (Qlt_le_dec best_confidence (6 # 10)) as [Hlt | Hle];
      [|exact Hle].
    apply Qlt_bool_iff in Hlt. congruence.
Qed.

(** X21. [detect_error_type_hybrid] answers without a label only in one
    situation: all three stages ran, a model is loaded and its best
    confidence is below 0.6 (source ["ml_low_conf"]), and the first rule
    stage gave no usable label. *)
Theorem hybrid_label_missing_only_after_unsure_model (e : Detect.Env)
    (text : string) :
  let '(stages, d) := Detect.detect_error_type_hybrid e text in
  Detect.label d = None ->
  Detect.source d = "ml_low_conf"
  /\ (Detect.confidence d < 6 # 10)%Q
  /\ stages = [Detect.RuleBased; Detect.LegacyRules; Detect.MLModel]
  /\ Detect.error_nlp_model e = true
  /\ Detect.truthy_label
       (fst (Detect.rule_based_error_type e (PyStr.strip text))) = false.
Proof.
  unfold Detect.detect_error_type_hybrid.
  destruct (negb (PyStr.truthy text) || negb (PyStr.truthy (PyStr.strip text)));
    [discriminate|].
  cbv zeta.
  destruct (Detect.rule_based_error_type e (PyStr.strip text))
    as [rule_label rule_conf]. cbn [fst].
  destruct (Detect.truthy_label rule_label && Qle_bool (8 # 10) rule_conf)
    eqn:E1.
  { apply andb_prop in E1. destruct E1 as [E1 _].
    intros H. now apply truthy_label_some in E1. }
  destruct (Detect.detect_error_type_rules e (PyStr.strip text))
    as [[legacy_label legacy_conf] legacy_alts].
  destruct (Detect.truthy_label legacy_label && Qle_bool (7 # 10) legacy_conf)
    eqn:E2.
  { apply andb_prop in E2. destruct E2 as [E2 _].
    intros H. now apply truthy_label_some in E2. }
  destruct (Detect.detect_error_type_ml e (PyStr.strip text)) as [ml|m] eqn:M.
  2: { intros H. now apply after_ml_labelled in H. }
  destruct (Detect.truthy_label (Detect.label ml)
            && Qle_bool (6 # 10) (Detect.confidence ml)) eqn:E3.
  { apply andb_prop in E3. destruct E3 as [E3 _].
    intros H. now apply truthy_label_some in E3. }
  destruct (Detect.truthy_label rule_label) eqn:E4.
  { intros H. now apply truthy_label_some in E4. }
  destruct (negb (Detect.source ml =? "none")) eqn:E5.
  2: { intros H. now apply after_ml_labelled in H. }
  cbn [Detect.with_multiple Detect.label Detect.source Detect.confidence].
  intros H.
  destruct (ml_result_cases _ _ _ M)
    as [-> | [(Hm & _ & Hsrc & Hc) | (_ & Hl & _)]];
    [discriminate | | contradiction].
  now repeat split.
Qed.

Lemma hybrid_label_missing_only_after_unsure_model_witness :
  Detect.label (snd (Detect.detect_error_type_hybrid Examples.unsure_model
                       "something odd")) = None
  /\ Detect.source (snd (Detect.detect_error_type_hybrid Examples.unsure_model
                           "something odd")) = "ml_low_conf".
Proof.
  pose proof (hybrid_label_missing_only_after_unsure_model
                Examples.unsure_model "something odd") as H.
  destruct (Detect.detect_error_type_hybrid Examples.unsure_model "something odd")
    as [stages d] eqn:E.
  assert (Hl : Detect.label d = None).
  { apply (f_equal snd) in E. cbn [snd] in E. rewrite <- E.
    vm_compute. reflexivity. }
  cbn [snd]. split; [exact Hl|]. now destruct (H Hl).
Defined.

(** ** Merging corrections into the training frame *)

Lemma same_key_eq (a b : Retrain.Row) :
  Merge.same_key a b = true <-> a = b.
Proof.
  destruct a as [t l], b as [t' l']. unfold Merge.same_key.
  cbn [Retrain.text Retrain.component_label].
  rewrite andb_true_iff, !String.eqb_eq. split.
  - now intros [-> ->].
  - now intros [= -> ->].
Qed.

Lemma seen_spec (r : Retrain.Row) (seen : list Retrain.Row) :
  existsb (Merge.same_key r) seen = true <-> In r seen.
Proof.
  rewrite existsb_exists. split.
  - intros (x & Hx & E). apply same_key_eq in E. now subst.
  - intros H. exists r. split; [exact H | now apply same_key_eq].
Qed.

Lemma drop_duplicates_from_in (l seen : list Retrain.Row) (r : Retrain.Row) :
  In r (Merge.drop_duplicates_from seen l) <-> In r l /\ ~ In r seen.
Proof.
  revert seen. induction l as [|x l IH]; intros seen; cbn [Merge.drop_duplicates_from].
  - cbn. tauto.
  - destruct (existsb (Merge.same_key x) seen) eqn:E.
    + apply seen_spec in E. rewrite IH. cbn [In]. split.
      * intros [H1 H2]. now split; [right|].
      * intros [[<- | H1] H2]; [contradiction | now split].
    + assert (Hx : ~ In x seen).
      { intros H. apply seen_spec in H. congruence. }
      cbn [In]. rewrite IH. cbn [In]. split.
      * intros [<- | [H1 H2]]; [now split; [left|]|].
        split; [now right | tauto].
      * intros [[<- | H1] H2]; [now left|].
        destruct (Merge.same_key x r) eqn:K;
          [apply same_key_eq in K; now left|].
        right. split; [exact H1|]. intros [H | H]; [|tauto].
        apply same_key_eq in H. congruence.
Qed.

Lemma drop_duplicates_from_nodup (l seen : list Retrain.Row) :
  NoDup (Merge.drop_duplicates_from seen l).
Proof.
  revert seen. induction l as [|x l IH]; intros seen;
    cbn [Merge.drop_duplicates_from]; [constructor|].
  destruct (existsb (Merge.same_key x) seen); [apply IH|].
  constructor; [|apply IH].
  rewrite drop_duplicates_from_in. cbn [In]. tauto.
Qed.

Lemma normalize_fixed (c : Merge.Cell) :
  Spec.normalized (Merge.normalize c) = Merge.normalize c.
Proof.
  unfold Spec.normalized, Merge.normalize.
  now rewrite <- strip_lower, lower_idem, strip_idem.
Qed.

Lemma original_frame_normalized (training : list Merge.TrainingRow)
    (r : Retrain.Row) :
  In r (Merge.original_frame training) ->
  Spec.normalized (Retrain.text r) = Retrain.text r.
Proof.
  unfold Merge.original_frame. rewrite in_flat_map.
  intros (x & _ & Hr).
  destruct (Merge.user_text x) as [t|]; [|destruct Hr].
  destruct (Merge.component_label x) as [l|]; [|destruct Hr].
  destruct Hr as [<- | []]. apply normalize_fixed.
Qed.

Lemma feedback_training_normalized (rows : list Merge.FeedbackRow)
    (r : Retrain.Row) :
  In r (Merge.feedback_training rows) ->
  Spec.normalized (Retrain.text r) = Retrain.text r
  /\ Retrain.component_label r <> "".
Proof.
  unfold Merge.feedback_training. rewrite in_flat_map.
  intros (x & _ & Hr). unfold Merge.correction in Hr.
  destruct (Merge.user_correct_label x) as [l|]; [|destruct Hr].
  destruct (String.eqb l "") eqn:E; [destruct Hr|].
  destruct Hr as [<- | []]. split; [apply normalize_fixed|].
  cbn [Retrain.component_label]. now apply String.eqb_neq.
Qed.

Lemma merge_cases (training : list Merge.TrainingRow)
    (feedback : option (list Merge.FeedbackRow)) :
  (Spec.corrections feedback = []
   /\ Merge.merge_feedback_with_training training feedback
      = Merge.original_frame training)
  \/ (Spec.corrections feedback <> []
      /\ Merge.merge_feedback_with_training training feedback
         = Merge.drop_duplicates
             (Merge.original_frame training ++ Spec.corrections feedback)%list).
Proof.
  unfold Merge.merge_feedback_with_training, Spec.corrections.
  destruct feedback as [[|x rows]|]; [now left | | now left].
  destruct (Merge.feedback_training (x :: rows)) as [|y ys];
    [now left | right]. split; [discriminate | reflexivity].
Qed.

(** X22. The frame returned by [merge_feedback_with_training] holds
    exactly the (text, label) pairs of the usable training rows and of the
    feedback rows that carry a correction, and every text in it is
    lowercased and trimmed. *)
Theorem merged_frame_is_the_union (training : list Merge.TrainingRow)
    (feedback : option (list Merge.FeedbackRow)) (r : Retrain.Row) :
  (In r (Merge.merge_feedback_with_training training feedback)
   <-> In r (Merge.original_frame training)
       \/ In r (Spec.corrections feedback))
  /\ (In r (Merge.merge_feedback_with_training training feedback) ->
      Spec.normalized (Retrain.text r) = Retrain.text r).
Proof.
  assert (Hiff : In r (Merge.merge_feedback_with_training training feedback)
                 <-> In r (Merge.original_frame training)
                     \/ In r (Spec.corrections feedback)).
  { destruct (merge_cases training feedback) as [[E ->] | [_ ->]].
    - rewrite E. cbn [In]. tauto.
    - unfold Merge.drop_duplicates. rewrite drop_duplicates_from_in, in_app_iff.
      cbn [In]. tauto. }
  split; [exact Hiff|]. intros H. apply Hiff in H. destruct H as [H | H].
  - now apply original_frame_normalized in H.
  - unfold Spec.corrections in H. destruct feedback as [rows|]; [|destruct H].
    now apply feedback_training_normalized in H.
Qed.

Lemma merged_frame_is_the_union_witness :
  In (Retrain.mkRow "pc is slow" "SSD Upgrade")
     (Merge.merge_feedback_with_training Examples.training_file
        Examples.feedback_file)
  /\ Spec.normalized "pc is slow" = "pc is slow".
Proof.
  destruct (merged_frame_is_the_union Examples.training_file
              Examples.feedback_file
              (Retrain.mkRow "pc is slow" "SSD Upgrade")) as [Hiff Hn].
  assert (Hin : In (Retrain.mkRow "pc is slow" "SSD Upgrade")
                   (Merge.merge_feedback_with_training
                      Examples.training_file Examples.feedback_file)).
  { apply Hiff. right. vm_compute. left. reflexivity. }
  split; [exact Hin | exact (Hn Hin)].
Defined.

(** X23. The merged frame is free of repeated (text, label) pairs exactly
    when the training rows already were, or when at least one feedback row
    carries a correction: without a correction the training rows are
    returned as they are, repetitions included. *)
Theorem merge_deduplicates_only_with_corrections
    (training : list Merge.TrainingRow)
    (feedback : option (list Merge.FeedbackRow)) :
  NoDup (Merge.merge_feedback_with_training training feedback)
  <-> NoDup (Merge.original_frame training) \/ Spec.corrections feedback <> [].
Proof.
  destruct (merge_cases training feedback) as [[E ->] | [Hne ->]].
  - rewrite E. split; [now left | intros [H | H]; [exact H | contradiction]].
  - split; [now right|]. intros _. apply drop_duplicates_from_nodup.
Qed.

(** ** The feedback endpoint *)

Lemma differs_spec (c : string) (predicted : option string) :
  Feedback.differs (Some c) predicted = true <-> predicted <> Some c.
Proof.
  destruct predicted as [p|]; cbn [Feedback.differs].
  - rewrite negb_true_iff, String.eqb_neq. split; congruence.
  - split; [discriminate | reflexivity].
Qed.

(** X24. [product_need_feedback] has three outcomes. It raises 503 when
    the feedback module is missing, and the file is untouched. It raises
    500 when the writes do not complete; the file then still starts with
    what it held, followed by at most the header and the new line. It
    answers [Saved] only when the writes complete: the file then holds
    what it held before (the header line when it did not exist) followed
    by one new line, whose cells are the clock reading, the text, the
    predicted label or an empty cell, the printed confidence, the
    correction or an empty cell, the source, and [True] exactly when a
    correction is given that differs from the predicted label, [False]
    otherwise; the count reported is the one read back from that file. *)
Theorem feedback_endpoint_outcomes (available : bool) (w : Feedback.Write)
    (format_4f : Q -> string)
    (read_csv : list Feedback.Line -> result nat) (now : string)
    (f : Feedback.Csv) (text : string) (predicted_label : option string)
    (confidence : Q) (user_correct_label : option string)
    (source : string) :
  let '(f', outcome) :=
    FeedbackApi.product_need_feedback available w format_4f read_csv now f
      text predicted_label confidence user_correct_label source in
  match outcome with
  | FeedbackApi.Saved _ count =>
      available = true /\ w = Feedback.Completes
      /\ count = FeedbackApi.get_feedback_count read_csv f'
      /\ exists review,
           f' = Some (match f with
                      | Some held => held
                      | None => [Feedback.HEADER]
                      end
                      ++ [[now; text; Feedback.or_empty predicted_label;
                           format_4f confidence;
                           Feedback.or_empty user_correct_label; source;
                           review]])%list
           /\ (review = "True" \/ review = "False")
           /\ (review = "True"
               <-> exists c, user_correct_label = Some c
                             /\ predicted_label <> Some c)
  | FeedbackApi.HTTPException status _ =>
      (status = 503 /\ available = false /\ f' = f)
      \/ (status = 500 /\ available = true /\ w <> Feedback.Completes
          /\ exists added,
               Feedback.lines f' = (Feedback.lines f ++ added)%list
               /\ length added <= 2)
  end.
Proof.
  unfold FeedbackApi.product_need_feedback.
  destruct available; cbn [negb]; [|left; now repeat split].
  pose proof (save_feedback_appends w format_4f now f text predicted_label
                confidence user_correct_label source) as (added & Hl & Hn).
  unfold Feedback.save_feedback in *.
  destruct w as [| |written]; cbn [fst] in Hl.
  - split; [reflexivity|]. split; [reflexivity|]. split; [reflexivity|].
    unfold Feedback.data_row.
    exists (Feedback.str_bool
              match user_correct_label with
              | Some _ => Feedback.differs user_correct_label predicted_label
              | None => false
              end).
    split; [now destruct f|].
    destruct user_correct_label as [c|]; cbn [Feedback.str_bool].
    + destruct (Feedback.differs (Some c) predicted_label) eqn:D;
        cbn [Feedback.str_bool].
      * split; [now left|]. split; [intros _|reflexivity].
        exists c. split; [reflexivity | now apply differs_spec].
      * split; [now right|]. split; [discriminate|].
        intros (c' & [= <-] & Hne). apply differs_spec in Hne. congruence.
    + split; [now right|]. split; [discriminate | now intros (c & E & _)].
  - right. split; [reflexivity|]. split; [reflexivity|].
    split; [discriminate|]. exists added. split; [exact Hl|].
    destruct f; lia.
  - right. split; [reflexivity|]. split; [reflexivity|].
    split; [discriminate|]. exists added. split; [exact Hl|].
    destruct f; lia.
Qed.

(** ** The earlier error-type detector *)

Lemma fallback_confidence_bound (n : nat) :
  (LegacyDetect.fallback_confidence n <= 5 # 10)%Q.
Proof.
  unfold LegacyDetect.fallback_confidence.
  destruct (Py.Qlt_bool _ _) eqn:E; [|apply Qle_refl].
  apply Qlt_bool_iff in E. now apply Qlt_le_weak.
Qed.

Lemma error_matches_bound (text_lower : string) :
  Forall (fun m => (snd m <= 5 # 10)%Q)
         (LegacyDetect.error_matches text_lower).
Proof.
  unfold LegacyDetect.error_matches.
  apply Forall_forall. intros m Hm.
  apply (Permutation_in _ (sort_desc_perm snd _)) in Hm.
  apply in_flat_map in Hm. destruct Hm as (entry & _ & Hm).
  cbv zeta in Hm.
  destruct (0 <? Detect.match_count (snd entry) text_lower)%nat;
    [|destruct Hm].
  destruct Hm as [<- | []]. apply fallback_confidence_bound.
Qed.

(** X25. The earlier detector [detect_error_type]: its label is missing
    exactly when the source is ["ml_low_conf"], and then the confidence is
    below the threshold passed in. On a non-blank text, a label found by
    [detect_error_type_rules] is the answer, with source ["rules"], whatever
    the model predicts and whatever the threshold is: the later step that
    would use a rule label of lower confidence is never reached. A
    ["rules"] answer is the answer of the keyword rules, and a
    ["fallback"] answer has a confidence of at most 0.5 and at most three
    alternatives. *)
Theorem legacy_detector_outcomes
    (predict_error_type_nlp :
       string -> option string * Q * list (string * Q))
    (text : string) (confidence_threshold : Q) :
  let '(label, conf, source, alts) :=
    LegacyDetect.detect_error_type predict_error_type_nlp text
      confidence_threshold in
  (label = None <-> source = "ml_low_conf")
  /\ (source = "ml_low_conf" -> (conf < confidence_threshold)%Q)
  /\ (forall l c a,
        PyStr.truthy (PyStr.strip text) = true ->
        ErrorRules.detect_error_type_rules (PyStr.strip text)
        = (Some l, c, a) ->
        (label, conf, source, alts) = (Some l, c, "rules", a))
  /\ (source = "rules" ->
      ErrorRules.detect_error_type_rules (PyStr.strip text)
      = (label, conf, alts))
  /\ (source = "fallback" -> (conf <= 5 # 10)%Q /\ length alts <= 3).
Proof.
  unfold LegacyDetect.detect_error_type.
  destruct (PyStr.truthy (PyStr.strip text)) eqn:Hs.
  2: { rewrite orb_true_r.
       split; [split; discriminate|]. split; [discriminate|].
       split; [discriminate|]. split; [discriminate|].
       intros _. split; [apply Qle_bool_iff; reflexivity | cbn; lia]. }
  rewrite (truthy_strip _ Hs). cbn [negb orb].
  destruct (ErrorRules.detect_error_type_rules (PyStr.strip text))
    as [[rule_label rule_conf] rule_alternatives] eqn:R.
  assert (Hrule : Detect.truthy_label rule_label
                  && Qle_bool (7 # 10) rule_conf
                  = Detect.truthy_label rule_label).
  { destruct rule_label as [l|]; [|reflexivity].
    destruct (detect_error_type_rules_confident _ _ _ _ R) as [Ht Hlo].
    cbn [Detect.truthy_label]. rewrite Ht. cbn [andb].
    apply Qle_bool_iff. apply Qle_trans with (75 # 100)%Q;
      [apply Qle_bool_iff; reflexivity | exact Hlo]. }
  rewrite Hrule.
  destruct (Detect.truthy_label rule_label) eqn:Hl.
  { split; [split; [intros ->; discriminate | discriminate]|].
    split; [discriminate|]. split; [now intros l c a _ [= <- <- <-]|].
    split; [reflexivity | discriminate]. }
  assert (Hnone : forall l c a,
             true = true -> (rule_label, rule_conf, rule_alternatives)
                            = (Some l, c, a) -> False).
  { intros l c a _ [= -> <- <-].
    destruct (detect_error_type_rules_confident _ _ _ _ R) as [Ht _].
    cbn [Detect.truthy_label] in Hl. congruence. }
  destruct (predict_error_type_nlp (PyStr.strip text))
    as [[best_label best_confidence] top3].
  destruct (Detect.truthy_label best_label) eqn:Hb.
  - destruct (Qle_bool confidence_threshold best_confidence) eqn:Hq.
    + split; [split; [intros ->; discriminate | discriminate]|].
      split; [discriminate|].
      split; [intros l c a H1 H2; destruct (Hnone l c a H1 H2)|].
      split; discriminate.
    + split; [split; reflexivity|]. split.
      { intros _.
        destruct (Qlt_le_dec best_confidence confidence_threshold)
          as [Hlt | Hle]; [exact Hlt|].
        apply Qle_bool_iff in Hle. congruence. }
      split; [intros l c a H1 H2; destruct (Hnone l c a H1 H2)|].
      split; discriminate.
  - pose proof (error_matches_bound (PyStr.lower text)) as Hm.
    destruct (LegacyDetect.error_matches (PyStr.lower text))
      as [|best_match rest].
    + split; [split; discriminate|]. split; [discriminate|].
      split; [intros l c a H1 H2; destruct (Hnone l c a H1 H2)|].
      split; [discriminate|]. intros _.
      split; [apply Qle_bool_iff; reflexivity | cbn; lia].
    + split; [split; discriminate|]. split; [discriminate|].
      split; [intros l c a H1 H2; destruct (Hnone l c a H1 H2)|].
      split; [discriminate|]. intros _.
      split; [now apply Forall_inv in Hm|].
      rewrite length_firstn. lia.
Qed.

Lemma legacy_detector_outcomes_witness :
  LegacyDetect.detect_error_type
    (fun _ => (Some "RAM Upgrade", (9 # 10)%Q, []))
    "PC restarts while gaming" (6 # 10)%Q
  = (Some "GPU Overheat", (8 # 10)%Q, "rules",
     [("GPU Overheat", (8 # 10)%Q); ("PSU / Power Issue", (5 # 10)%Q)]).
Proof.
  pose proof (legacy_detector_outcomes
                (fun _ => (Some "RAM Upgrade", (9 # 10)%Q, []))
                "PC restarts while gaming" (6 # 10)%Q) as H.
  destruct (LegacyDetect.detect_error_type _ _ _)
    as [[[label conf] source] alts].
  destruct H as (_ & _ & H & _).
  apply H; vm_compute; reflexivity.
Defined.
